(** * Dialogorithm: phone-number formatting and equation composition

  A shallow embedding of [support_files/phone_formats.py],
  [support_files/equation_bank.py] and [latex_processor.py], followed by
  the properties established about them.

  Python [str] values are modelled by [string]; a character stands for the
  Unicode code point of the same number (the range U+0000..U+00FF), so the
  builtins [str.isdigit] and [str.strip] are given their behaviour on that
  range.  Python [int] is [Z], [len] is a [nat], the [set] of used formulas
  is a [gset string], and the process-wide random generator is a tape of
  raw draws threaded through an error/state monad.  Logging has no effect
  on any value and is left out. *)

From Stdlib Require Import ZArith Ascii String List Lia DecimalString DecimalNat.
From stdpp Require Import base decidable option list gmap strings sorting.

Local Open Scope string_scope.
Local Open Scope nat_scope.

(** ** Python string builtins *)

Module PyStr.

(** [c.isdigit()] for a single character: the decimal digits and the
    superscript digits U+00B2, U+00B3, U+00B9. *)
Definition isdigit_char (c : ascii) : bool :=
  let n := N_of_ascii c in
  ((48 <=? n) && (n <=? 57) || (n =? 178) || (n =? 179) || (n =? 185))%N.

(** [c.isspace()] for a single character. *)
Definition isspace_char (c : ascii) : bool :=
  let n := N_of_ascii c in
  ((9 <=? n) && (n <=? 13) || (28 <=? n) && (n <=? 32)
   || (n =? 133) || (n =? 160))%N.

Fixpoint all_chars (p : ascii → bool) (s : string) : bool :=
  match s with
  | "" => true
  | String c s' => p c && all_chars p s'
  end.

(** [s.isdigit()]: every character is a digit and there is at least one. *)
Definition isdigit (s : string) : bool :=
  match s with
  | "" => false
  | _ => all_chars isdigit_char s
  end.

(** [''.join(filter(p, s))] *)
Fixpoint s_filter (p : ascii → bool) (s : string) : string :=
  match s with
  | "" => ""
  | String c s' => if p c then String c (s_filter p s') else s_filter p s'
  end.

(** [s[:n]] and [s[n:]] for [n >= 0] *)
Fixpoint s_take (n : nat) (s : string) : string :=
  match n, s with
  | S n', String c s' => String c (s_take n' s')
  | _, _ => ""
  end.

Fixpoint s_drop (n : nat) (s : string) : string :=
  match n, s with
  | S n', String _ s' => s_drop n' s'
  | _, _ => s
  end.

(** [s[a:b]] for [0 <= a], [0 <= b] *)
Definition slice (a b : nat) (s : string) : string := s_take (b - a) (s_drop a s).

(** [s[:-k]] and [s[-k:]] for [k > 0] *)
Definition slice_to_neg (k : nat) (s : string) : string :=
  s_take (String.length s - k) s.
Definition slice_from_neg (k : nat) (s : string) : string :=
  s_drop (String.length s - k) s.

(** [s.lstrip()], [s.rstrip()], [s.strip()] *)
Fixpoint lstrip (s : string) : string :=
  match s with
  | String c s' => if isspace_char c then lstrip s' else s
  | "" => ""
  end.
Fixpoint rstrip (s : string) : string :=
  match s with
  | String c s' =>
    match rstrip s' with
    | "" => if isspace_char c then "" else String c ""
    | r => String c r
    end
  | "" => ""
  end.
Definition strip (s : string) : string := rstrip (lstrip s).

(** [s.startswith(c)] for a one-character prefix *)
Definition startswith (c : ascii) (s : string) : bool :=
  match s with
  | String c' _ => bool_decide (c' = c)
  | "" => false
  end.

(** [sep.join(parts)] *)
Fixpoint join (sep : string) (parts : list string) : string :=
  match parts with
  | [] => ""
  | [p] => p
  | p :: rest => p ++ sep ++ join sep rest
  end.

(** [re.findall(r'.{1,2}', s)]: greedy non-overlapping runs of one or two
    characters, where [.] matches anything but a newline. *)
Definition is_newline (c : ascii) : bool := (N_of_ascii c =? 10)%N.

Fixpoint findall_dot_1_2_aux (fuel : nat) (s : string) : list string :=
  match fuel with
  | O => []
  | S fuel' =>
    match s with
    | "" => []
    | String c1 s1 =>
      if is_newline c1 then findall_dot_1_2_aux fuel' s1
      else match s1 with
           | String c2 s2 =>
             if is_newline c2 then String c1 "" :: findall_dot_1_2_aux fuel' s2
             else String c1 (String c2 "") :: findall_dot_1_2_aux fuel' s2
           | "" => [String c1 ""]
           end
    end
  end.
Definition findall_dot_1_2 (s : string) : list string :=
  findall_dot_1_2_aux (String.length s) s.

(** [str(n)] for a non-negative integer *)
Definition str_of_nat (n : nat) : string := NilZero.string_of_uint (Nat.to_uint n).

End PyStr.

(** ** support_files/phone_formats.py *)

Module PhoneFormats.
Import PyStr.

(** A dict literal: later bindings of a key replace earlier ones. *)
Definition dict_literal (entries : list (Z * Z)) : gmap Z Z :=
  fold_left (λ m kv, <[kv.1 := kv.2]> m) entries ∅.

Definition LOCAL_DIGIT_LIMITS_entries : list (Z * Z) :=
 [(1, 10); (7, 10); (20, 9); (27, 9); (30, 10); (31, 9); (32, 9); (33, 10);
  (34, 9); (36, 9); (39, 10); (40, 9); (41, 9); (43, 11); (44, 11); (45, 8);
  (46, 9); (47, 8); (48, 9); (49, 11); (51, 9); (52, 10); (53, 8); (54, 10);
  (55, 11); (56, 9); (57, 10); (58, 10); (60, 9); (61, 9); (62, 11); (63, 10);
  (64, 9); (65, 8); (66, 9); (81, 10); (82, 10); (84, 9); (86, 11); (90, 10);
  (91, 10); (92, 10); (93, 9); (94, 9); (95, 9); (98, 10); (211, 9); (212, 9);
  (213, 9); (216, 8); (218, 9); (220, 7); (221, 9); (222, 8); (223, 8); (224, 9);
  (225, 8); (226, 8); (227, 8); (228, 8); (229, 8); (230, 7); (231, 8); (232, 8);
  (233, 9); (234, 10); (235, 8); (236, 8); (237, 9); (238, 7); (239, 7); (240, 9);
  (241, 8); (242, 9); (243, 9); (244, 9); (245, 7); (248, 7); (249, 9); (250, 9);
  (251, 9); (252, 8); (253, 8); (254, 9); (255, 9); (256, 9); (257, 8); (258, 9);
  (260, 9); (261, 10); (262, 9); (263, 9); (264, 9); (265, 9); (266, 8); (267, 8);
  (268, 8); (269, 7); (290, 4); (291, 7); (297, 7); (298, 6); (299, 6); (350, 8);
  (351, 9); (352, 9); (353, 9); (354, 7); (355, 9); (356, 8); (357, 8); (358, 10);
  (359, 9); (370, 8); (371, 8); (372, 8); (373, 8); (374, 8); (375, 9); (376, 6);
  (377, 8); (378, 10); (380, 9); (381, 9); (382, 8); (383, 8); (385, 9); (386, 8);
  (387, 8); (389, 8); (420, 9); (421, 9); (423, 7); (500, 5); (501, 7); (502, 8);
  (503, 8); (504, 8); (505, 8); (506, 8); (507, 8); (508, 6); (509, 8); (590, 9);
  (591, 8); (592, 7); (593, 9); (594, 9); (595, 9); (596, 9); (597, 7); (598, 8);
  (599, 7); (670, 8); (671, 7); (672, 6); (673, 7); (674, 7); (675, 8); (676, 7);
  (677, 7); (678, 7); (679, 7); (680, 7); (681, 6); (682, 5); (683, 4); (684, 7);
  (685, 7); (686, 8); (687, 6); (688, 5); (689, 8); (690, 4); (691, 7); (692, 7);
  (850, 10); (852, 8); (853, 8); (855, 9); (856, 10); (872, 6); (880, 10); (886, 9);
  (960, 7); (961, 8); (962, 9); (963, 9); (964, 10); (965, 8); (966, 9); (967, 9);
  (968, 8); (970, 9); (971, 9); (972, 9); (973, 8); (974, 8); (975, 8); (976, 8);
  (977, 10); (992, 9); (993, 8); (994, 9); (995, 9); (996, 9); (998, 9)]%Z.

Definition LOCAL_DIGIT_LIMITS_BY_CODE : gmap Z Z :=
  dict_literal LOCAL_DIGIT_LIMITS_entries.

(** [LOCAL_DIGIT_LIMITS_BY_CODE.get(country_code, 15)] *)
Definition get_digit_limit (country_code : Z) : Z :=
  default 15%Z (LOCAL_DIGIT_LIMITS_BY_CODE !! country_code).

Definition len (s : string) : nat := String.length s.

(** The country-specific branch of the if/elif chain; [None] when control
    falls out of the chain without returning.  [digits[0]] is only reached
    with [len(digits) >= 9], where it is [digits[0:1]]. *)
Definition country_rule (digits : string) (country_code : Z) : option string :=
  let n := len digits in
  if bool_decide (country_code = 1%Z) && (n =? 10) then
    Some ("(" ++ s_take 3 digits ++ ") " ++ slice 3 6 digits ++ "-" ++ s_drop 6 digits)
  else if bool_decide (country_code = 44%Z) then
    if n =? 10 then Some (s_take 4 digits ++ " " ++ s_drop 4 digits)
    else if n =? 11 then Some (s_take 5 digits ++ " " ++ s_drop 5 digits)
    else None
  else if bool_decide (country_code = 33%Z) && (9 <=? n) then
    if n =? 10 then
      Some (slice 0 1 digits ++ " " ++ slice 1 3 digits ++ " " ++ slice 3 5 digits
            ++ " " ++ slice 5 7 digits ++ " " ++ slice 7 9 digits)
    else Some (join " " (findall_dot_1_2 digits))
  else if bool_decide (country_code = 49%Z) && (10 <=? n) then
    Some (s_take 4 digits ++ " " ++ s_drop 4 digits)
  else if bool_decide (country_code = 81%Z) && (n =? 10) then
    Some (s_take 2 digits ++ "-" ++ slice 2 6 digits ++ "-" ++ s_drop 6 digits)
  else if bool_decide (country_code = 82%Z) && (9 <=? n) then
    Some (s_take 2 digits ++ "-" ++ slice 2 5 digits ++ "-" ++ s_drop 5 digits)
  else if bool_decide (country_code = 86%Z) && (n =? 11) then
    Some (s_take 3 digits ++ " " ++ slice 3 7 digits ++ " " ++ s_drop 7 digits)
  else if bool_decide (country_code = 91%Z) && (n =? 10) then
    Some (s_take 5 digits ++ " " ++ s_drop 5 digits)
  else if bool_decide (country_code = 61%Z) && (n =? 9) then
    Some (slice 0 1 digits ++ " " ++ slice 1 5 digits ++ " " ++ s_drop 5 digits)
  else if bool_decide (country_code = 55%Z) && ((n =? 10) || (n =? 11)) then
    if n =? 11 then
      Some ("(" ++ s_take 2 digits ++ ") " ++ slice 2 7 digits ++ "-" ++ s_drop 7 digits)
    else
      Some ("(" ++ s_take 2 digits ++ ") " ++ slice 2 6 digits ++ "-" ++ s_drop 6 digits)
  else None.

(** The generic fallback after the chain. *)
Definition generic_rule (digits : string) : string :=
  let n := len digits in
  if n <=? 6 then digits
  else if n <=? 10 then s_take 3 digits ++ " " ++ slice 3 6 digits ++ " " ++ s_drop 6 digits
  else s_take 3 digits ++ " " ++ slice 3 6 digits ++ " " ++ slice 6 10 digits
       ++ " " ++ s_drop 10 digits.

Definition format_display_number (digits : string) (country_code : Z) : string :=
  if bool_decide (digits = "") then ""
  else match country_rule digits country_code with
       | Some formatted => formatted
       | None => generic_rule digits
       end.

Definition validate_digit_input (current_digits : string) (country_code : Z) : bool :=
  if negb (isdigit current_digits) then false
  else
    let max_digits := get_digit_limit country_code in
    bool_decide (Z.of_nat (len current_digits) ≤ max_digits)%Z.

End PhoneFormats.

(** ** Interpreter state: exceptions, the random generator, the used set *)

Module Runtime.

Inductive Exn : Type :=
| ValueError (msg : string)
| IndexError (msg : string).

Inductive Result (A : Type) : Type :=
| Ok (a : A)
| Raise (e : Exn).
Arguments Ok {A} a.
Arguments Raise {A} e.

(** [tape] holds the raw draws the generator will hand out, in order (an
    exhausted tape keeps answering 0); [used_formulas] is the set object
    created by one call of the composer. *)
Record State : Type := mkState {
  tape : list nat;
  used_formulas : gset string
}.

Definition M (A : Type) : Type := State → Result A * State.

Definition ret {A} (a : A) : M A := λ st, (Ok a, st).
Definition raise {A} (e : Exn) : M A := λ st, (Raise e, st).
Definition bind {A B} (m : M A) (k : A → M B) : M B :=
  λ st, match m st with
        | (Ok a, st') => k a st'
        | (Raise e, st') => (Raise e, st')
        end.

(** [random._randbelow(n)] *)
Definition randbelow (n : nat) : M nat :=
  λ st, match tape st with
        | [] => (Ok 0, st)
        | r :: rest => (Ok (r mod n), mkState rest (used_formulas st))
        end.

(** [random.randint(a, b)] *)
Definition randint (a b : nat) : M nat :=
  bind (randbelow (b - a + 1)) (λ r, ret (a + r)).

(** [random.choice(seq)]: [IndexError] on an empty sequence. *)
Definition choice (seq : list string) : M string :=
  match seq with
  | [] => raise (IndexError "Cannot choose from an empty sequence")
  | x :: _ => bind (randbelow (length seq)) (λ i, ret (nth i seq x))
  end.

Definition get_used : M (gset string) := λ st, (Ok (used_formulas st), st).
(** [used_formulas.add(s)] *)
Definition add_used (s : string) : M unit :=
  λ st, (Ok tt, mkState (tape st) ({[s]} ∪ used_formulas st)).
(** [used_formulas = set()] *)
Definition fresh_used : M unit := λ st, (Ok tt, mkState (tape st) ∅).

End Runtime.

Declare Scope py_scope.
Delimit Scope py_scope with py.
Notation "x ← m ; k" := (Runtime.bind m (λ x, k))
(at level 20, m at level 100, k at level 200, only parsing) : py_scope.
Notation "m ;; k" := (Runtime.bind m (λ _, k))
(at level 100, k at level 200, right associativity, only parsing) : py_scope.
Local Open Scope py_scope.

(** ** support_files/equation_bank.py *)

Module EquationBank.
Import PyStr Runtime.

Definition get_rand_int (min_val max_val : nat) : M nat := randint min_val max_val.

Definition eq_plus : string := "\mathbf{+}".

(** [rf"\mathbf{{\textit{{({digit_char})}}}}"] *)
Definition eq_placeholder (digit_char : string) : string :=
  "\mathbf{\textit{(" ++ digit_char ++ ")}}".

Definition _get_0_templates : M (list string) :=
  n ← get_rand_int 1 3;
  let templates := [
    "\left( d^2\omega \right)";
    "\left( H^1(\mathbb{P}^2, \mathcal{O}(-" ++ str_of_nat n ++ ")) \right)";
    "\left( \text{ch}_0(\mathcal{E} \otimes \mathcal{F}) - \text{ch}_0(\mathcal{E}) \cdot \text{ch}_0(\mathcal{F}) \right)";
    "\left( c_1(SU(n)) \right)";
    "\left( p_1(M^3) \right)";
    "\left( \partial_n \circ \partial_{n+1} \right)";
    "\left( H_n(\text{pt}), n>0 \right)";
    "\left( \operatorname{Ext}^1_{\mathbb{Z}}(\mathbb{Z}/n\mathbb{Z}, \mathbb{Q}) \right)";
    "\left( \chi(SU(n)) \right)";
    "\left( \operatorname{Tor}_1^{\mathbb{Z}}(\mathbb{Z}/n\mathbb{Z}, \mathbb{Q}) \right)";
    "\left( \sigma(\partial W) \right)";
    "\left( \hat{A}(\partial W) \right)";
    "\left( [\mathbf{X}, \mathbf{X}] \right)";
    "\left( [X, [Y, Z]] + [Y, [Z, X]] + [Z, [X, Y]] \right)";
    "\left( \operatorname{Tr}(T^a), T^a \in \mathfrak{su}(n) \right)";
    "\left( \langle \chi_i, \chi_j \rangle_{i \neq j} \right)";
    "\left( \text{index}(D_{\text{odd dim}}) \right)";
    "\left( \sum_{N=1}^{\infty} \frac{\mu(N)}{N} \right)";
    "\left( \Gamma(z)\Gamma(1-z)\sin(\pi z) - \pi \right)";
    "\left( \lim_{\tau \to i\infty} f(\tau) \text{ for } f \in S_k(\Gamma_0(N)) \right)";
    "\left( \operatorname{rank}_{an}(E) - \operatorname{rank}_{alg}(E) \right)";
    "\left( J_{" ++ str_of_nat n ++ "}(z) Y_{" ++ str_of_nat n ++ "-1}(z) - J_{" ++ str_of_nat n ++ "-1}(z) Y_{" ++ str_of_nat n ++ "}(z) + \frac{2}{\pi z} \right)";
    "\left( \langle[\hat{x}, \hat{p}_x]\rangle - i\hbar \right)";
    "\left( \nabla_\mu g^{\alpha \beta} \right)"
  ] in
  ret templates.

Definition _get_1_templates : M (list string) :=
  s_val ← get_rand_int 2 4;
  let A_sym := "A" in
  let templates := [
    "\left( \text{rk}(\text{Pic}(\mathbb{P}^1)) \right)";
    "\left( \text{dim}(\mathfrak{so}(2)) \right)";
    "\left( \text{rank}(\text{K}_0(\text{Spec}(\mathbb{Z}))) \right)";
    "\left( \frac{\det(e^{" ++ A_sym ++ "})}{e^{\operatorname{Tr}(" ++ A_sym ++ ")}} \right)";
    "\left( \text{rank}(\mathfrak{su}(2)) \right)";
    "\left( \chi_V(e) / \dim(V) \right)";
    "\left( |Z(S_3)| \right)";
    "\left( \text{dim}_{\mathbb{C}} H^{0,0}(X) \right)";
    "\left( h^{1,1}(\mathbb{P}^1) \right)";
    "\left( \chi(\text{Spec}(\mathbb{C})) \right)";
    "\left( \frac{1}{2}\chi(\mathbb{S}^{0}) \right)";
    "\left( \text{dim}(H^0(\mathbb{P}^1, \mathcal{O}(0))) \right)";
    "\left( \text{genus}(\mathbb{P}^1) + 1 \right)";
    "\left( \deg(\mathbb{P}^0) \right)";
    "\left( \frac{(d-1)(d-2)}{2}|_{d=3} \right)";
    "\left( \text{lk}(L2a1) \right)";
    "\left( b_0(\mathbb{T}^n) \right)";
    "\left( \zeta(0) + \frac{3}{2} \right)";
    "\left( \lim_{s \to 1} (s-1)\zeta(s) \right)";
    "\left( \prod_p \left(1 + \frac{1}{p(p-1)}\right) / \left(\frac{\zeta(2)\zeta(3)}{\zeta(6)}\right) \right)";
    "\left( \sum_{idx=1}^{\infty} \frac{\mu(idx)}{idx} + 1 \right)";
    "\left( h(-4) \right)";
    "\left( \lambda([0,1]) \right)";
    "\left( \int_0^{\infty} \frac{x^{" ++ str_of_nat s_val ++ "-1}}{e^x - 1} \,dx \cdot \frac{1}{\Gamma(" ++ str_of_nat s_val ++ ")\zeta(" ++ str_of_nat s_val ++ ")} \right)"
  ] in
  ret templates.

Definition _get_2_templates : M (list string) :=
  n ← get_rand_int 1 3;
  s_val ← get_rand_int 2 4;
  let templates := [
    "\left( \text{rank}(\mathfrak{sl}_3(\mathbb{C})) \right)";
    "\left( \dim H^1(S_3, \mathbb{C}^*" ++ ") \right)";
    "\left( \text{dim}(\mathfrak{u}(1)) \cdot 2 \right)";
    "\left( \text{dim}(\mathfrak{so}(3)) - 1 \right)";
    "\left( \text{rank}(\mathfrak{so}(4)) \right)";
    "\left( \dim(\mathfrak{sl}_2(\mathbb{C}))-1 \right)";
    "\left( \text{rk}(\text{Pic}(\mathbb{P}^1)) + 1 \right)";
    "\left( \text{dim}(H^0(\mathbb{P}^1, \mathcal{O}(1))) \right)";
    "\left( b_0(\mathbb{S}^1) + b_1(\mathbb{S}^1) \right)";
    "\left( b_1(\mathbb{T}^2) \right)";
    "\left( \deg(Q \subset \mathbb{P}^3) \right)";
    "\left( \chi(\mathbb{CP}^2) - 1 \right)";
    "\left( \sum_i b_{2i}(\mathbb{CP}^1) \right)";
    "\left( \deg(\mathbb{V}(x_0x_2 - x_1^2)) \right)";
    "\left( \zeta(0) + \frac{5}{2} \right)";
    "\left( \lim_{s \to 1} 2(s-1)\zeta(s) \right)";
    "\left( h(-15) \right)";
    "\left( \phi(\phi(5)) \right)";
    "\left( h(-23) - 1 \right)";
    "\left( |\{\mathfrak{p} \subset \mathbb{Z}[i] \mid \mathfrak{p} | (5)\}| \right)";
    "\left( \phi(4) \right)";
    "\left( |\text{Aut}(S_3)| - 4 \right)";
    "\left( \text{rank}(\text{K}_0(\mathbb{P}^1)) \right)";
    "\left( \text{rank}(\mathbb{Z}/2\mathbb{Z} \times \mathbb{Z}/2\mathbb{Z}) \right)";
    "\left( \left(\int_0^{\infty} \frac{x^{" ++ str_of_nat s_val ++ "-1}}{e^x - 1} \,dx \cdot \frac{1}{\Gamma(" ++ str_of_nat s_val ++ ")\zeta(" ++ str_of_nat s_val ++ ")}\right) \cdot 2 \right)"
  ] in
  ret templates.

Definition _get_3_templates : M (list string) :=
  let templates := [
    "\left( \text{dim}(\mathfrak{sl}_2(\mathbb{C})) \right)";
    "\left( \text{dim}(\mathfrak{su}(2)) \right)";
    "\left( \text{dim}(\text{SO}(3)) \right)";
    "\left( \dim(\text{ad}(\mathfrak{su}(2))) \right)";
    "\left( |W(A_2)| - 3 \right)";
    "\left( \text{rank}(\mathfrak{so}(7)) \right)";
    "\left( |Irr(S_3)| \right)";
    "\left( \dim(\mathfrak{g}_2) - 11 \right)";
    "\left( \dim(\mathfrak{f}_4) - 49 \right)";
    "\left( \text{rank}(\mathfrak{e}_7) - 4 \right)";
    "\left( \text{dim}(H^0(\mathbb{P}^2, \mathcal{O}(1))) \right)";
    "\left( \chi(\mathbb{CP}^2) \right)";
    "\left( [\mathbb{Q}(\sqrt[3]{2}) : \mathbb{Q}] \right)";
    "\left( b_1(\mathbb{T}^3) \right)";
    "\left( c(3_1) \right)";
    "\left( \dim(k[x,y,z]) \right)";
    "\left( \deg(\nu_3(\mathbb{P}^1)) \right)";
    "\left( c_1(T_{\mathbb{P}^2}) \cdot H \right)";
    "\left( \sigma(E_8) - 5 \right)";
    "\left( \zeta(-1) + \frac{37}{12} \right)";
    "\left( h(-23) \right)";
    "\left( \omega(30) \right)";
    "\left( |\mathbb{A}_3| \right)";
    "\left( \text{rank}(\mathfrak{e}_8) - 5 \right)";
    "\left( \frac{\Gamma(4)\Gamma(2)}{\Gamma(3)} \right)"
  ] in
  ret templates.

Definition _get_4_templates : M (list string) :=
  let templates := [
    "\left( \text{dim}(\mathfrak{so}(5)) - 6 \right)";
    "\left( \text{rank}(\mathfrak{so}(8)) \right)";
    "\left( \dim(\text{spinor rep of } SO(5)) \right)";
    "\left( \dim(\mathfrak{g}_2) - 10 \right)";
    "\left( \text{rank}(\mathfrak{e}_7) - 3 \right)";
    "\left( |W(A_2)| - 2 \right)";
    "\left( \dim(\text{ad}(\mathfrak{sl}_2(\mathbb{C}))) + 1 \right)";
    "\left( \dim(\mathfrak{su}(3)) - 4 \right)";
    "\left( \text{dim}(H^0(\mathbb{P}^3, \mathcal{O}(1))) \right)";
    "\left( \chi(\mathbb{P}^2) + 1 \right)";
    "\left( \text{dim}(\text{End}(\mathbb{C}^2)) \right)";
    "\left( \deg(\nu_2(\mathbb{P}^2)) \right)";
    "\left( \sum_i b_i(\mathbb{T}^2) \right)";
    "\left( \text{rank}(\pi_1(\Sigma_2)) \right)";
    "\left( c_1(T_{\mathbb{P}^1 \times \mathbb{P}^1})^2 - 4 \right)";
    "\left( \deg(K_{\mathbb{P}^2}) + 7 \right)";
    "\left( \zeta(-3) + \frac{479}{120} \right)";
    "\left( h(-39) \right)";
    "\left( h(-51) \right)";
    "\left( h(-52) \right)";
    "\left( |\{\mathfrak{p} \subset \mathbb{Z}[i] \mid \mathfrak{p} | (13)\}| + 2 \right)";
    "\left( \text{depth}(k[[w,x,y,z]]) \right)";
    "\left( \text{rank}(K_0(\mathbb{P}^1)) + 2 \right)";
    "\left( \operatorname{Res}_{z=0} \frac{4\cos(z)}{z} \right)";
    "\left( \sigma(E_8) - 4 \right)"
  ] in
  ret templates.

Definition _get_5_templates : M (list string) :=
  let templates := [
    "\left( \text{dim}(\mathfrak{sp}(4,\mathbb{C})) - 5 \right)";
    "\left( \dim(\text{U}(2)) + 1 \right)";
    "\left( |Irr(D_4)| \right)";
    "\left( \text{rank}(\mathfrak{so}(11)) \right)";
    "\left( \dim(\mathfrak{g}_2) - 9 \right)";
    "\left( \text{rank}(\mathfrak{e}_8) - 3 \right)";
    "\left( \sigma(E_8) - 3 \right)";
    "\left( |W(A_2)| - 1 \right)";
    "\left( \text{dim}(\text{Symp}^5(\mathbb{C}^2)) - 1 \right)";
    "\left( \text{dim}(H^0(\mathbb{P}^4, \mathcal{O}(1))) \right)";
    "\left( \chi(\mathbb{P}^2) + 2 \right)";
    "\left( \chi(K_5) \right)";
    "\left( c_1(T_{\mathbb{P}^2})^2 - 4 \right)";
    "\left( b_1(\mathbb{T}^2) \cdot 2 + 1 \right)";
    "\left( \deg(\nu_4(\mathbb{P}^1)) + 1 \right)";
    "\left( h(-47) \right)";
    "\left( v_2(40) \right)";
    "\left( h(-23) + 2 \right)";
    "\left( \zeta(-3) \cdot 120 + 4 \right)";
    "\left( \text{dim}(\mathfrak{sl}_2(\mathbb{C})) + 2 \right)";
    "\left( \text{rank}(\mathfrak{e}_6) - 1 \right)";
    "\left( \text{rank}(\mathfrak{e}_7) - 2 \right)";
    "\left( \dim(\mathfrak{so}(4)) + \zeta(0) + 1/2 \right)";
    "\left( \dim(\Lambda^2(\mathbb{C}^4)) - 1 \right)"
  ] in
  ret templates.

Definition _get_6_templates : M (list string) :=
  let templates := [
    "\left( \text{dim}(\mathfrak{so}(4,\mathbb{R})) \right)";
    "\left( \text{rank}(\mathfrak{e}_6) \right)";
    "\left( |W(A_2)| \right)";
    "\left( \dim(\mathfrak{so}(5)) - \text{rank}(\mathfrak{so}(8)) \right)";
    "\left( \dim(\Lambda^2(\mathbb{C}^4)) \right)";
    "\left( \dim(\mathfrak{su}(3)) - 2 \right)";
    "\left( \dim(\mathfrak{sp}(4,\mathbb{C})) - 4 \right)";
    "\left( \dim(\mathfrak{g}_2) - 8 \right)";
    "\left( \text{dim}(\text{Symp}^6(\mathbb{C}^2)) - 1 \right)";
    "\left( e_0(Q, R)|_{R=k[x], Q=(x^6)} \right)";
    "\left( -2 \deg(K_{\mathbb{P}^2}) \right)";
    "\left( b_1(\mathbb{T}^2) \cdot 3 \right)";
    "\left( h^{2,0}(\text{K3 surface}) + 5 \right)";
    "\left( \chi(\mathbb{CP}^2) \cdot 2 \right)";
    "\left( c_1^2(\mathbb{P}^2) - 3 \right)";
    "\left( \zeta(-5) + \frac{1513}{252} \right)";
    "\left( h(-87) \right)";
    "\left( h(-23) \cdot 2 \right)";
    "\left( -v_p(p^3!) + 3p+1 |_{p=2} \right)";
    "\left( |\text{Aut}(V_4)| \right)";
    "\left( \operatorname{Res}_{z=0} \frac{e^{6z}-1}{z^2} \right)";
    "\left( \dim(\mathfrak{sl}_2(\mathbb{C})) \cdot 2 \right)";
    "\left( \zeta(0) \cdot (-12) \right)";
    "\left( \text{rank}(\mathfrak{e}_8) - 2 \right)"
  ] in
  ret templates.

Definition _get_7_templates : M (list string) :=
  let templates := [
    "\left( \text{rank}(\mathfrak{e}_7) \right)";
    "\left( \dim(V_7) \right)";
    "\left( \dim(\text{ad}(\mathfrak{su}(3))) - 1 \right)";
    "\left( \dim(L(6\omega_1)_0) \text{ for } A_1 \right)";
    "\left( \dim(\text{Hom}_{A_1}(V_{5}, V_{1} \otimes V_{5})) \right)";
    "\left( |W(A_2)| + 1 \right)";
    "\left( \dim(\mathfrak{sp}(4,\mathbb{C})) - 3 \right)";
    "\left( \text{mult}_0(\mathbb{C}[x_1..x_7]/(x_1..x_7)) \right)";
    "\left( \text{dim}(\text{Symp}^7(\mathbb{C}^2)) - 1 \right)";
    "\left( c_2(T_{\mathbb{P}^3}) \cdot H - 5 \right)";
    "\left( h^{1,1}(X) - h^{2,1}(X) + 6 |_{X=\text{quintic}} \right)";
    "\left( \chi(\text{dP}_2) + 5 \right)";
    "\left( \deg(\nu_6(\mathbb{P}^1)) + 1 \right)";
    "\left( c(4_1) + 2 \right)";
    "\left( h(-71) \right)";
    "\left( (x^2+7=2^n)|_{n=5} \rightarrow x \right)";
    "\left( \sum_{k=1}^5 p(5,k) \right)";
    "\left( \phi(14) + 1 \right)";
    "\left( \zeta(-3) \cdot 120 + 6 \right)";
    "\left( h(-47) + 2 \right)";
    "\left( \dim(\text{M-Theory}) - 4 \right)";
    "\left( \sigma(E_8) - 1 \right)";
    "\left( \dim(\mathfrak{g}_2) - 7 \right)";
    "\left( \text{rank}(\mathfrak{e}_6) + 1 \right)";
    "\left( \left(\int_{-\infty}^{\infty} \frac{dx}{(1+x^2)^4}\right) \cdot \frac{112}{5\pi} \right)"
  ] in
  ret templates.

Definition _get_8_templates : M (list string) :=
  let templates := [
    "\left( \text{dim}(\mathfrak{sl}(3,\mathbb{C})) \right)";
    "\left( \text{dim}(\mathfrak{so}(5)) - 2 \right)";
    "\left( \text{dim}(\text{SU}(3)) \right)";
    "\left( \text{rank}(\mathfrak{e}_8) \right)";
    "\left( \dim(\text{ad}(\mathfrak{sl}_3(\mathbb{C}))) \right)";
    "\left( |\Delta(\mathfrak{sp}_4)| \right)";
    "\left( \dim(\mathfrak{f}_4) - 44 \right)";
    "\left( \dim(\mathfrak{g}_2) - 6 \right)";
    "\left( \dim(\mathfrak{e}_7) - 125 \right)";
    "\left( \text{dim}(\text{Symp}^8(\mathbb{C}^2)) - 1 \right)";
    "\left( \sigma(E_8) \right)";
    "\left( c_1(T_{\mathbb{P}^1 \times \mathbb{P}^1})^2 \right)";
    "\left( h^{2,1}(\text{quintic}) - 93 \right)";
    "\left( b_1(\mathbb{T}^2) \cdot 4 \right)";
    "\left( \chi(\mathbb{CP}^3) + 4 \right)";
    "\left( \tau(24) \right)";
    "\left( \phi(15) \right)";
    "\left( h(-47) + 3 \right)";
    "\left( |W(A_2)| + 2 \right)";
    "\left( \left(\int_{-\infty}^{\infty} \frac{dx}{(1+x^2)^4}\right) \cdot \frac{128}{5\pi} \right)";
    "\left( \operatorname{Res}_{z=0} \frac{8\cosh(z)}{z} \right)";
    "\left( \operatorname{Res}_{z=0} \frac{\sinh(8z)}{z^2} \right)";
    "\left( \text{rank}(\mathfrak{e}_6) + 2 \right)";
    "\left( \chi(\mathbb{CP}^2) \cdot 3 - 1 \right)"
  ] in
  ret templates.

Definition _get_9_templates : M (list string) :=
  let templates := [
    "\left( \text{dim}(\mathfrak{so}(3) \otimes \mathfrak{so}(3)) \right)";
    "\left( \dim(\mathfrak{sl}(3,\mathbb{C})) + 1 \right)";
    "\left( \text{rank}(\mathfrak{e}_8) + 1 \right)";
    "\left( \sigma(E_8) + 1 \right)";
    "\left( |W(A_2)| + 3 \right)";
    "\left( \dim(\mathfrak{g}_2) - 5 \right)";
    "\left( \dim(\mathfrak{f}_4) - 43 \right)";
    "\left( \dim(\mathfrak{e}_7) - 124 \right)";
    "\left( \dim(\text{ad}(\mathfrak{su}(3))) + 1 \right)";
    "\left( \text{dim}(\text{Symp}^9(\mathbb{C}^2)) - 1 \right)";
    "\left( c_1(T_{\mathbb{P}^2})^2 \right)";
    "\left( h^{1,1}(\text{K3 surface}) - 11 \right)";
    "\left( b_1(\mathbb{T}^3) \cdot 3 \right)";
    "\left( c(5_1) + 4 \right)";
    "\left( h(-199) \right)";
    "\left( \tau(36) \right)";
    "\left( v_3(3^4!) \right)";
    "\left( h(-87) + 3 \right)";
    "\left( h(-47) + 4 \right)";
    "\left( \deg(\nu_8(\mathbb{P}^1)) + 1 \right)";
    "\left( \left(\int_{-\infty}^{\infty} \frac{dx}{(1+x^2)^5}\right) \cdot \frac{1152}{35\pi} \right)";
    "\left( \operatorname{Res}_{z=0} \frac{9-z^2}{z(1-z)} \right)";
    "\left( \text{rank}(\mathfrak{e}_7) + 2 \right)";
    "\left( \text{rank}(\mathfrak{e}_6) + 3 \right)";
    "\left( \dim(\mathfrak{so}(5)) - 1 \right)"
  ] in
  ret templates.

(** The module namespace, as far as [hasattr]/[getattr] with a name of the
    shape [_get_<digit_char>_templates] can observe it. *)
Definition module_attributes : list (string * M (list string)) :=
  [ ("_get_0_templates", _get_0_templates); ("_get_1_templates", _get_1_templates);
    ("_get_2_templates", _get_2_templates); ("_get_3_templates", _get_3_templates);
    ("_get_4_templates", _get_4_templates); ("_get_5_templates", _get_5_templates);
    ("_get_6_templates", _get_6_templates); ("_get_7_templates", _get_7_templates);
    ("_get_8_templates", _get_8_templates); ("_get_9_templates", _get_9_templates) ].

(** [getattr(equation_bank, name)] when [hasattr(equation_bank, name)] *)
Definition getattr (name : string) : option (M (list string)) :=
  snd <$> List.find (λ kv, String.eqb name kv.1) module_attributes.

End EquationBank.

(** ** latex_processor.py *)

Module LatexProcessor.
Import PyStr Runtime EquationBank.

Definition MAX_UNIQUE_ATTEMPTS : nat := 15.

Definition group_open : string := "\boldsymbol{(}".
Definition group_close : string := "\boldsymbol{)}".
Definition minor_gap : string := "\;".
Definition major_gap : string := "\quad".
Definition dash : string := "\text{---}".

(** Which return statement of [_get_unique_latex_for_digit] produced an
    expression. *)
Inductive Origin : Type := Placeholder | Fresh | Exhausted.

Global Instance Origin_eq_dec : EqDecision Origin.
Proof. solve_decision. Defined.

(** The [for _ in range(attempts)] loop; [None] when the loop runs out
    without returning. *)
Fixpoint unique_attempts (get_templates : M (list string)) (attempts : nat)
  : M (option string) :=
  match attempts with
  | O => ret None
  | S attempts' =>
    all_templates ← get_templates;
    latex_str ← choice all_templates;
    used ← get_used;
    if bool_decide (latex_str ∈ used) then unique_attempts get_templates attempts'
    else (add_used latex_str;; ret (Some latex_str))
  end.

(** [_get_unique_latex_for_digit], each result labelled with the return
    statement it came from. *)
Definition unique_latex_traced (digit_char : string) : M (Origin * string) :=
  if negb (isdigit digit_char) then ret (Placeholder, eq_placeholder digit_char)
  else
    let func_name := "_get_" ++ digit_char ++ "_templates" in
    match getattr func_name with
    | None => ret (Placeholder, eq_placeholder digit_char)
    | Some get_templates =>
      found ← unique_attempts get_templates MAX_UNIQUE_ATTEMPTS;
      match found with
      | Some latex_str => ret (Fresh, latex_str)
      | None =>
        all_templates ← get_templates;
        latex_str ← choice all_templates;
        ret (Exhausted, latex_str)
      end
    end.

Definition _get_unique_latex_for_digit (digit_char : string) : M string :=
  r ← unique_latex_traced digit_char; ret r.2.

(** An element of [latex_parts] together with what it was emitted for. *)
Inductive Token : Type :=
| PlusSign (expression : string)
| Digit (value : ascii) (origin : Origin) (expression : string)
| Separator (latex : string).

Definition latex_of (t : Token) : string :=
  match t with
  | PlusSign e => e
  | Digit _ _ e => e
  | Separator s => s
  end.

(** [[_get_unique_latex_for_digit(d, used_formulas) for d in digits]] *)
Fixpoint digit_tokens (digits : string) : M (list Token) :=
  match digits with
  | "" => ret []
  | String d rest =>
    r ← unique_latex_traced (String d "");
    toks ← digit_tokens rest;
    ret (Digit d r.1 r.2 :: toks)
  end.

Definition has_plus (full_number_str : string) : bool :=
  startswith "+" (strip full_number_str).

Definition clean_number (full_number_str : string) : string :=
  s_filter isdigit_char full_number_str.

(** The assignment of [country_code, main_number]. *)
Definition segment (has_plus : bool) (clean_number : string) : string * string :=
  if has_plus && (String.length clean_number =? 11) && startswith "1" clean_number
  then ("1", s_drop 1 clean_number)
  else if has_plus && (10 <? String.length clean_number)
  then (slice_to_neg 10 clean_number, slice_from_neg 10 clean_number)
  else ("", clean_number).

(** [generate_latex_for_number] up to the completed [latex_parts]. *)
Definition compose_tokens (full_number_str : string) : M (list Token) :=
  if bool_decide (strip full_number_str = "")
  then raise (ValueError "Phone number cannot be empty")
  else
    let clean_number := clean_number full_number_str in
    let has_plus := has_plus full_number_str in
    if bool_decide (clean_number = "")
    then raise (ValueError "Phone number must contain at least one digit")
    else
      let '(country_code, main_number) := segment has_plus clean_number in
      fresh_used;;
      let plus_part := if has_plus then [PlusSign eq_plus] else [] in
      code_part ←
        (if bool_decide (country_code = "") then ret []
         else (toks ← digit_tokens country_code; ret (toks ++ [Separator major_gap])%list));
      main_part ←
        (if String.length main_number =? 10 then
           let area := s_take 3 main_number in
           let exch := slice 3 6 main_number in
           let line := s_drop 6 main_number in
           area_toks ← digit_tokens area;
           exch_toks ← digit_tokens exch;
           line_toks ← digit_tokens line;
           ret ([Separator group_open] ++ area_toks ++ [Separator group_close]
                ++ [Separator minor_gap] ++ exch_toks ++ [Separator dash] ++ line_toks)%list
         else digit_tokens main_number);
      ret (plus_part ++ code_part ++ main_part)%list.

Definition latex_parts_of (tokens : list Token) : list string := latex_of <$> tokens.

(** The [while i < len(latex_parts)] walk.  One iteration turns the next
    part, or a whole bracketed block, into one entry of [current_line]; the
    lines are kept as lists of entries and joined by the caller. *)
Definition MAX_LINE_LENGTH : nat := 3.

Definition next_column (part : string) (rest : list string) : string * list string :=
  if bool_decide (part = group_open) then
    let area_code_parts := group_open :: take 3 rest in
    match drop 3 rest with
    | p :: rest' =>
      if bool_decide (p = group_close)
      then (join " " (area_code_parts ++ ["\boldsymbol{)} "])%list, rest')
      else (join " " area_code_parts, p :: rest')
    | [] => (join " " area_code_parts, [])
    end
  else (part, rest).

Fixpoint wrap_loop (fuel : nat) (parts current_line : list string)
    (lines : list (list string)) : list (list string) :=
  match fuel, parts with
  | S fuel', part :: rest =>
    let '(column, rest') := next_column part rest in
    let current_line := (current_line ++ [column])%list in
    if MAX_LINE_LENGTH <=? length current_line
    then wrap_loop fuel' rest' [] (lines ++ [current_line])%list
    else wrap_loop fuel' rest' current_line lines
  | _, _ => if bool_decide (current_line = []) then lines else (lines ++ [current_line])%list
  end.

Definition wrap_columns (latex_parts : list string) : list (list string) :=
  wrap_loop (length latex_parts) latex_parts [] [].

Definition format_equation_with_line_breaks (latex_parts : list string) : string :=
  join (" \\" ++ String "010" "")
       ((λ line, "& " ++ join " " line) <$> wrap_columns latex_parts).

(** [signature_text.translate(str.maketrans({...}))] *)
Definition escape_char (c : ascii) : string :=
  if bool_decide (c = "\"%char) then "\textbackslash{}"
  else if bool_decide (c = "&"%char) then "\&"
  else if bool_decide (c = "%"%char) then "\%"
  else if bool_decide (c = "$"%char) then "\$"
  else if bool_decide (c = "#"%char) then "\#"
  else if bool_decide (c = "_"%char) then "\_"
  else if bool_decide (c = "{"%char) then "\{"
  else if bool_decide (c = "}"%char) then "\}"
  else String c "".

Fixpoint escape_signature (signature_text : string) : string :=
  match signature_text with
  | "" => ""
  | String c rest => escape_char c ++ escape_signature rest
  end.

Definition newline : string := String "010" "".

Definition latex_document (signature_text math_lines : string) : string :=
  join newline [
    "\documentclass[border=10pt]{standalone}";
    "\usepackage{amsmath, amssymb, amsfonts, graphicx, xcolor}";
    "\usepackage[T1]{fontenc}";
    "\usepackage{helvet}";
    "\renewcommand{\familydefault}{\sfdefault}";
    "\begin{document}";
    "\begin{center}";
    "\begin{minipage}{0.95\linewidth}";
    "\centering";
    "{\Large \textbf{" ++ escape_signature signature_text ++ "}}\\[0.5cm]";
    "\begin{align*}";
    math_lines;
    "\end{align*}";
    "\end{minipage}";
    "\end{center}";
    "\end{document}"
  ].

(** [generate_latex_for_number] up to the document handed to the renderer;
    writing the verification file and rendering are outside the model. *)
Definition generate_latex_for_number (full_number_str signature_text : string)
  : M string :=
  tokens ← compose_tokens full_number_str;
  let latex_parts := latex_parts_of tokens in
  let math_lines := format_equation_with_line_breaks latex_parts in
  ret (latex_document signature_text math_lines).

End LatexProcessor.

(** ** Vocabulary of the statements *)

Module Vocabulary.
Import PyStr Runtime EquationBank LatexProcessor.

(** Templates are bracketed expressions; a placeholder or the plus symbol
    is a bold-face one. *)
Definition bracketed (t : string) : bool := String.prefix "\left(" t.
Definition is_expression (t : string) : bool :=
  String.prefix "\left(" t || String.prefix "\mathbf{" t.

(** What the composer relies on from a template provider: whatever the
    generator yields, it returns a non-empty list of bracketed expressions
    and touches nothing but the generator. *)
Definition provider_ok (get_templates : M (list string)) : Prop :=
  ∀ st, ∃ l rest,
    get_templates st = (Ok l, mkState rest (used_formulas st))
    ∧ l ≠ [] ∧ forallb bracketed l = true.

(** One random draw of the lookup: fetch the templates, choose one. *)
Definition draw (get_templates : M (list string)) : M string :=
  all_templates ← get_templates; choice all_templates.

(** The first [n] successive draws from a state, and the state they leave. *)
Fixpoint draw_seq (get_templates : M (list string)) (n : nat) (st : State)
  : list string * State :=
  match n with
  | O => ([], st)
  | S n' =>
    match draw get_templates st with
    | (Ok s, st1) =>
      let '(l, st2) := draw_seq get_templates n' st1 in (s :: l, st2)
    | (Raise _, st1) => ([], st1)
    end
  end.

(** The digit values of the digit tokens, in emission order. *)
Fixpoint digit_values (tokens : list Token) : string :=
  match tokens with
  | [] => ""
  | Digit v _ _ :: rest => String v (digit_values rest)
  | _ :: rest => digit_values rest
  end.

(** The expressions that came from the non-exhausted unique path. *)
Fixpoint fresh_expressions (tokens : list Token) : list string :=
  match tokens with
  | [] => []
  | Digit _ Fresh e :: rest => e :: fresh_expressions rest
  | _ :: rest => fresh_expressions rest
  end.

(** The expressions emitted for one digit value. *)
Fixpoint expressions_for (d : ascii) (tokens : list Token) : list string :=
  match tokens with
  | [] => []
  | Digit v _ e :: rest =>
    if bool_decide (v = d) then e :: expressions_for d rest
    else expressions_for d rest
  | _ :: rest => expressions_for d rest
  end.

(** The origins of the lookups made for one digit value. *)
Fixpoint origins_for (d : ascii) (tokens : list Token) : list Origin :=
  match tokens with
  | [] => []
  | Digit v o _ :: rest =>
    if bool_decide (v = d) then o :: origins_for d rest else origins_for d rest
  | _ :: rest => origins_for d rest
  end.

Fixpoint occurrences (d : ascii) (s : string) : nat :=
  match s with
  | "" => 0
  | String c s' => (if bool_decide (c = d) then 1 else 0) + occurrences d s'
  end.

(** The template collection of digit [d] has at least [N] entries. *)
Definition collection_size_at_least (d : ascii) (N : nat) : Prop :=
  isdigit (String d "") = true
  ∧ ∃ get_templates,
      getattr ("_get_" ++ String d "" ++ "_templates") = Some get_templates
      ∧ ∀ st, ∃ l st', get_templates st = (Ok l, st') ∧ N ≤ length l.

(** The character has a template provider in the bank. *)
Definition has_provider (digit_char : string) : bool :=
  isdigit digit_char
  && bool_decide (is_Some (getattr ("_get_" ++ digit_char ++ "_templates"))).

(** A digit token as every lookup produces it: it carries an expression, and
    a placeholder only for a character without provider. *)
Definition is_digit_token (t : Token) : Prop :=
  match t with
  | Digit v o e =>
    is_expression e = true
    ∧ (o = Placeholder ↔ has_provider (String v "") = false)
  | _ => False
  end.

Definition digit_token_ok (t : Token) : Prop :=
  match t with
  | Digit _ _ _ => is_digit_token t
  | _ => True
  end.

(** [tokens] spell out the digits [ds], one lookup per digit. *)
Definition digit_run (ds : string) (tokens : list Token) : Prop :=
  digit_values tokens = ds ∧ length tokens = String.length ds
  ∧ Forall is_digit_token tokens.

(** Effect of a token sequence on the used set: the fresh expressions, all
    new and pairwise distinct, are what is added. *)
Definition emits (U : gset string) (tokens : list Token) (U' : gset string) : Prop :=
  U' = list_to_set (fresh_expressions tokens) ∪ U
  ∧ NoDup (fresh_expressions tokens)
  ∧ ∀ e, e ∈ fresh_expressions tokens → e ∉ U.

(** The three parts of [latex_parts]. *)
Definition plus_part (has_plus : bool) : list Token :=
  if has_plus then [PlusSign eq_plus] else [].

Definition code_part (country_code : string) (code_toks : list Token) : list Token :=
  if bool_decide (country_code = "") then [] else code_toks ++ [Separator major_gap].

Definition main_part (main_number : string) (main_toks : list Token) : list Token :=
  if String.length main_number =? 10 then
    [Separator group_open] ++ take 3 main_toks
    ++ [Separator group_close; Separator minor_gap] ++ take 3 (drop 3 main_toks)
    ++ [Separator dash] ++ drop 6 main_toks
  else main_toks.

(** The entries of the wrapped lines, in order: what [wrap_loop] appends to
    [current_line], one per iteration. *)
Fixpoint columns (fuel : nat) (parts : list string) : list string :=
  match fuel, parts with
  | S fuel', part :: rest =>
    let '(column, rest') := next_column part rest in
    column :: columns fuel' rest'
  | _, _ => []
  end.

(** The entry made of a bracketed block. *)
Definition block_column (a b c : string) : string :=
  join " " [group_open; a; b; c; "\boldsymbol{)} "].

(** Every line but the last is full, and no line is empty or over-full. *)
Fixpoint well_packed (lines : list (list string)) : Prop :=
  match lines with
  | [] => True
  | [line] => 1 ≤ length line ≤ MAX_LINE_LENGTH
  | line :: rest => length line = MAX_LINE_LENGTH ∧ well_packed rest
  end.

(** [needle] occurs somewhere in [hay]. *)
Definition mentions (needle hay : string) : bool :=
  bool_decide (is_Some (String.index 0 needle hay)).

(** C9 as stated, for the lines of one document: a line that holds a
    bracketed block also holds the minor gap, as an entry of its own or
    inside an entry. *)
Definition block_kept_with_gap (lines : list (list string)) : Prop :=
  ∀ line col, line ∈ lines → col ∈ line → String.prefix group_open col = true →
    ∃ col', col' ∈ line ∧ mentions minor_gap col' = true.

End Vocabulary.

(** ** support_files/phone_formats.py: the geography tables and their lookups

  Country labels hold characters above U+00FF (the flag symbols), so a
  label is kept as the bytes of its UTF-8 encoding.  That encoding is
  injective and keeps the code-point order, and the functions below only
  compare labels for equality and order.  A [dict] whose order of keys
  matters is an association list in insertion order. *)

Module PhoneGeography.
Import PyStr PhoneFormats.

Section Dict.
Context {V : Type}.

(** [d.get(k)] *)
Fixpoint dict_get (k : string) (d : list (string * V)) : option V :=
  match d with
  | [] => None
  | (k', v) :: rest => if bool_decide (k' = k) then Some v else dict_get k rest
  end.

(** [d[k] = v]: an existing key keeps its place, a new key goes last. *)
Fixpoint dict_set (k : string) (v : V) (d : list (string * V)) : list (string * V) :=
  match d with
  | [] => [(k, v)]
  | (k', v') :: rest =>
    if bool_decide (k' = k) then (k', v) :: rest else (k', v') :: dict_set k v rest
  end.

(** [d.update(other)] *)
Definition dict_update (d other : list (string * V)) : list (string * V) :=
  fold_left (λ acc kv, dict_set kv.1 kv.2 acc) other d.

Definition keys (d : list (string * V)) : list string := d.*1.
Definition values (d : list (string * V)) : list V := d.*2.
End Dict.

(** [sorted(labels)]: the sorted rearrangement, which is unique for the
    order of strings; computed by merge sort. *)
Definition sorted (labels : list string) : list string :=
  merge_sort String.le labels.

Definition COUNTRIES_BY_CONTINENT
  : list (string * list (string * list (string * string))) :=
 [
  ("Africa", [
   ("Northern Africa", [
      ("🇩🇿 Algeria", "+213 XXX XXX XXX");
      ("🇪🇬 Egypt", "+20 X XXXX XXXX");
      ("🇱🇾 Libya", "+218 XX XXX XXXX");
      ("🇲🇦 Morocco", "+212 X XXX XXXX");
      ("🇸🇩 Sudan", "+249 XXX XXX XXX");
      ("🇹🇳 Tunisia", "+216 XX XXX XXX");
      ("🇪🇭 Western Sahara", "+212 X XXX XXXX")
    ]);
   ("Western Africa", [
      ("🇧🇯 Benin", "+229 XX XX XXXX");
      ("🇧🇫 Burkina Faso", "+226 XX XX XXXX");
      ("🇨🇻 Cape Verde", "+238 XXX XXXX");
      ("🇨🇮 Côte d'Ivoire", "+225 XX XX XXXX");
      ("🇬🇲 Gambia", "+220 XXX XXXX");
      ("🇬🇭 Ghana", "+233 XX XXX XXXX");
      ("🇬🇳 Guinea", "+224 XXX XXX XXX");
      ("🇬🇼 Guinea-Bissau", "+245 XX XXX XXX");
      ("🇱🇷 Liberia", "+231 XX XXX XXX");
      ("🇲🇱 Mali", "+223 XX XX XXXX");
      ("🇲🇷 Mauritania", "+222 XXXX XXXX");
      ("🇳🇪 Niger", "+227 XX XX XXXX");
      ("🇳🇬 Nigeria", "+234 XXX XXX XXXX");
      ("🇸🇳 Senegal", "+221 XXX XXX XXX");
      ("🇸🇱 Sierra Leone", "+232 XX XXX XXX");
      ("🇹🇬 Togo", "+228 XX XXX XXX")
    ]);
   ("Eastern Africa", [
      ("🇧🇮 Burundi", "+257 XX XX XXXX");
      ("🇰🇲 Comoros", "+269 XXX XXXX");
      ("🇩🇯 Djibouti", "+253 XX XX XX XX");
      ("🇪🇷 Eritrea", "+291 X XXX XXX");
      ("🇪🇹 Ethiopia", "+251 XXX XXX XXX");
      ("🇰🇪 Kenya", "+254 XXX XXX XXX");
      ("🇲🇬 Madagascar", "+261 XX XX XXX XX");
      ("🇲🇼 Malawi", "+265 X XXX XXX");
      ("🇲🇺 Mauritius", "+230 XXX XXXX");
      ("🇾🇹 Mayotte", "+262 XXX XXX XXX");
      ("🇲🇿 Mozambique", "+258 XX XXX XXXX");
      ("🇷🇪 Réunion", "+262 XXX XXX XXX");
      ("🇷🇼 Rwanda", "+250 XXX XXX XXX");
      ("🇸🇨 Seychelles", "+248 XXX XXXX");
      ("🇸🇴 Somalia", "+252 XXX XXX XXX");
      ("🇸🇸 South Sudan", "+211 XXX XXX XXX");
      ("🇹🇿 Tanzania", "+255 XXX XXX XXX");
      ("🇺🇬 Uganda", "+256 XXX XXX XXX");
      ("🇿🇲 Zambia", "+260 XXX XXX XXX");
      ("🇿🇼 Zimbabwe", "+263 XX XXX XXXX")
    ]);
   ("Central Africa", [
      ("🇦🇴 Angola", "+244 XXX XXX XXX");
      ("🇨🇲 Cameroon", "+237 XXXX XXXX");
      ("🇨🇫 Central African Republic", "+236 XX XX XXXX");
      ("🇹🇩 Chad", "+235 XX XX XX XX");
      ("🇨🇬 Congo (Brazzaville)", "+242 XXX XXX XXX");
      ("🇨🇩 Congo (Kinshasa)", "+243 XXX XXX XXX");
      ("🇬🇶 Equatorial Guinea", "+240 XXX XXX XXX");
      ("🇬🇦 Gabon", "+241 XX XX XXXX");
      ("🇸🇹 São Tomé & Príncipe", "+239 XXX XXXX")
    ]);
   ("Southern Africa", [
      ("🇧🇼 Botswana", "+267 XX XXX XXX");
      ("🇸🇿 Eswatini", "+268 XXXX XXXX");
      ("🇱🇸 Lesotho", "+266 XXX XXXX");
      ("🇳🇦 Namibia", "+264 XX XXX XXXX");
      ("🇿🇦 South Africa", "+27 XX XXX XXXX");
      ("🇸🇭 Saint Helena", "+290 XXXX")
    ])
  ]);
  ("Americas", [
   ("Northern America", [
      ("🇧🇲 Bermuda", "+1 441 XXX XXXX");
      ("🇨🇦 Canada", "+1 (XXX) XXX-XXXX");
      ("🇬🇱 Greenland", "+299 XXX XXX");
      ("🇵🇲 Saint Pierre & Miquelon", "+508 XX XXXX");
      ("🇺🇸 United States", "+1 (XXX) XXX-XXXX")
    ]);
   ("Caribbean", [
      ("🇦🇮 Anguilla", "+1 264 XXX XXXX");
      ("🇦🇬 Antigua & Barbuda", "+1 268 XXX XXXX");
      ("🇦🇼 Aruba", "+297 XXX XXXX");
      ("🇧🇸 Bahamas", "+1 242 XXX XXXX");
      ("🇧🇧 Barbados", "+1 246 XXX XXXX");
      ("🇧🇶 Bonaire", "+599 XXX XXXX");
      ("🇻🇬 British Virgin Islands", "+1 284 XXX XXXX");
      ("🇰🇾 Cayman Islands", "+1 345 XXX XXXX");
      ("🇨🇺 Cuba", "+53 X XXX XXXX");
      ("🇨🇼 Curaçao", "+599 X XXX XXXX");
      ("🇩🇲 Dominica", "+1 767 XXX XXXX");
      ("🇩🇴 Dominican Republic", "+1 XXX XXX XXXX");
      ("🇬🇩 Grenada", "+1 473 XXX XXXX");
      ("🇬🇵 Guadeloupe", "+590 XXX XXX XXX");
      ("🇭🇹 Haiti", "+509 XXXX XXXX");
      ("🇯🇲 Jamaica", "+1 876 XXX XXXX");
      ("🇲🇶 Martinique", "+596 XXX XXX XXX");
      ("🇲🇸 Montserrat", "+1 664 XXX XXXX");
      ("🇵🇷 Puerto Rico", "+1 XXX XXX XXXX");
      ("🇰🇳 Saint Kitts & Nevis", "+1 869 XXX XXXX");
      ("🇱🇨 Saint Lucia", "+1 758 XXX XXXX");
      ("🇲🇫 Saint Martin", "+590 XXX XXX XXX");
      ("🇻🇨 Saint Vincent & Grenadines", "+1 784 XXX XXXX");
      ("🇸🇽 Sint Maarten", "+1 721 XXX XXXX");
      ("🇹🇹 Trinidad & Tobago", "+1 868 XXX XXXX");
      ("🇹🇨 Turks & Caicos Islands", "+1 649 XXX XXXX");
      ("🇻🇮 U.S. Virgin Islands", "+1 340 XXX XXXX")
    ]);
   ("Central America", [
      ("🇧🇿 Belize", "+501 XXX XXXX");
      ("🇨🇷 Costa Rica", "+506 XXXX XXXX");
      ("🇸🇻 El Salvador", "+503 XXXX XXXX");
      ("🇬🇹 Guatemala", "+502 XXXX XXXX");
      ("🇭🇳 Honduras", "+504 XXXX XXXX");
      ("🇲🇽 Mexico", "+52 XXX XXX XXXX");
      ("🇳🇮 Nicaragua", "+505 XXXX XXXX");
      ("🇵🇦 Panama", "+507 XXX XXXX")
    ]);
   ("South America", [
      ("🇦🇷 Argentina", "+54 9 XXX XXX XXXX");
      ("🇧🇴 Bolivia", "+591 XXX XXX XX");
      ("🇧🇻 Bouvet Island", "+47 XXXX XXXX");
      ("🇧🇷 Brazil", "+55 XX XXXXX XXXX");
      ("🇨🇱 Chile", "+56 X XXXX XXXX");
      ("🇨🇴 Colombia", "+57 XXX XXX XXXX");
      ("🇪🇨 Ecuador", "+593 XX XXX XXXX");
      ("🇫🇰 Falkland Islands", "+500 XXXXX");
      ("🇬🇫 French Guiana", "+594 XXX XXX XXX");
      ("🇬🇸 South Georgia", "+500 XXXXX");
      ("🇬🇾 Guyana", "+592 XXX XXXX");
      ("🇵🇾 Paraguay", "+595 XXX XXX XXX");
      ("🇵🇪 Peru", "+51 X XXX XXXX");
      ("🇸🇷 Suriname", "+597 XXX XXXX");
      ("🇺🇾 Uruguay", "+598 XXX XXX XXX");
      ("🇻🇪 Venezuela", "+58 XXX XXX XXXX")
    ])
  ]);
  ("Asia", [
   ("Central Asia", [
      ("🇰🇿 Kazakhstan", "+7 XXX XXX XXXX");
      ("🇰🇬 Kyrgyzstan", "+996 XXX XXX XXX");
      ("🇹🇯 Tajikistan", "+992 XXX XXX XXX");
      ("🇹🇲 Turkmenistan", "+993 XX XXX XXX");
      ("🇺🇿 Uzbekistan", "+998 XX XXX XXXX")
    ]);
   ("Eastern Asia", [
      ("🇨🇳 China", "+86 XXX XXXX XXXX");
      ("🇭🇰 Hong Kong", "+852 XXXX XXXX");
      ("🇯🇵 Japan", "+81 XX XXXX XXXX");
      ("🇲🇴 Macao", "+853 XXXX XXXX");
      ("🇲🇳 Mongolia", "+976 XX XXXX XXXX");
      ("🇰🇵 North Korea", "+850 XXX XXX XXXX");
      ("🇰🇷 South Korea", "+82 XX XXX XXXX");
      ("🇹🇼 Taiwan", "+886 X XXXX XXXX")
    ]);
   ("South-Eastern Asia", [
      ("🇧🇳 Brunei", "+673 XXX XXXX");
      ("🇰🇭 Cambodia", "+855 XX XXX XXX");
      ("🇮🇩 Indonesia", "+62 XXX XXXX XXXX");
      ("🇱🇦 Laos", "+856 XX XXX XXX");
      ("🇲🇾 Malaysia", "+60 X XXX XXXX");
      ("🇲🇲 Myanmar", "+95 X XXX XXX");
      ("🇵🇭 Philippines", "+63 XXX XXX XXXX");
      ("🇸🇬 Singapore", "+65 XXXX XXXX");
      ("🇹🇭 Thailand", "+66 X XXXX XXXX");
      ("🇹🇱 Timor-Leste", "+670 XXX XXXX");
      ("🇻🇳 Vietnam", "+84 XXX XXX XXXX")
    ]);
   ("Southern Asia", [
      ("🇦🇫 Afghanistan", "+93 XX XXX XXXX");
      ("🇧🇩 Bangladesh", "+880 1XXX XXX XXX");
      ("🇧🇹 Bhutan", "+975 XX XXX XXX");
      ("🇮🇳 India", "+91 XXXXX XXXXX");
      ("🇮🇷 Iran", "+98 XXX XXX XXXX");
      ("🇲🇻 Maldives", "+960 XXX XXXX");
      ("🇳🇵 Nepal", "+977 X XXX XXX");
      ("🇵🇰 Pakistan", "+92 XXX XXX XXXX");
      ("🇱🇰 Sri Lanka", "+94 XX XXX XXXX")
    ]);
   ("Western Asia", [
      ("🇦🇲 Armenia", "+374 XX XXX XXX");
      ("🇦🇿 Azerbaijan", "+994 XX XXX XXXX");
      ("🇧🇭 Bahrain", "+973 XXXX XXXX");
      ("🇨🇾 Cyprus", "+357 XX XXX XXX");
      ("🇬🇪 Georgia", "+995 XXX XXX XXX");
      ("🇮🇶 Iraq", "+964 XXX XXX XXXX");
      ("🇮🇱 Israel", "+972 XX XXX XXXX");
      ("🇯🇴 Jordan", "+962 X XXX XXXX");
      ("🇰🇼 Kuwait", "+965 XXXX XXXX");
      ("🇱🇧 Lebanon", "+961 X XXX XXX");
      ("🇴🇲 Oman", "+968 XXXX XXXX");
      ("🇵🇸 Palestine", "+970 XXX XXX XXXX");
      ("🇶🇦 Qatar", "+974 XXXX XXXX");
      ("🇷🇺 Russia", "+7 XXX XXX XXXX");
      ("🇸🇦 Saudi Arabia", "+966 X XXX XXXX");
      ("🇸🇾 Syria", "+963 XXX XXX XXX");
      ("🇹🇷 Turkey", "+90 XXX XXX XXXX");
      ("🇦🇪 United Arab Emirates", "+971 XX XXX XXXX");
      ("🇾🇪 Yemen", "+967 XXX XXX XXX")
    ])
  ]);
  ("Europe", [
   ("Eastern Europe", [
      ("🇧🇾 Belarus", "+375 XX XXX XXXX");
      ("🇧🇬 Bulgaria", "+359 XXX XXX XXX");
      ("🇨🇿 Czech Republic", "+420 XXX XXX XXX");
      ("🇭🇺 Hungary", "+36 XX XXX XXXX");
      ("🇲🇩 Moldova", "+373 XXX XXX XX");
      ("🇵🇱 Poland", "+48 XXX XXX XXX");
      ("🇷🇴 Romania", "+40 XXX XXX XXX");
      ("🇷🇺 Russia", "+7 XXX XXX XXXX");
      ("🇸🇰 Slovakia", "+421 XXX XXX XXX");
      ("🇺🇦 Ukraine", "+380 XX XXX XXXX")
    ]);
   ("Northern Europe", [
      ("🇦🇽 Åland Islands", "+358 XX XXX XXXX");
      ("🇩🇰 Denmark", "+45 XX XX XX XX");
      ("🇪🇪 Estonia", "+372 XXX XXXX");
      ("🇫🇴 Faroe Islands", "+298 XXX XXX");
      ("🇫🇮 Finland", "+358 XX XXX XXXX");
      ("🇬🇬 Guernsey", "+44 XXXX XXXXXX");
      ("🇮🇸 Iceland", "+354 XXX XXXX");
      ("🇮🇪 Ireland", "+353 XX XXX XXXX");
      ("🇮🇲 Isle of Man", "+44 XXXX XXXXXX");
      ("🇯🇪 Jersey", "+44 XXXX XXXXXX");
      ("🇱🇻 Latvia", "+371 XX XXX XXX");
      ("🇱🇹 Lithuania", "+370 XXX XX XXX");
      ("🇳🇴 Norway", "+47 XXXX XXXX");
      ("🇸🇯 Svalbard", "+47 XXXX XXXX");
      ("🇸🇪 Sweden", "+46 XX XXX XXXX");
      ("🇬🇧 United Kingdom", "+44 XXXX XXXXXX")
    ]);
   ("Southern Europe", [
      ("🇦🇱 Albania", "+355 XX XXX XXXX");
      ("🇦🇩 Andorra", "+376 XXX XXX");
      ("🇧🇦 Bosnia and Herzegovina", "+387 XX XXX XXX");
      ("🇭🇷 Croatia", "+385 XX XXX XXX");
      ("🇬🇮 Gibraltar", "+350 XXXX XXXX");
      ("🇬🇷 Greece", "+30 XXX XXX XXXX");
      ("🇮🇹 Italy", "+39 XXX XXX XXXX");
      ("🇽🇰 Kosovo", "+383 XX XXX XXX");
      ("🇲🇹 Malta", "+356 XXXX XXXX");
      ("🇲🇪 Montenegro", "+382 XX XXX XXX");
      ("🇲🇰 North Macedonia", "+389 XX XXX XXX");
      ("🇵🇹 Portugal", "+351 XXX XXX XXX");
      ("🇸🇲 San Marino", "+378 XXX XXX");
      ("🇷🇸 Serbia", "+381 XX XXX XXX");
      ("🇸🇮 Slovenia", "+386 XX XXX XXX");
      ("🇪🇸 Spain", "+34 XXX XXX XXX");
      ("🇻🇦 Vatican City", "+39 XXX XXX XXXX")
    ]);
   ("Western Europe", [
      ("🇦🇹 Austria", "+43 XXX XXX XXXX");
      ("🇧🇪 Belgium", "+32 XXX XX XX XX");
      ("🇫🇷 France", "+33 X XX XX XX XX");
      ("🇩🇪 Germany", "+49 XXXX XXXXXXX");
      ("🇱🇮 Liechtenstein", "+423 XXX XXXX");
      ("🇱🇺 Luxembourg", "+352 XXX XXX XXX");
      ("🇲🇨 Monaco", "+377 XX XX XX XX");
      ("🇳🇱 Netherlands", "+31 XX XXX XXXX");
      ("🇨🇭 Switzerland", "+41 XX XXX XXXX")
    ])
  ]);
  ("Oceania", [
   ("Australia and New Zealand", [
      ("🇦🇺 Australia", "+61 X XXXX XXXX");
      ("🇨🇽 Christmas Island", "+61 X XXXX XXXX");
      ("🇨🇨 Cocos (Keeling) Islands", "+61 X XXXX XXXX");
      ("🇭🇲 Heard Island & McDonald Islands", "+672 XXX XXX");
      ("🇳🇿 New Zealand", "+64 XX XXX XXXX");
      ("🇳🇫 Norfolk Island", "+672 XXX XXX")
    ]);
   ("Melanesia", [
      ("🇫🇯 Fiji", "+679 XXX XXXX");
      ("🇳🇨 New Caledonia", "+687 XX XXXX");
      ("🇵🇬 Papua New Guinea", "+675 XXX XXX XXXX");
      ("🇸🇧 Solomon Islands", "+677 XXXXX");
      ("🇻🇺 Vanuatu", "+678 XXX XXX")
    ]);
   ("Micronesia", [
      ("🇬🇺 Guam", "+1 671 XXX XXXX");
      ("🇰🇮 Kiribati", "+686 XXX XXX");
      ("🇲🇭 Marshall Islands", "+692 XXX XXXX");
      ("🇫🇲 Micronesia", "+691 XXX XXXX");
      ("🇳🇷 Nauru", "+674 XXX XXX");
      ("🇲🇵 Northern Mariana Islands", "+1 670 XXX XXXX");
      ("🇵🇼 Palau", "+680 XXX XXXX")
    ]);
   ("Polynesia", [
      ("🇦🇸 American Samoa", "+1 684 XXX XXXX");
      ("🇨🇰 Cook Islands", "+682 XX XXX");
      ("🇵🇫 French Polynesia", "+689 XX XX XX XX");
      ("🇳🇺 Niue", "+683 XXXX");
      ("🇵🇳 Pitcairn Islands", "+872 XXX XXX");
      ("🇼🇸 Samoa", "+685 XXX XXXX");
      ("🇹🇰 Tokelau", "+690 XXXX");
      ("🇹🇴 Tonga", "+676 XXX XXX");
      ("🇹🇻 Tuvalu", "+688 XXX XXX");
      ("🇼🇫 Wallis & Futuna", "+681 XX XXXX")
    ])
  ]);
  ("Antarctica", [
   ("Antarctica", [
      ("🇦🇶 Antarctica", "+672 XXX XXX")
    ])
  ])
 ].

(** [ALL_COUNTRIES]: every continent of the table has sub-dictionaries, so
    the loop takes its first branch and merges them in order. *)
Definition ALL_COUNTRIES : list (string * string) :=
  fold_left
    (λ acc continent_data,
       fold_left (λ acc subregion_data, dict_update acc subregion_data)
                 (values continent_data) acc)
    (values COUNTRIES_BY_CONTINENT) [].

(** [\d] on the modelled range: the decimal digits. *)
Definition is_decimal_char (c : ascii) : bool :=
  let n := N_of_ascii c in ((48 <=? n) && (n <=? 57))%N.

Fixpoint take_while (p : ascii → bool) (s : string) : string :=
  match s with
  | String c s' => if p c then String c (take_while p s') else ""
  | "" => ""
  end.

(** [re.match(r"\+(\d+)", fmt)], giving [group(1)]. *)
Definition match_plus_digits (fmt : string) : option string :=
  match fmt with
  | String c rest =>
    if bool_decide (c = "+"%char) then
      match take_while is_decimal_char rest with
      | "" => None
      | digits => Some digits
      end
    else None
  | "" => None
  end.

(** [int(s)] for a string of decimal digits. *)
Fixpoint int_of_digits_from (acc : Z) (s : string) : Z :=
  match s with
  | "" => acc
  | String c s' => int_of_digits_from (10 * acc + (Z.of_N (N_of_ascii c) - 48)) s'
  end.
Definition int_of_digits (s : string) : Z := int_of_digits_from 0 s.

(** [region_of code] stands for the optional [phonenumbers] lookup: its
    result, or [None] when the [try] block ends in the [except] branch. *)
Definition extract_country_code_from_label (region_of : Z → option string)
    (country_label : string) : option Z * option string :=
  match dict_get country_label ALL_COUNTRIES with
  | None => (None, None)
  | Some fmt =>
    if bool_decide (fmt = "") then (None, None)
    else match match_plus_digits fmt with
         | None => (None, None)
         | Some group => let country_code := int_of_digits group in
                         (Some country_code, region_of country_code)
         end
  end.

Definition get_country_list : list string := sorted (keys ALL_COUNTRIES).

Definition get_format_example (country_label : string) : string :=
  default "" (dict_get country_label ALL_COUNTRIES).

(** Truth value of an optional string argument. *)
Definition truthy (o : option string) : bool :=
  match o with
  | Some s => negb (bool_decide (s = ""))
  | None => false
  end.

(** [get_countries_by_continent_and_subregion]; [None] stands for a
    [KeyError] of one of the subscript lookups. *)
Definition get_countries_by_continent_and_subregion
    (continent subregion : option string) : option (list string) :=
  if truthy continent
     && negb (bool_decide (is_Some (dict_get (default "" continent) COUNTRIES_BY_CONTINENT)))
  then Some []
  else if bool_decide (continent = Some "Antarctica") then
    match dict_get "Antarctica" COUNTRIES_BY_CONTINENT with
    | None => None
    | Some antarctica =>
      match dict_get "Antarctica" antarctica with
      | None => None
      | Some countries => Some (sorted (keys countries))
      end
    end
  else if negb (truthy continent) then Some (sorted (keys ALL_COUNTRIES))
  else
    match dict_get (default "" continent) COUNTRIES_BY_CONTINENT with
    | None => None
    | Some continent_data =>
      if negb (truthy subregion) then
        Some (sorted (concat (keys <$> values continent_data)))
      else
        match dict_get (default "" subregion) continent_data with
        | None => Some []
        | Some countries => Some (sorted (keys countries))
        end
    end.

(** [get_continent_structure] *)
Definition get_continent_structure : list (string * list string) :=
  (λ kv, if bool_decide (kv.1 = "Antarctica") then (kv.1, ["Antarctica"])
         else (kv.1, keys kv.2)) <$> COUNTRIES_BY_CONTINENT.


End PhoneGeography.

(** ** dialogorithm.py: input validation and the generate request

  The widgets are read once at the start of a callback; their contents are
  the arguments of the functions below, and a message box is the returned
  outcome. *)

Module Dialogorithm.
Import PyStr PhoneFormats PhoneGeography Runtime EquationBank LatexProcessor.

(** [str(z)] for an integer *)
Definition str_of_int (z : Z) : string :=
  if (z <? 0)%Z then "-" ++ str_of_nat (Z.to_nat (- z)) else str_of_nat (Z.to_nat z).

(** The digits-and-underscores part of an integer literal: digits, with
    single underscores between them. *)
Fixpoint int_body_ok (after_digit : bool) (s : string) : bool :=
  match s with
  | "" => after_digit
  | String c s' =>
    if is_decimal_char c then int_body_ok true s'
    else if bool_decide (c = "_"%char) then after_digit && int_body_ok false s'
    else false
  end.

(** [int(s)]; [None] stands for [ValueError]. *)
Definition py_int (s : string) : option Z :=
  let t := strip s in
  let '(negative, body) :=
    match t with
    | String c rest =>
      if bool_decide (c = "-"%char) then (true, rest)
      else if bool_decide (c = "+"%char) then (false, rest)
      else (false, t)
    | "" => (false, t)
    end in
  if int_body_ok false body then
    let magnitude := int_of_digits (s_filter is_decimal_char body) in
    Some (if negative then (- magnitude)%Z else magnitude)
  else None.

(** [text.replace('+', '')] *)
Definition remove_plus (text : string) : string :=
  s_filter (λ c, negb (bool_decide (c = "+"%char))) text.

Definition validate_phone_input_fixed (char current_value country_code_text : string)
  : bool :=
  if negb (isdigit char) then false
  else if bool_decide (country_code_text = "+")
  then String.length (current_value ++ char) <=? 15
  else match py_int (remove_plus country_code_text) with
       | None => String.length (current_value ++ char) <=? 15
       | Some country_code =>
         let max_local_digits := get_digit_limit country_code in
         let new_length := String.length (current_value ++ char) in
         bool_decide (Z.of_nat new_length ≤ max_local_digits)%Z
       end.

Definition signature_lines : list string :=
  [ "Please call me at:"; "Contact me:"; "Reach out via:"; "Phone:"; "Business line:";
    "Available at:"; "You can reach me at:"; "My direct line:"; "Telephone:";
    "Feel free to call:"; "For further assistance:"; "Professional contact:";
    "Main line:"; "Office line:"; "Direct dial:"; "Kindly reach out at:";
    "Primary contact:"; "Call for inquiries:"; "Reach my desk at:";
    "Client services line:" ].

Definition get_signature_line : M string := choice signature_lines.

(** What [on_generate] ends with: a warning box, the document handed to the
    renderer, the error box of the [except] branch, or an exception raised
    outside the [try] block. *)
Inductive GenerateOutcome : Type :=
| InputError (message : string)
| Generated (latex_document : string)
| GenerateFailed (e : Exn)
| Uncaught (e : Exn).

(** [f"+{code} {formatted_local}"] *)
Definition full_international (code : Z) (formatted_local : string) : string :=
  "+" ++ str_of_int code ++ " " ++ formatted_local.

Definition on_generate (region_of : Z → option string)
    (country local_number signature_option custom_signature : string)
    (st : State) : GenerateOutcome * State :=
  if bool_decide (country = "") then
    (InputError "Please select a country first.", st)
  else
    let '(code, region) := extract_country_code_from_label region_of country in
    let local_part := s_filter isdigit_char local_number in
    if bool_decide (local_part = "") || (String.length local_part <? 4) then
      (InputError "Please enter a valid local number with at least 4 digits.", st)
    else
      match code with
      | None => (InputError "Please select a country and enter a phone number.", st)
      | Some code =>
        if bool_decide (code = 0%Z) then
          (InputError "Please select a country and enter a phone number.", st)
        else
          let max_digits := get_digit_limit code in
          if bool_decide (max_digits < Z.of_nat (String.length local_part))%Z then
            (InputError ("Phone number too long. " ++ country ++ " allows maximum "
                         ++ str_of_int max_digits ++ " local digits."), st)
          else
            let formatted_local := format_display_number local_part code in
            let number := full_international code formatted_local in
            let '(signature, st1) :=
              if bool_decide (signature_option = "Random") then get_signature_line st
              else if bool_decide (signature_option = "Custom") then
                (Ok (if bool_decide (strip custom_signature = "")
                     then "Please call me at:" else strip custom_signature), st)
              else (Ok signature_option, st) in
            match signature with
            | Raise e => (Uncaught e, st1)
            | Ok signature_text =>
              match generate_latex_for_number number signature_text st1 with
              | (Ok document, st2) => (Generated document, st2)
              | (Raise e, st2) => (GenerateFailed e, st2)
              end
            end
      end.

End Dialogorithm.

(** ** latex_processor.py: the verification data

  [create_verification_output] up to the completed
  [verification_data["expressions_to_verify"]]; the time stamp and the
  writing of the file are outside the model. *)

Module Verification.
Import PyStr Runtime LatexProcessor Dialogorithm.

(** [list(s)] *)
Fixpoint list_of_str (s : string) : list string :=
  match s with
  | "" => []
  | String c s' => String c "" :: list_of_str s'
  end.

Definition expected_sequence (full_number_str : string) : list string :=
  let clean_number := s_filter isdigit_char full_number_str in
  let has_plus := startswith "+" (strip full_number_str) in
  let expected_sequence := if has_plus then ["+"] else [] in
  if has_plus && (String.length clean_number =? 11) && startswith "1" clean_number then
    (expected_sequence ++ list_of_str "1") ++ list_of_str (s_drop 1 clean_number)
  else if has_plus && (10 <? String.length clean_number) then
    let cc_len :=
      if 10 <? String.length clean_number then String.length clean_number - 10 else 1 in
    let country_code := s_take cc_len clean_number in
    let main_number := s_drop cc_len clean_number in
    (expected_sequence ++ list_of_str country_code) ++ list_of_str main_number
  else expected_sequence ++ list_of_str clean_number.

(** [None], a string, or an integer *)
Inductive ExpectedValue : Type :=
| NoValue
| TextValue (s : string)
| IntValue (z : Z).

(** [f"{expected_value}"] *)
Definition str_of_expected (v : ExpectedValue) : string :=
  match v with
  | NoValue => "None"
  | TextValue s => s
  | IntValue z => str_of_int z
  end.

(** [s.replace(old, "")] for a non-empty [old]; [skip] counts the
    characters of a found occurrence that are still to be dropped. *)
Fixpoint remove_from (old : string) (skip : nat) (s : string) : string :=
  match s with
  | "" => ""
  | String c s' =>
    match skip with
    | S k => remove_from old k s'
    | O =>
      if String.prefix old s then remove_from old (String.length old - 1) s'
      else String c (remove_from old 0 s')
    end
  end.
Definition remove_all (old s : string) : string := remove_from old 0 s.

Record ExprData : Type := mkExprData {
  index : nat;
  latex_expression : string;
  expected_value : ExpectedValue;
  expression_type : string;
  verification_question : string;
  clean_latex : string
}.

Definition expr_data (expr_index : nat) (latex_expr : string)
    (expected_value : ExpectedValue) (expression_type : string) : ExprData :=
  {| index := expr_index;
     latex_expression := latex_expr;
     expected_value := expected_value;
     expression_type := expression_type;
     verification_question :=
       "Does this expression evaluate to " ++ str_of_expected expected_value ++ "?";
     clean_latex := strip (remove_all "\right)" (remove_all "\left(" latex_expr)) |}.

Definition formatting_elements : list string :=
  ["\quad"; "\;"; "\text{---}"; "\boldsymbol{(}"; "\boldsymbol{)}"].

(** The expected value and the expression type of the entry at
    [expr_index]; [int] raises [ValueError]. *)
Definition classify (expected_sequence : list string) (expr_index : nat)
  : Result (ExpectedValue * string) :=
  match expected_sequence !! expr_index with
  | None => Ok (NoValue, "unknown")
  | Some expected_value =>
    if bool_decide (expected_value = "+") then Ok (TextValue expected_value, "plus_symbol")
    else if isdigit expected_value then
      let expression_type := "digit_" ++ expected_value in
      match py_int expected_value with
      | Some z => Ok (IntValue z, expression_type)
      | None =>
        Raise (ValueError ("invalid literal for int() with base 10: '"
                           ++ expected_value ++ "'"))
      end
    else Ok (TextValue expected_value, "unknown")
  end.

(** The [for i, latex_expr in enumerate(latex_parts)] loop;
    [expressions_to_verify] is the list built so far. *)
Fixpoint expressions_loop (expected_sequence latex_parts : list string)
    (expressions_to_verify : list ExprData) : Result (list ExprData) :=
  match latex_parts with
  | [] => Ok expressions_to_verify
  | latex_expr :: rest =>
    if bool_decide (latex_expr ∈ formatting_elements) then
      expressions_loop expected_sequence rest expressions_to_verify
    else
      let expr_index := length expressions_to_verify in
      match classify expected_sequence expr_index with
      | Raise e => Raise e
      | Ok (expected_value, expression_type) =>
        expressions_loop expected_sequence rest
          (expressions_to_verify
           ++ [expr_data expr_index latex_expr expected_value expression_type])
      end
  end.

Definition create_verification_output (full_number_str : string)
    (latex_parts : list string) : Result (list ExprData) :=
  expressions_loop (expected_sequence full_number_str) latex_parts [].

End Verification.

(** ** equation_bank.py: the public wrappers *)

Module EquationBankPublic.
Import PyStr Runtime EquationBank.

Definition eq_0 : M string := all_templates ← _get_0_templates; choice all_templates.
Definition eq_1 : M string := all_templates ← _get_1_templates; choice all_templates.
Definition eq_2 : M string := all_templates ← _get_2_templates; choice all_templates.
Definition eq_3 : M string := all_templates ← _get_3_templates; choice all_templates.
Definition eq_4 : M string := all_templates ← _get_4_templates; choice all_templates.
Definition eq_5 : M string := all_templates ← _get_5_templates; choice all_templates.
Definition eq_6 : M string := all_templates ← _get_6_templates; choice all_templates.
Definition eq_7 : M string := all_templates ← _get_7_templates; choice all_templates.
Definition eq_8 : M string := all_templates ← _get_8_templates; choice all_templates.
Definition eq_9 : M string := all_templates ← _get_9_templates; choice all_templates.

End EquationBankPublic.

(** ** Further vocabulary *)

Module ExtraVocabulary.
Import PyStr PhoneFormats PhoneGeography Runtime EquationBank LatexProcessor Vocabulary
  Dialogorithm Verification EquationBankPublic.

(** What the table guarantees for one of its entries. *)
Definition entry_ok (kv : string * string) : bool :=
  negb (bool_decide (kv.2 = ""))
  && match match_plus_digits kv.2 with
     | Some group =>
       bool_decide (0 < int_of_digits group)%Z
       && bool_decide (is_Some (LOCAL_DIGIT_LIMITS_BY_CODE !! int_of_digits group))
       && bool_decide (4 ≤ get_digit_limit (int_of_digits group) ≤ 11)%Z
     | None => false
     end.


(** The picker gives a non-empty list for this continent and subregion. *)
Definition offers_countries (continent subregion : string) : bool :=
  match get_countries_by_continent_and_subregion (Some continent) (Some subregion) with
  | Some (_ :: _) => true
  | _ => false
  end.

(** The characters of a display form: digits and the separators. *)
Definition display_char (c : ascii) : bool :=
  isdigit_char c
  || bool_decide (c = " "%char) || bool_decide (c = "("%char)
  || bool_decide (c = ")"%char) || bool_decide (c = "-"%char).

(** The digits of a local number that survive [format_display_number]. *)
Definition kept_digits (local_part : string) (code : Z) : string :=
  s_filter isdigit_char (format_display_number local_part code).

(** The number [on_generate] hands to the composer. *)
Definition request_number (code : Z) (local_part : string) : string :=
  full_international code (format_display_number local_part code).

(** The value of a decimal digit character. *)
Definition digit_value (v : ascii) : Z := (Z.of_N (N_of_ascii v) - 48)%Z.

(** The verification entries that match a token stream: one per plus sign
    and per digit token, numbered from [i], each asking for the value the
    expression was emitted for. *)
Fixpoint aligned_entries (i : nat) (tokens : list Token) : list ExprData :=
  match tokens with
  | [] => []
  | PlusSign e :: rest =>
    expr_data i e (TextValue "+") "plus_symbol" :: aligned_entries (S i) rest
  | Digit v _ e :: rest =>
    expr_data i e (IntValue (digit_value v)) ("digit_" ++ String v "")
    :: aligned_entries (S i) rest
  | Separator _ :: rest => aligned_entries i rest
  end.

(** What the positions of the expected sequence are, read off the tokens. *)
Fixpoint token_keys (tokens : list Token) : list string :=
  match tokens with
  | [] => []
  | PlusSign _ :: rest => "+" :: token_keys rest
  | Digit v _ _ :: rest => String v "" :: token_keys rest
  | Separator _ :: rest => token_keys rest
  end.

(** A token as the composer emits it. *)
Definition token_wf (t : Token) : Prop :=
  match t with
  | PlusSign e => e = eq_plus
  | Digit v _ e => is_expression e = true ∧ isdigit_char v = true
  | Separator s => s ∈ formatting_elements
  end.

(** The name under which the lookup searches the provider of a digit. *)
Definition provider_name (d : ascii) : string := "_get_" ++ String d "" ++ "_templates".

(** [e] is one of the templates that the provider of digit [d] returns for
    some state of the generator. *)
Definition from_collection (d : ascii) (e : string) : Prop :=
  ∃ get_templates st l st',
    getattr (provider_name d) = Some get_templates
    ∧ get_templates st = (Ok l, st') ∧ e ∈ l.

(** Where the expression of a digit token comes from. *)
Definition token_sourced (t : Token) : Prop :=
  match t with
  | Digit v o e =>
    (o = Placeholder ∧ e = eq_placeholder (String v "")) ∨ from_collection v e
  | _ => True
  end.

(** The values of the random parameters, as draws of the generator. *)
Definition parameter_draws : list (nat * nat) :=
  [(0, 0); (0, 1); (0, 2); (1, 0); (1, 1); (1, 2); (2, 0); (2, 1); (2, 2)].

(** The template lists of a provider over all values of its parameters. *)
Definition collections (get_templates : M (list string)) : list (Result (list string)) :=
  (λ ab, (get_templates (mkState [ab.1; ab.2] ∅)).1) <$> parameter_draws.

Definition all_templates_of (get_templates : M (list string)) : list string :=
  remove_dups
    (concat ((λ r, match r with Ok l => l | Raise _ => [] end) <$> collections get_templates)).

(** A provider result with at least 24 templates, no two of them equal,
    all bracketed. *)
Definition collection_ok (r : Result (list string)) : bool :=
  match r with
  | Ok l => (24 <=? length l) && bool_decide (NoDup l) && forallb bracketed l
  | Raise _ => false
  end.

(** The templates of each provider, under the provider's name. *)
Definition template_tables : list (string * list string) :=
  (λ kv, (kv.1, all_templates_of kv.2)) <$> module_attributes.

(** No template occurs under two names. *)
Definition tables_apart (tables : list (string * list string)) : bool :=
  forallb (λ t1,
    forallb (λ t2,
      String.eqb t1.1 t2.1 || forallb (λ e, negb (bool_decide (e ∈ t2.2))) t1.2)
      tables) tables.

Definition public_wrappers : list (ascii * M string) :=
  [ ("0"%char, eq_0); ("1"%char, eq_1); ("2"%char, eq_2); ("3"%char, eq_3);
    ("4"%char, eq_4); ("5"%char, eq_5); ("6"%char, eq_6); ("7"%char, eq_7);
    ("8"%char, eq_8); ("9"%char, eq_9) ].

(** The characters that [escape_signature] replaces. *)
Definition latex_special (c : ascii) : bool :=
  bool_decide (c = "\"%char) || bool_decide (c = "&"%char) || bool_decide (c = "%"%char)
  || bool_decide (c = "$"%char) || bool_decide (c = "#"%char) || bool_decide (c = "_"%char)
  || bool_decide (c = "{"%char) || bool_decide (c = "}"%char).

(** Reading an escaped text back; [skip] counts the characters of a
    replacement that are still to be passed over. *)
Fixpoint unescape_from (skip : nat) (s : string) : string :=
  match s with
  | "" => ""
  | String c s' =>
    match skip with
    | S k => unescape_from k s'
    | O =>
      if bool_decide (c = "\"%char) then
        match s' with
        | String d _ =>
          if bool_decide (d = "t"%char) then String c (unescape_from 15 s')
          else String d (unescape_from 1 s')
        | "" => String c ""
        end
      else String c (unescape_from 0 s')
    end
  end.

End ExtraVocabulary.

(** * Properties *)

(** ** Facts about the string builtins *)

Section StringFacts.
Import PyStr.
Implicit Types (s t : string) (c : ascii) (p : ascii → bool).

Lemma s_app_nil_l s : "" ++ s = s.
Proof. reflexivity. Qed.

Lemma s_app_cons c s t : String c s ++ t = String c (s ++ t).
Proof. reflexivity. Qed.

Lemma s_app_nil_r s : s ++ "" = s.
Proof. induction s as [|c s IH]; [done|]. by rewrite s_app_cons, IH. Qed.

Lemma app_assoc_s s t u : (s ++ t) ++ u = s ++ t ++ u.
Proof. induction s as [|c s IH]; [done|]. by rewrite !s_app_cons, IH. Qed.

Lemma length_app_s s t : String.length (s ++ t) = String.length s + String.length t.
Proof. induction s as [|c s IH]; [done|]. rewrite s_app_cons. cbn. by rewrite IH. Qed.

Lemma length_zero s : String.length s = 0 → s = "".
Proof. by destruct s. Qed.

Lemma s_filter_app p s t : s_filter p (s ++ t) = s_filter p s ++ s_filter p t.
Proof.
  induction s as [|c s IH]; [done|].
  rewrite s_app_cons. cbn. destruct (p c); [|done]. by rewrite s_app_cons, IH.
Qed.

Lemma all_chars_app p s t : all_chars p (s ++ t) = all_chars p s && all_chars p t.
Proof.
  induction s as [|c s IH]; [done|].
  rewrite s_app_cons. cbn. by rewrite IH, andb_assoc.
Qed.

Lemma s_filter_all p s : all_chars p s = true → s_filter p s = s.
Proof.
  induction s as [|c s IH]; [done|]. cbn.
  intros [-> Hs]%andb_prop. by rewrite IH.
Qed.

Lemma s_filter_none p s : all_chars (λ c, negb (p c)) s = true ↔ s_filter p s = "".
Proof.
  induction s as [|c s IH]; [done|]. cbn.
  destruct (p c); cbn; [split; discriminate | exact IH].
Qed.

Lemma s_take_drop n s : s_take n s ++ s_drop n s = s.
Proof.
  revert s. induction n as [|n IH]; intros [|c s]; try done.
  cbn. by rewrite s_app_cons, IH.
Qed.

Lemma s_drop_drop a b s : s_drop a (s_drop b s) = s_drop (b + a) s.
Proof.
  revert s. induction b as [|b IH]; intros s; [done|].
  destruct s as [|c s]; [by destruct a|]. cbn. apply IH.
Qed.

Lemma slice_drop a b s : a ≤ b → slice a b s ++ s_drop b s = s_drop a s.
Proof.
  intros Hab. unfold slice.
  replace (s_drop b s) with (s_drop (b - a) (s_drop a s)).
  - apply s_take_drop.
  - rewrite s_drop_drop. f_equal. lia.
Qed.

Lemma all_chars_take p n s : all_chars p s = true → all_chars p (s_take n s) = true.
Proof.
  revert s. induction n as [|n IH]; intros [|c s]; try done.
  cbn. intros [-> Hs]%andb_prop. by apply IH.
Qed.

Lemma all_chars_drop p n s : all_chars p s = true → all_chars p (s_drop n s) = true.
Proof.
  revert s. induction n as [|n IH]; intros [|c s]; try done.
  cbn. intros [_ Hs]%andb_prop. by apply IH.
Qed.

Lemma all_chars_slice p a b s : all_chars p s = true → all_chars p (slice a b s) = true.
Proof. intros Hs. by apply all_chars_take, all_chars_drop. Qed.

Lemma length_s_drop n s : String.length (s_drop n s) = String.length s - n.
Proof.
  revert s. induction n as [|n IH]; intros [|c s]; cbn; try done; lia.
Qed.

Lemma length_s_take n s : String.length (s_take n s) = n `min` String.length s.
Proof.
  revert s. induction n as [|n IH]; intros [|c s]; cbn; try done.
  by rewrite IH.
Qed.

Lemma slice_to_from_neg k s : slice_to_neg k s ++ slice_from_neg k s = s.
Proof. apply s_take_drop. Qed.

Lemma digit_not_newline c : isdigit_char c = true → is_newline c = false.
Proof.
  unfold isdigit_char, is_newline.
  destruct (N_of_ascii c =? 10)%N eqn:E; [|done].
  apply N.eqb_eq in E. by rewrite E.
Qed.

Lemma space_not_digit c : isspace_char c = true → isdigit_char c = false.
Proof. destruct c as [[] [] [] [] [] [] [] []]; by vm_compute. Qed.

Lemma s_filter_join_cons s (l : list string) :
  s_filter isdigit_char (join " " (s :: l))
  = s_filter isdigit_char s ++ s_filter isdigit_char (join " " l).
Proof.
  destruct l as [|t l]; [cbn; by rewrite s_app_nil_r|].
  change (join " " (s :: t :: l)) with (s ++ " " ++ join " " (t :: l)).
  by rewrite !s_filter_app.
Qed.

Lemma findall_pairs_digits fuel s :
  all_chars isdigit_char s = true → String.length s ≤ fuel →
  s_filter isdigit_char (join " " (findall_dot_1_2_aux fuel s)) = s.
Proof.
  revert s. induction fuel as [|fuel IH]; intros s Hs Hlen.
  { destruct s; [done | cbn in Hlen; lia]. }
  destruct s as [|c1 [|c2 s]]; [done| |]; cbn in Hs.
  - apply andb_prop in Hs as [H1 _].
    cbn [findall_dot_1_2_aux]. rewrite (digit_not_newline _ H1). cbn. by rewrite H1.
  - apply andb_prop in Hs as [H1 [H2 Hs]%andb_prop].
    cbn [findall_dot_1_2_aux].
    rewrite (digit_not_newline _ H1), (digit_not_newline _ H2).
    rewrite s_filter_join_cons, IH; [|done|cbn in Hlen; lia].
    cbn. by rewrite H1, H2.
Qed.

End StringFacts.

(** ** The phone-format registry *)

Section Registry.
Import PyStr PhoneFormats.

Lemma dict_literal_fold (entries : list (Z * Z)) (m : gmap Z Z) :
  fold_left (λ m kv, <[kv.1 := kv.2]> m) entries m
  = list_to_map (reverse entries) ∪ m.
Proof.
  revert m. induction entries as [|[k v] entries IH]; intros m.
  { cbn. by rewrite (left_id_L ∅ (∪)). }
  cbn [fold_left]. rewrite IH, reverse_cons, list_to_map_app.
  rewrite list_to_map_cons, list_to_map_nil, <-(assoc_L (∪)). f_equal.
  by rewrite <-insert_union_l, (left_id_L ∅ (∪)).
Qed.

Lemma limits_keys_nodup : NoDup (LOCAL_DIGIT_LIMITS_entries.*1).
Proof. apply (bool_decide_unpack _). by vm_compute. Qed.

Lemma limits_values_positive :
  Forall (λ kv : Z * Z, (0 < kv.2)%Z) LOCAL_DIGIT_LIMITS_entries.
Proof. apply (bool_decide_unpack _). by vm_compute. Qed.

Lemma limits_lookup (code : Z) :
  LOCAL_DIGIT_LIMITS_BY_CODE !! code
  = (list_to_map (reverse LOCAL_DIGIT_LIMITS_entries) : gmap Z Z) !! code.
Proof.
  unfold LOCAL_DIGIT_LIMITS_BY_CODE, dict_literal.
  by rewrite dict_literal_fold, (right_id_L ∅ (∪)).
Qed.

Lemma limits_lookup_entry (code v : Z) :
  (code, v) ∈ LOCAL_DIGIT_LIMITS_entries ↔ LOCAL_DIGIT_LIMITS_BY_CODE !! code = Some v.
Proof.
  rewrite limits_lookup, <-elem_of_list_to_map, elem_of_reverse; [done|].
  rewrite fmap_reverse, reverse_Permutation. apply limits_keys_nodup.
Qed.

Lemma limits_lookup_missing (code : Z) :
  code ∉ LOCAL_DIGIT_LIMITS_entries.*1 ↔ LOCAL_DIGIT_LIMITS_BY_CODE !! code = None.
Proof.
  rewrite limits_lookup, <-not_elem_of_list_to_map, fmap_reverse.
  by rewrite elem_of_reverse.
Qed.

(** C8: [get_digit_limit] is total; for a code bound in the table it returns
    the value the table binds to it, which is positive; for any other code it
    returns exactly 15. *)
Theorem get_digit_limit_table_or_default (code : Z) :
  (∀ v, (code, v) ∈ LOCAL_DIGIT_LIMITS_entries →
        get_digit_limit code = v ∧ (0 < v)%Z)
  ∧ (code ∉ LOCAL_DIGIT_LIMITS_entries.*1 → get_digit_limit code = 15%Z).
Proof.
  split.
  - intros v Hin. split.
    + unfold get_digit_limit. apply limits_lookup_entry in Hin. by rewrite Hin.
    + pose proof limits_values_positive as Hpos.
      rewrite Forall_forall in Hpos. exact (Hpos _ Hin).
  - intros Hout. unfold get_digit_limit.
    apply limits_lookup_missing in Hout. by rewrite Hout.
Qed.

Lemma get_digit_limit_table_or_default_witness :
  (get_digit_limit 44 = 11%Z ∧ (0 < 11)%Z) ∧ get_digit_limit 999 = 15%Z.
Proof.
  split.
  - apply (proj1 (get_digit_limit_table_or_default 44) 11%Z).
    apply (bool_decide_unpack _). by vm_compute.
  - apply (proj2 (get_digit_limit_table_or_default 999)).
    apply (bool_decide_unpack _). by vm_compute.
Defined.

Lemma isdigit_spec (s : string) :
  isdigit s = true ↔ s ≠ "" ∧ all_chars isdigit_char s = true.
Proof. destruct s; cbn; [|by intuition]. split; [done|]. by intros [[] _]. Qed.

(** C2 as stated: [validate] would be true for every all-digit string within
    the limit, the empty string included.  The empty string refutes it. *)
Lemma validate_empty_string_rejected :
  all_chars isdigit_char "" = true
  ∧ (Z.of_nat (len "") ≤ get_digit_limit 1)%Z
  ∧ validate_digit_input "" 1 = false.
Proof. by vm_compute. Qed.

(** C2, amended: [validate] is true exactly for the non-empty strings made
    of digit characters only whose length is within the limit of the code;
    it is false for the empty string, for any string with a non-digit
    character, and for any string longer than the limit. *)
Theorem validate_digit_input_spec (s : string) (code : Z) :
  validate_digit_input s code = true
  ↔ s ≠ "" ∧ all_chars isdigit_char s = true
    ∧ (Z.of_nat (String.length s) ≤ get_digit_limit code)%Z.
Proof.
  unfold validate_digit_input, len.
  destruct (isdigit s) eqn:Hd; cbn.
  - apply isdigit_spec in Hd as [Hne Hall].
    rewrite bool_decide_eq_true. by intuition.
  - split; [done|]. intros (Hne & Hall & _).
    assert (isdigit s = true) as Hd' by by apply isdigit_spec.
    congruence.
Qed.

End Registry.

(** ** Display formatting *)

Section Display.
Import PyStr PhoneFormats.

Ltac filter_literals :=
  repeat match goal with
  | |- context [s_filter isdigit_char (String ?c ?s)] =>
    let r := eval vm_compute in (s_filter isdigit_char (String c s)) in
    change (s_filter isdigit_char (String c s)) with r
  end.

Ltac regroup :=
  rewrite ?s_app_nil_l;
  repeat (rewrite slice_drop by lia);
  try apply s_take_drop; try done.

Ltac roundtrip_leaf H :=
  rewrite ?s_filter_app;
  rewrite ?(s_filter_all _ _ (all_chars_take _ _ _ H)),
          ?(s_filter_all _ _ (all_chars_drop _ _ _ H)),
          ?(s_filter_all _ _ (all_chars_slice _ _ _ _ H));
  filter_literals; regroup.

Ltac split_ifs :=
  repeat match goal with
  | |- context [if ?b then _ else _] =>
    lazymatch type of b with bool => destruct b eqn:? end
  | H : context [if ?b then _ else _] |- _ =>
    lazymatch type of b with bool => destruct b eqn:? end
  end.

Lemma generic_rule_roundtrip (D : string) :
  all_chars isdigit_char D = true →
  s_filter isdigit_char (generic_rule D) = D.
Proof.
  intros H. unfold generic_rule.
  split_ifs; [by apply s_filter_all | roundtrip_leaf H..].
Qed.

(** Every rule but the ten-digit French one keeps all the digits. *)
Lemma format_display_roundtrip (D : string) (C : Z) :
  all_chars isdigit_char D = true →
  ¬ (C = 33%Z ∧ String.length D = 10) →
  s_filter isdigit_char (format_display_number D C) = D.
Proof.
  intros H Hfr. unfold format_display_number.
  case_bool_decide as Hemp; [by subst|].
  destruct (country_rule D C) as [formatted|] eqn:Hrule;
    [|by apply generic_rule_roundtrip].
  unfold country_rule, len in Hrule.
  split_ifs; simplify_eq; try by roundtrip_leaf H.
  - exfalso. apply Hfr.
    repeat match goal with
           | E : _ && _ = true |- _ => apply andb_prop in E as [? ?]
           | E : bool_decide _ = true |- _ => apply bool_decide_eq_true in E
           | E : (_ =? _) = true |- _ => apply Nat.eqb_eq in E
           end. done.
  - apply findall_pairs_digits; [done | unfold findall_dot_1_2; lia].
Qed.

(** C1 at the failing input: a ten-digit French number is within the limit of
    calling code 33, yet its display form holds only the first nine digits,
    so stripping the non-digits does not give the number back. *)
Theorem format_display_france_drops_digit :
  all_chars isdigit_char "0123456789" = true
  ∧ (Z.of_nat (len "0123456789") ≤ get_digit_limit 33)%Z
  ∧ format_display_number "0123456789" 33 = "0 12 34 56 78"
  ∧ s_filter isdigit_char (format_display_number "0123456789" 33) = "012345678"
  ∧ s_filter isdigit_char (format_display_number "0123456789" 33) ≠ "0123456789".
Proof. by vm_compute. Qed.

End Display.

(** ** The equation bank *)

Section Bank.
Import PyStr Runtime EquationBank LatexProcessor Vocabulary.

Ltac provider_ok :=
  intros [[|r [|r' rest]] used]; do 2 eexists; (split; [reflexivity|]); split; done.

Lemma provider_0_ok : provider_ok _get_0_templates. Proof. provider_ok. Qed.
Lemma provider_1_ok : provider_ok _get_1_templates. Proof. provider_ok. Qed.
Lemma provider_2_ok : provider_ok _get_2_templates. Proof. provider_ok. Qed.
Lemma provider_3_ok : provider_ok _get_3_templates. Proof. provider_ok. Qed.
Lemma provider_4_ok : provider_ok _get_4_templates. Proof. provider_ok. Qed.
Lemma provider_5_ok : provider_ok _get_5_templates. Proof. provider_ok. Qed.
Lemma provider_6_ok : provider_ok _get_6_templates. Proof. provider_ok. Qed.
Lemma provider_7_ok : provider_ok _get_7_templates. Proof. provider_ok. Qed.
Lemma provider_8_ok : provider_ok _get_8_templates. Proof. provider_ok. Qed.
Lemma provider_9_ok : provider_ok _get_9_templates. Proof. provider_ok. Qed.

Lemma getattr_provider_ok (name : string) (get_templates : M (list string)) :
  getattr name = Some get_templates → provider_ok get_templates.
Proof.
  unfold getattr, module_attributes. cbn [List.find fst snd].
  repeat (destruct (String.eqb name _);
          [intros [= <-];
           eauto using provider_0_ok, provider_1_ok, provider_2_ok, provider_3_ok,
             provider_4_ok, provider_5_ok, provider_6_ok, provider_7_ok,
             provider_8_ok, provider_9_ok|]).
  done.
Qed.

Lemma bind_Ok {A B} (m : M A) (k : A → M B) st a st1 :
  m st = (Ok a, st1) → bind m k st = k a st1.
Proof. intros H. unfold bind. by rewrite H. Qed.

Lemma nth_default_elem (l : list string) (i : nat) (x : string) :
  x ∈ l → nth i l x ∈ l.
Proof.
  intros Hx. destruct (decide (i < length l)) as [Hi|Hi].
  - apply list_elem_of_In, nth_In, Hi.
  - rewrite nth_overflow by lia. done.
Qed.

Lemma choice_elem (l : list string) st :
  l ≠ [] → ∃ s rest, choice l st = (Ok s, mkState rest (used_formulas st)) ∧ s ∈ l.
Proof.
  destruct l as [|x l]; [done|]. intros _.
  unfold choice, bind, randbelow, ret. destruct st as [[|r rest] used]; cbn -[nth Nat.modulo].
  - do 2 eexists. split; [done|]. apply list_elem_of_here.
  - do 2 eexists. split; [done|]. apply nth_default_elem, list_elem_of_here.
Qed.

Lemma draw_ok gt st :
  provider_ok gt →
  ∃ s rest, draw gt st = (Ok s, mkState rest (used_formulas st)) ∧ bracketed s = true.
Proof.
  intros Hgt. destruct (Hgt st) as (l & rest & Hl & Hne & Hall).
  destruct (choice_elem l (mkState rest (used_formulas st)) Hne) as (s & rest' & Hs & Hin).
  exists s, rest'. split.
  - unfold draw. by rewrite (bind_Ok _ _ _ _ _ Hl).
  - rewrite forallb_forall in Hall. by apply Hall, list_elem_of_In.
Qed.

Lemma unique_attempts_step gt n st s st1 :
  draw gt st = (Ok s, st1) → used_formulas st1 = used_formulas st →
  unique_attempts gt (S n) st
  = if bool_decide (s ∈ used_formulas st) then unique_attempts gt n st1
    else (Ok (Some s), mkState (tape st1) ({[s]} ∪ used_formulas st)).
Proof.
  intros Hdraw Hused. cbn [unique_attempts]. unfold draw, bind in *.
  destruct (gt st) as [[l|e] st']; [|done].
  rewrite Hdraw. unfold get_used, add_used, ret. rewrite Hused.
  destruct (bool_decide _); [done|]. cbn. by rewrite Hused.
Qed.

End Bank.

(** ** The per-digit lookup *)

Section Lookup.
Import PyStr Runtime EquationBank LatexProcessor Vocabulary.

Lemma draw_seq_S gt m st s st1 :
  draw gt st = (Ok s, st1) →
  draw_seq gt (S m) st = (s :: (draw_seq gt m st1).1, (draw_seq gt m st1).2).
Proof. intros Hd. cbn [draw_seq]. rewrite Hd. by destruct (draw_seq gt m st1). Qed.

Lemma draw_seq_facts gt n st :
  provider_ok gt →
  length (draw_seq gt n st).1 = n
  ∧ used_formulas (draw_seq gt n st).2 = used_formulas st
  ∧ forallb bracketed (draw_seq gt n st).1 = true.
Proof.
  intros Hgt. revert st. induction n as [|n IH]; intros st; [done|].
  destruct (draw_ok gt st Hgt) as (s & rest & Hd & Hb).
  rewrite (draw_seq_S _ _ _ _ _ Hd). cbn [fst snd length forallb].
  destruct (IH (mkState rest (used_formulas st))) as (-> & -> & ->).
  by rewrite Hb.
Qed.

(** The retry loop, in terms of the successive draws. *)
Lemma unique_attempts_spec gt n st :
  provider_ok gt →
  match list_find (λ s, s ∉ used_formulas st) (draw_seq gt n st).1 with
  | Some (k, e) =>
    unique_attempts gt n st
    = (Ok (Some e),
       mkState (tape (draw_seq gt (S k) st).2) ({[e]} ∪ used_formulas st))
  | None => unique_attempts gt n st = (Ok None, (draw_seq gt n st).2)
  end.
Proof.
  intros Hgt. revert st. induction n as [|n IH]; intros st; [done|].
  destruct (draw_ok gt st Hgt) as (s & rest & Hd & Hb).
  rewrite (draw_seq_S _ _ _ _ _ Hd), (unique_attempts_step _ _ _ _ _ Hd eq_refl).
  cbn [fst snd list_find].
  destruct (decide (s ∉ used_formulas st)) as [Hnew|Hold].
  - rewrite bool_decide_eq_false_2 by done.
    by rewrite (draw_seq_S _ _ _ _ _ Hd).
  - rewrite bool_decide_eq_true_2 by (by apply dec_stable).
    specialize (IH (mkState rest (used_formulas st))). cbn [used_formulas] in IH.
    destruct (list_find _ (draw_seq gt n _).1) as [[k e]|];
      cbn -[draw_seq unique_attempts].
    + by rewrite (draw_seq_S _ (S k) _ _ _ Hd).
    + done.
Qed.

(** What one run of the retry loop does to the state. *)
Lemma unique_attempts_effect gt n st :
  provider_ok gt →
  ∃ r rest U', unique_attempts gt n st = (Ok r, mkState rest U')
    ∧ match r with
      | Some e => (e ∉ used_formulas st) ∧ U' = {[e]} ∪ used_formulas st
                  ∧ bracketed e = true
      | None => U' = used_formulas st
      end.
Proof.
  intros Hgt. pose proof (unique_attempts_spec gt n st Hgt) as Hspec.
  destruct (draw_seq_facts gt n st Hgt) as (_ & Hused & Hall).
  destruct (list_find _ _) as [[k e]|] eqn:Hfind.
  - apply list_find_Some in Hfind as (Hk & Hnew & _).
    eexists _, _, _. split; [exact Hspec|]. split_and!; [done..|].
    rewrite forallb_forall in Hall. apply Hall, list_elem_of_In.
    by eapply list_elem_of_lookup_2.
  - destruct (draw_seq gt n st).2 as [rest U'] eqn:Hst. cbn in Hused.
    eexists _, _, _. split; [exact Hspec|]. done.
Qed.

Lemma bracketed_is_expression e : bracketed e = true → is_expression e = true.
Proof. unfold bracketed, is_expression. by intros ->. Qed.

Lemma placeholder_is_expression dc : is_expression (eq_placeholder dc) = true.
Proof. reflexivity. Qed.

Lemma expression_not_separator e :
  is_expression e = true →
  e ≠ group_open ∧ e ≠ group_close ∧ e ≠ minor_gap ∧ e ≠ major_gap ∧ e ≠ dash.
Proof. intros He. split_and!; intros ->; by vm_compute in He. Qed.

(** What one lookup does: it returns, and the used set changes only by the
    insertion of a fresh expression. *)
Lemma unique_latex_traced_effect dc st :
  ∃ o e rest U',
    unique_latex_traced dc st = (Ok (o, e), mkState rest U')
    ∧ is_expression e = true
    ∧ (o = Placeholder ↔ has_provider dc = false)
    ∧ (o = Placeholder → e = eq_placeholder dc)
    ∧ (o = Fresh → (e ∉ used_formulas st) ∧ U' = {[e]} ∪ used_formulas st)
    ∧ (o ≠ Fresh → U' = used_formulas st).
Proof.
  unfold unique_latex_traced, has_provider.
  destruct (isdigit dc); cbn [negb andb];
    [|destruct st; by eexists Placeholder, _, _, _].
  destruct (getattr _) as [gt|] eqn:Hattr;
    [|destruct st; by eexists Placeholder, _, _, _].
  rewrite bool_decide_eq_true_2 by by eexists.
  apply getattr_provider_ok in Hattr.
  destruct (unique_attempts_effect gt MAX_UNIQUE_ATTEMPTS st Hattr)
    as (r & rest & U' & Hrun & Hr).
  rewrite (bind_Ok _ _ _ _ _ Hrun).
  destruct r as [e|].
  - destruct Hr as (Hnew & -> & Hb).
    exists Fresh, e, rest, ({[e]} ∪ used_formulas st).
    split_and!; [done|by apply bracketed_is_expression|done..].
  - subst U'.
    destruct (draw_ok gt (mkState rest (used_formulas st)) Hattr)
      as (s & rest' & Hd & Hb).
    unfold draw in Hd. unfold bind in Hd |- *.
    destruct (gt _) as [[l|x] st']; [|done]. rewrite Hd.
    exists Exhausted, s, rest', (used_formulas st).
    split_and!; [done|by apply bracketed_is_expression|done..].
Qed.

Lemma unique_latex_erase dc st :
  _get_unique_latex_for_digit dc st
  = match unique_latex_traced dc st with
    | (Ok r, st') => (Ok r.2, st')
    | (Raise x, st') => (Raise x, st')
    end.
Proof. reflexivity. Qed.

End Lookup.

(** ** The composer *)

Section Composer.
Import PyStr Runtime EquationBank LatexProcessor Vocabulary.
Local Open Scope list_scope.
#[local] Set Warnings "-clear-no-such-hyp".

Lemma emits_nil U : emits U [] U.
Proof.
  split_and!; cbn; [by rewrite (left_id_L ∅ (∪)) | constructor | by intros e ?%elem_of_nil].
Qed.

Lemma fresh_expressions_app t1 t2 :
  fresh_expressions (t1 ++ t2) = fresh_expressions t1 ++ fresh_expressions t2.
Proof.
  induction t1 as [|[e|v [] e|s] t1 IH]; cbn; by rewrite ?IH.
Qed.

Lemma digit_values_app t1 t2 :
  digit_values (t1 ++ t2) = (digit_values t1 ++ digit_values t2)%string.
Proof.
  induction t1 as [|[e|v o e|s] t1 IH]; cbn; rewrite ?s_app_cons, ?IH; done.
Qed.

Lemma emits_app U t1 U1 t2 U2 :
  emits U t1 U1 → emits U1 t2 U2 → emits U (t1 ++ t2) U2.
Proof.
  intros (-> & Hnd1 & Hnew1) (-> & Hnd2 & Hnew2).
  unfold emits. rewrite fresh_expressions_app. split_and!.
  - rewrite list_to_set_app_L. set_solver.
  - apply NoDup_app. split_and!; [done| |done].
    intros e He1 He2. apply (Hnew2 e He2). set_solver.
  - intros e [He|He]%elem_of_app; [by apply Hnew1|].
    specialize (Hnew2 e He). set_solver.
Qed.

Lemma emits_lookup U v o e U' :
  (o = Fresh → (e ∉ U) ∧ U' = {[e]} ∪ U) → (o ≠ Fresh → U' = U) →
  emits U [Digit v o e] U'.
Proof.
  intros Hf Hn. destruct (decide (o = Fresh)) as [->|Ho].
  - destruct (Hf eq_refl) as [Hnew ->]. cbn. split_and!.
    + set_solver.
    + apply NoDup_singleton.
    + by intros e' ->%list_elem_of_singleton.
  - rewrite (Hn Ho). unfold emits.
    replace (fresh_expressions [Digit v o e]) with (@nil string) by by destruct o.
    apply emits_nil.
Qed.

(** One lookup per digit, in order. *)
Lemma digit_tokens_spec ds st :
  ∃ toks rest U',
    digit_tokens ds st = (Ok toks, mkState rest U')
    ∧ digit_run ds toks ∧ emits (used_formulas st) toks U'.
Proof.
  revert st. induction ds as [|d ds IH]; intros st.
  { destruct st as [t U]. exists [], t, U. split; [done|].
    split; [by repeat split|apply emits_nil]. }
  destruct (unique_latex_traced_effect (String d "") st)
    as (o & e & rest & U1 & Hlook & Hexp & Hprov & _ & Hfresh & Hother).
  destruct (IH (mkState rest U1)) as (toks & rest' & U' & Hrun & (Hv & Hlen & Hall) & Hem).
  exists (Digit d o e :: toks), rest', U'. split_and!.
  - cbn [digit_tokens]. rewrite (bind_Ok _ _ _ _ _ Hlook), (bind_Ok _ _ _ _ _ Hrun).
    done.
  - split_and!; cbn; [by rewrite Hv | by rewrite Hlen | by constructor].
  - change (Digit d o e :: toks) with ([Digit d o e] ++ toks).
    eapply emits_app; [by apply emits_lookup|done].
Qed.

End Composer.

(** ** Stripping and segmentation *)

Section Segmentation.
Import PyStr Runtime EquationBank LatexProcessor Vocabulary.

Lemma all_chars_impl (p q : ascii → bool) s :
  (∀ c, p c = true → q c = true) → all_chars p s = true → all_chars q s = true.
Proof.
  intros Hpq. induction s as [|c s IH]; [done|]. cbn.
  intros [Hc Hs]%andb_prop. by rewrite (Hpq c Hc), IH.
Qed.

Lemma lstrip_empty s : lstrip s = "" → all_chars isspace_char s = true.
Proof.
  induction s as [|c s IH]; [done|]. cbn.
  destruct (isspace_char c); [exact IH | done].
Qed.

Lemma rstrip_empty s : rstrip s = "" → all_chars isspace_char s = true.
Proof.
  induction s as [|c s IH]; [done|]. cbn.
  destruct (rstrip s); [|done].
  destruct (isspace_char c); [intros _; by apply IH | done].
Qed.

Lemma lstrip_spaces s : ∃ ws, s = ws ++ lstrip s ∧ all_chars isspace_char ws = true.
Proof.
  induction s as [|c s (ws & Hs & Hws)]; [by exists ""|]. cbn.
  destruct (isspace_char c) eqn:Hc.
  - exists (String c ws). rewrite s_app_cons, <-Hs. cbn. by rewrite Hc.
  - by exists "".
Qed.

Lemma strip_empty s : strip s = "" → all_chars isspace_char s = true.
Proof.
  intros H%rstrip_empty. destruct (lstrip_spaces s) as (ws & Hs & Hws).
  rewrite Hs, all_chars_app, Hws. exact H.
Qed.

(** A blank string has no digit. *)
Lemma strip_empty_no_digits s : strip s = "" → clean_number s = "".
Proof.
  intros H%strip_empty. apply s_filter_none.
  revert H. apply all_chars_impl. by intros c ->%space_not_digit.
Qed.

Lemma startswith_rstrip c s :
  isspace_char c = false → startswith c (rstrip s) = startswith c s.
Proof.
  intros Hc. destruct s as [|a s]; [done|]. cbn.
  destruct (rstrip s); [|done].
  destruct (isspace_char a) eqn:Ha; [|done]. cbn.
  symmetry. apply bool_decide_eq_false. by intros ->; congruence.
Qed.

(** The input carries a plus sign when its first character after any
    leading blanks is one. *)
Lemma has_plus_spec s :
  has_plus s = true
  ↔ ∃ ws rest, s = ws ++ String "+" rest ∧ all_chars isspace_char ws = true.
Proof.
  unfold has_plus, strip. rewrite startswith_rstrip by done.
  destruct (lstrip_spaces s) as (ws & Hs & Hws). split.
  - destruct (lstrip s) as [|a rest]; [done|]. cbn.
    intros ->%bool_decide_eq_true. by exists ws, rest.
  - intros (ws' & rest & -> & Hws'). clear ws Hs Hws.
    induction ws' as [|c ws' IH]; [by cbn|].
    cbn in Hws'. apply andb_prop in Hws' as [Hc Hws'].
    rewrite s_app_cons. cbn. rewrite Hc. by apply IH.
Qed.

Lemma segment_concat hp c : ((segment hp c).1 ++ (segment hp c).2)%string = c.
Proof.
  unfold segment.
  destruct (hp && (String.length c =? 11) && startswith "1" c) eqn:H1.
  - apply andb_prop in H1 as [_ H1]. destruct c as [|a c]; [done|].
    cbn in H1. by apply bool_decide_eq_true in H1 as ->.
  - destruct (hp && (10 <? String.length c)); [apply slice_to_from_neg | done].
Qed.

End Segmentation.

(** ** Layout of the composed token stream *)

Section Layout.
Import PyStr Runtime EquationBank LatexProcessor Vocabulary.
Local Open Scope list_scope.

Lemma digit_run_nil : digit_run "" [].
Proof. by repeat split. Qed.

Lemma digit_run_app d1 t1 d2 t2 :
  digit_run d1 t1 → digit_run d2 t2 → digit_run (d1 ++ d2)%string (t1 ++ t2).
Proof.
  intros (Hv1 & Hl1 & Ha1) (Hv2 & Hl2 & Ha2). split_and!.
  - by rewrite digit_values_app, Hv1, Hv2.
  - rewrite length_app, length_app_s. lia.
  - by apply Forall_app.
Qed.

Lemma code_part_run cc st :
  ∃ code_toks rest U',
    (if bool_decide (cc = "") then ret []
     else (toks ← digit_tokens cc; ret (toks ++ [Separator major_gap]))) st
    = (Ok (code_part cc code_toks), mkState rest U')
    ∧ digit_run cc code_toks ∧ emits (used_formulas st) code_toks U'.
Proof.
  unfold code_part. case_bool_decide as Hcc.
  - subst cc. destruct st as [t U]. exists [], t, U.
    split_and!; [done | apply digit_run_nil | apply emits_nil].
  - destruct (digit_tokens_spec cc st) as (toks & rest & U' & Hrun & Hdr & Hem).
    exists toks, rest, U'. by rewrite (bind_Ok _ _ _ _ _ Hrun).
Qed.

Lemma main_part_run main st :
  ∃ main_toks rest U',
    (if String.length main =? 10 then
       let area := s_take 3 main in
       let exch := slice 3 6 main in
       let line := s_drop 6 main in
       area_toks ← digit_tokens area;
       exch_toks ← digit_tokens exch;
       line_toks ← digit_tokens line;
       ret ([Separator group_open] ++ area_toks ++ [Separator group_close]
            ++ [Separator minor_gap] ++ exch_toks ++ [Separator dash] ++ line_toks)
     else digit_tokens main) st
    = (Ok (main_part main main_toks), mkState rest U')
    ∧ digit_run main main_toks ∧ emits (used_formulas st) main_toks U'.
Proof.
  unfold main_part. destruct (String.length main =? 10) eqn:Hlen;
    [|apply digit_tokens_spec].
  apply Nat.eqb_eq in Hlen. cbv zeta.
  destruct (digit_tokens_spec (s_take 3 main) st)
    as (a & r1 & U1 & Hrun1 & Hdr1 & Hem1).
  destruct (digit_tokens_spec (slice 3 6 main) (mkState r1 U1))
    as (e & r2 & U2 & Hrun2 & Hdr2 & Hem2).
  destruct (digit_tokens_spec (s_drop 6 main) (mkState r2 U2))
    as (l & r3 & U3 & Hrun3 & Hdr3 & Hem3).
  exists (a ++ e ++ l), r3, U3.
  assert (length a = 3) as Ha.
  { destruct Hdr1 as (_ & -> & _). rewrite length_s_take. lia. }
  assert (length e = 3) as He.
  { destruct Hdr2 as (_ & -> & _). unfold slice.
    rewrite length_s_take, length_s_drop. lia. }
  split_and!.
  - rewrite (bind_Ok _ _ _ _ _ Hrun1), (bind_Ok _ _ _ _ _ Hrun2),
      (bind_Ok _ _ _ _ _ Hrun3).
    unfold ret. do 2 f_equal.
    rewrite (take_app_length' a) by done.
    rewrite (drop_app_length' a) by done.
    rewrite (take_app_length' e) by done.
    replace 6 with (length a + 3) by lia.
    rewrite <-drop_drop, (drop_app_length' a), (drop_app_length' e) by done.
    done.
  - replace main with (s_take 3 main ++ slice 3 6 main ++ s_drop 6 main)%string at 1.
    + by repeat apply digit_run_app.
    + rewrite slice_drop by lia. apply s_take_drop.
  - cbn [used_formulas] in *. by repeat eapply emits_app.
Qed.

(** The complete [latex_parts] of an input with at least one digit. *)
Lemma compose_tokens_spec s st :
  clean_number s ≠ "" →
  ∃ code_toks main_toks rest U',
    compose_tokens s st
    = (Ok (plus_part (has_plus s)
           ++ code_part (segment (has_plus s) (clean_number s)).1 code_toks
           ++ main_part (segment (has_plus s) (clean_number s)).2 main_toks),
       mkState rest U')
    ∧ digit_run (segment (has_plus s) (clean_number s)).1 code_toks
    ∧ digit_run (segment (has_plus s) (clean_number s)).2 main_toks
    ∧ emits ∅ (code_toks ++ main_toks) U'.
Proof.
  intros Hclean. unfold compose_tokens.
  rewrite bool_decide_eq_false_2
    by (intros Hs; by apply Hclean, strip_empty_no_digits).
  rewrite bool_decide_eq_false_2 by done.
  destruct (segment (has_plus s) (clean_number s)) as [cc main]. cbn [fst snd].
  rewrite (bind_Ok fresh_used _ st tt (mkState (tape st) ∅)) by done.
  destruct (code_part_run cc (mkState (tape st) ∅))
    as (code_toks & r1 & U1 & Hcode & Hdr1 & Hem1).
  destruct (main_part_run main (mkState r1 U1))
    as (main_toks & r2 & U2 & Hmain & Hdr2 & Hem2).
  exists code_toks, main_toks, r2, U2.
  rewrite (bind_Ok _ _ _ _ _ Hcode), (bind_Ok _ _ _ _ _ Hmain).
  split_and!; [done..|]. by eapply emits_app.
Qed.

Lemma compose_tokens_no_digits s st :
  clean_number s = "" →
  ∃ msg, compose_tokens s st = (Raise (ValueError msg), st).
Proof.
  intros Hclean. unfold compose_tokens.
  case_bool_decide; [by eexists|].
  rewrite bool_decide_eq_true_2 by done. by eexists.
Qed.

Lemma digit_values_plus_part hp : digit_values (plus_part hp) = "".
Proof. by destruct hp. Qed.

Lemma digit_values_code_part cc toks :
  digit_run cc toks → digit_values (code_part cc toks) = cc.
Proof.
  intros (Hv & _). unfold code_part. case_bool_decide; [done|].
  by rewrite digit_values_app, Hv, s_app_nil_r.
Qed.

Lemma digit_values_main_part main toks :
  digit_run main toks → digit_values (main_part main toks) = main.
Proof.
  intros (Hv & _). unfold main_part. destruct (_ =? _); [|done].
  assert (take 3 toks ++ take 3 (drop 3 toks) ++ drop 6 toks = toks) as Hsplit.
  { replace 6 with (3 + 3) by done. by rewrite <-drop_drop, !take_drop. }
  transitivity (digit_values (take 3 toks ++ take 3 (drop 3 toks) ++ drop 6 toks));
    [|by rewrite Hsplit].
  cbn [app digit_values]. rewrite !digit_values_app. cbn [digit_values].
  by rewrite !digit_values_app.
Qed.

End Layout.

(** ** The claims about the composer *)

Section ComposerClaims.
Import PyStr Runtime EquationBank LatexProcessor Vocabulary.
Local Open Scope list_scope.

(** C3: for an input with at least one digit and any state of the random
    generator, the composer returns a token stream made of the plus part,
    the country-code part and the subscriber part; the digit values of the
    country-code part are the country code, those of the subscriber part
    are the subscriber number, and the digit values of the whole stream, in
    emission order, are the cleaned digit sequence of the input. *)
Theorem composer_digit_fidelity (s : string) (st : State) :
  clean_number s ≠ "" →
  ∃ toks st' code_toks main_toks,
    compose_tokens s st = (Ok toks, st')
    ∧ toks = plus_part (has_plus s)
             ++ code_part (segment (has_plus s) (clean_number s)).1 code_toks
             ++ main_part (segment (has_plus s) (clean_number s)).2 main_toks
    ∧ digit_values (code_part (segment (has_plus s) (clean_number s)).1 code_toks)
      = (segment (has_plus s) (clean_number s)).1
    ∧ digit_values (main_part (segment (has_plus s) (clean_number s)).2 main_toks)
      = (segment (has_plus s) (clean_number s)).2
    ∧ digit_values toks = clean_number s.
Proof.
  intros Hclean.
  destruct (compose_tokens_spec s st Hclean)
    as (code_toks & main_toks & rest & U' & Hrun & Hcode & Hmain & _).
  eexists _, _, code_toks, main_toks. split; [exact Hrun|].
  pose proof (digit_values_code_part _ _ Hcode) as Hc.
  pose proof (digit_values_main_part _ _ Hmain) as Hm.
  split_and!; [done..|].
  rewrite !digit_values_app, digit_values_plus_part, Hc, Hm.
  apply segment_concat.
Qed.

Lemma composer_digit_fidelity_witness :
  clean_number "+1 (555) 123-4567" ≠ ""
  ∧ ∃ toks st', compose_tokens "+1 (555) 123-4567" (mkState [3; 1; 4] ∅) = (Ok toks, st')
                ∧ digit_values toks = "15551234567"%string.
Proof.
  assert (clean_number "+1 (555) 123-4567" ≠ "") as Hne.
  { vm_compute. discriminate. }
  split; [exact Hne|].
  destruct (composer_digit_fidelity "+1 (555) 123-4567" (mkState [3; 1; 4] ∅) Hne)
    as (toks & st' & _ & _ & Hrun & _ & _ & _ & Hvalues).
  exists toks, st'. split; [exact Hrun|]. exact Hvalues.
Defined.

(** C5: with a plus sign and a cleaned sequence of exactly 11 digits that
    starts with 1, the country code is "1" and the subscriber the remaining
    10 digits; otherwise, with a plus sign and more than 10 digits, the
    subscriber is the last 10 digits and the country code everything before
    them; otherwise there is no country code and the subscriber is the whole
    sequence.  For "+15551234567" the country code is "1" and the
    subscriber "5551234567". *)
Theorem country_code_segmentation (s : string) :
  (has_plus s = true → String.length (clean_number s) = 11 →
   startswith "1" (clean_number s) = true →
     segment (has_plus s) (clean_number s) = ("1"%string, s_drop 1 (clean_number s))
     ∧ String.length (s_drop 1 (clean_number s)) = 10)
  ∧ (has_plus s = true → 10 < String.length (clean_number s) →
     ¬ (String.length (clean_number s) = 11 ∧ startswith "1" (clean_number s) = true) →
       segment (has_plus s) (clean_number s)
       = (s_take (String.length (clean_number s) - 10) (clean_number s),
          s_drop (String.length (clean_number s) - 10) (clean_number s))
       ∧ String.length (s_drop (String.length (clean_number s) - 10) (clean_number s)) = 10)
  ∧ (has_plus s = false ∨ String.length (clean_number s) ≤ 10 →
       segment (has_plus s) (clean_number s) = (""%string, clean_number s))
  ∧ segment (has_plus "+15551234567") (clean_number "+15551234567")
    = ("1"%string, "5551234567"%string).
Proof.
  unfold segment. split_and!; [| | |done].
  - intros -> Hlen Hone. rewrite Hone, Hlen. split; [reflexivity|].
    rewrite length_s_drop. lia.
  - intros -> Hlen Hnot. cbn [andb].
    destruct ((String.length (clean_number s) =? 11) && startswith "1" (clean_number s))
      eqn:Hcase.
    { apply andb_prop in Hcase as [?%Nat.eqb_eq ?]. by destruct Hnot. }
    rewrite (proj2 (Nat.ltb_lt _ _) Hlen). split; [done|].
    rewrite length_s_drop. lia.
  - intros [-> | Hlen]; [done|].
    replace (String.length (clean_number s) =? 11) with false
      by (symmetry; apply Nat.eqb_neq; lia).
    replace (10 <? String.length (clean_number s)) with false
      by (symmetry; apply Nat.ltb_ge; lia).
    by rewrite !andb_false_r.
Qed.

Lemma country_code_segmentation_witness :
  segment (has_plus "+44 20 7946 0958") (clean_number "+44 20 7946 0958")
  = ("44"%string, "2079460958"%string).
Proof.
  destruct (country_code_segmentation "+44 20 7946 0958") as (_ & Hlast & _).
  destruct Hlast as [Hseg _]; [done | by vm_compute; lia | by intros [[=] _] |].
  exact Hseg.
Defined.

Lemma no_digits_iff s :
  clean_number s = "" ↔ all_chars (λ c, negb (isdigit_char c)) s = true.
Proof. symmetry. apply s_filter_none. Qed.

(** C6: the composer raises its validation error exactly when the input
    holds no digit character (the empty and the blank string included); for
    an input with at least one digit it returns the token stream and the
    document, whatever the random generator yields and whatever the
    characters are. *)
Theorem composer_raises_iff_no_digits (s signature_text : string) (st : State) :
  ((∃ msg st',
      generate_latex_for_number s signature_text st = (Raise (ValueError msg), st'))
   ↔ all_chars (λ c, negb (isdigit_char c)) s = true)
  ∧ (all_chars (λ c, negb (isdigit_char c)) s = false →
     ∃ toks st',
       compose_tokens s st = (Ok toks, st')
       ∧ generate_latex_for_number s signature_text st
         = (Ok (latex_document signature_text
                  (format_equation_with_line_breaks (latex_parts_of toks))), st')).
Proof.
  rewrite <-no_digits_iff.
  assert (clean_number s ≠ "" →
          ∃ toks st',
            compose_tokens s st = (Ok toks, st')
            ∧ generate_latex_for_number s signature_text st
              = (Ok (latex_document signature_text
                       (format_equation_with_line_breaks (latex_parts_of toks))), st'))
    as Hok.
  { intros Hne. destruct (compose_tokens_spec s st Hne) as (? & ? & ? & ? & Hrun & _).
    eexists _, _. split; [exact Hrun|].
    unfold generate_latex_for_number. by rewrite (bind_Ok _ _ _ _ _ Hrun). }
  split; [split|].
  - intros (msg & st' & Hraise).
    destruct (decide (clean_number s = "")) as [|Hne]; [done|].
    destruct (Hok Hne) as (toks & st'' & _ & Hrun). congruence.
  - intros Hclean. destruct (compose_tokens_no_digits s st Hclean) as [msg Hraise].
    exists msg, st. unfold generate_latex_for_number, bind. by rewrite Hraise.
  - intros Hdigits. apply Hok. intros Hclean%no_digits_iff. congruence.
Qed.

Lemma composer_raises_iff_no_digits_witness :
  (∃ msg st',
     generate_latex_for_number "   " "Please call me at:" (mkState [] ∅)
     = (Raise (ValueError msg), st'))
  ∧ ∃ toks st', compose_tokens "call 7" (mkState [] ∅) = (Ok toks, st').
Proof.
  split.
  - by apply (proj1 (composer_raises_iff_no_digits "   " "Please call me at:"
                       (mkState [] ∅))).
  - destruct (proj2 (composer_raises_iff_no_digits "call 7" "" (mkState [] ∅)))
      as (toks & st' & Hrun & _); [done|]. by exists toks, st'.
Defined.

End ComposerClaims.

(** ** The claims about the per-digit lookup and the used set *)

Section LookupClaims.
Import PyStr Runtime EquationBank LatexProcessor Vocabulary.
Local Open Scope list_scope.

(** C7: the lookup never raises.  For a character that is not a digit, or a
    digit without template provider, it returns the placeholder that embeds
    the literal character and leaves the state alone.  For a digit with a
    provider it looks at up to [MAX_UNIQUE_ATTEMPTS] successive draws: the
    first one that is not in the used set is returned (and inserted); if
    all of them are in the used set, one more draw is made and returned as
    it is. *)
Theorem unique_latex_total_behaviour (digit_char : string) (st : State) :
  (∃ e st', _get_unique_latex_for_digit digit_char st = (Ok e, st'))
  ∧ (isdigit digit_char = false
     ∨ getattr ("_get_" ++ digit_char ++ "_templates")%string = None →
     unique_latex_traced digit_char st
     = (Ok (Placeholder, ("\mathbf{\textit{(" ++ digit_char ++ ")}}")%string), st))
  ∧ (∀ get_templates,
       isdigit digit_char = true →
       getattr ("_get_" ++ digit_char ++ "_templates")%string = Some get_templates →
       length (draw_seq get_templates MAX_UNIQUE_ATTEMPTS st).1 = MAX_UNIQUE_ATTEMPTS
       ∧ match list_find (λ s, s ∉ used_formulas st)
                         (draw_seq get_templates MAX_UNIQUE_ATTEMPTS st).1 with
         | Some (k, e) =>
           unique_latex_traced digit_char st
           = (Ok (Fresh, e),
              mkState (tape (draw_seq get_templates (S k) st).2)
                      ({[e]} ∪ used_formulas st))
         | None =>
           ∃ e st',
             draw get_templates (draw_seq get_templates MAX_UNIQUE_ATTEMPTS st).2
             = (Ok e, st')
             ∧ unique_latex_traced digit_char st = (Ok (Exhausted, e), st')
         end).
Proof.
  split_and!.
  - destruct (unique_latex_traced_effect digit_char st)
      as (o & e & rest & U' & Hrun & _).
    rewrite unique_latex_erase, Hrun. by eexists _, _.
  - unfold unique_latex_traced. intros [-> | Hnone]; [done|].
    rewrite Hnone. by destruct (isdigit digit_char).
  - intros gt Hdigit Hattr. unfold unique_latex_traced.
    rewrite Hdigit, Hattr. cbn [negb].
    pose proof (getattr_provider_ok _ _ Hattr) as Hgt.
    destruct (draw_seq_facts gt MAX_UNIQUE_ATTEMPTS st Hgt) as (Hlen & Hused & _).
    split; [exact Hlen|].
    pose proof (unique_attempts_spec gt MAX_UNIQUE_ATTEMPTS st Hgt) as Hspec.
    destruct (list_find _ _) as [[k e]|].
    + by rewrite (bind_Ok _ _ _ _ _ Hspec).
    + rewrite (bind_Ok _ _ _ _ _ Hspec).
      destruct (draw_ok gt (draw_seq gt MAX_UNIQUE_ATTEMPTS st).2 Hgt)
        as (s & rest & Hd & _).
      eexists _, _. split; [exact Hd|].
      unfold draw in Hd. unfold bind in Hd |- *.
      destruct (gt _) as [[l|x] st1]; [|done]. by rewrite Hd.
Qed.

Lemma unique_latex_total_behaviour_witness :
  unique_latex_traced (String "178" "") (mkState [2; 7] ∅)
  = (Ok (Placeholder, ("\mathbf{\textit{(" ++ String "178" "" ++ ")}}")%string),
     mkState [2; 7] ∅).
Proof.
  apply (proj1 (proj2 (unique_latex_total_behaviour (String "178" "") (mkState [2; 7] ∅)))).
  right. reflexivity.
Defined.

Lemma fresh_expressions_plus_part hp : fresh_expressions (plus_part hp) = [].
Proof. by destruct hp. Qed.

Lemma fresh_expressions_code_part cc toks :
  fresh_expressions (code_part cc toks) = fresh_expressions (if bool_decide (cc = "") then [] else toks).
Proof.
  unfold code_part. case_bool_decide; [done|].
  by rewrite fresh_expressions_app, app_nil_r.
Qed.

Lemma fresh_expressions_main_part main toks :
  fresh_expressions (main_part main toks) = fresh_expressions toks.
Proof.
  unfold main_part. destruct (_ =? _); [|done].
  assert (take 3 toks ++ take 3 (drop 3 toks) ++ drop 6 toks = toks) as Hsplit.
  { replace 6 with (3 + 3) by done. by rewrite <-drop_drop, !take_drop. }
  rewrite <-Hsplit at 4.
  cbn [app fresh_expressions]. rewrite !fresh_expressions_app.
  cbn [fresh_expressions]. by rewrite !fresh_expressions_app.
Qed.

Lemma code_part_empty toks : digit_run "" toks → toks = [].
Proof. intros (_ & Hlen & _). by destruct toks. Qed.

Lemma fresh_expressions_layout hp cc main code_toks main_toks :
  digit_run cc code_toks →
  fresh_expressions (plus_part hp ++ code_part cc code_toks ++ main_part main main_toks)
  = fresh_expressions (code_toks ++ main_toks).
Proof.
  intros Hrun.
  rewrite !fresh_expressions_app, fresh_expressions_plus_part,
    fresh_expressions_code_part, fresh_expressions_main_part.
  case_bool_decide as Hcc; [|done].
  subst cc. by rewrite (code_part_empty _ Hrun).
Qed.

(** The effect of a whole composition on the used set. *)
Lemma compose_tokens_emits s st toks st' :
  compose_tokens s st = (Ok toks, st') → emits ∅ toks (used_formulas st').
Proof.
  intros Hrun.
  destruct (decide (clean_number s = "")) as [Hclean|Hclean].
  { destruct (compose_tokens_no_digits s st Hclean) as [msg Hraise]. congruence. }
  destruct (compose_tokens_spec s st Hclean)
    as (code_toks & main_toks & rest & U' & Hrun' & Hcode & Hmain & Hem).
  rewrite Hrun' in Hrun. injection Hrun as <- <-. cbn [used_formulas].
  unfold emits in *. by rewrite (fresh_expressions_layout _ _ _ _ _ Hcode).
Qed.

(** C10: a lookup never removes anything from the used set; an expression
    returned by the non-exhausted unique path was not in the set and is in
    it on return, and nothing else is added; the exhaustion fallback and the
    placeholder path leave the set as it is.  Over a whole composition the
    set ends up holding exactly the expressions of the non-exhausted unique
    path. *)
Theorem used_set_invariant :
  (∀ digit_char st o e st',
     unique_latex_traced digit_char st = (Ok (o, e), st') →
     used_formulas st ⊆ used_formulas st'
     ∧ (o = Fresh →
        (e ∉ used_formulas st) ∧ (e ∈ used_formulas st')
        ∧ used_formulas st' = {[e]} ∪ used_formulas st)
     ∧ (o = Exhausted ∨ o = Placeholder → used_formulas st' = used_formulas st))
  ∧ (∀ s st toks st',
       compose_tokens s st = (Ok toks, st') →
       used_formulas st' = list_to_set (fresh_expressions toks)).
Proof.
  split.
  - intros dc st o e st' Hrun.
    destruct (unique_latex_traced_effect dc st)
      as (o' & e' & rest & U' & Hrun' & _ & _ & _ & Hfresh & Hother).
    rewrite Hrun' in Hrun. injection Hrun as <- <- <-. cbn [used_formulas].
    split_and!.
    + destruct (decide (o' = Fresh)) as [Ho|Ho].
      * destruct (Hfresh Ho) as [_ ->]. apply union_subseteq_r.
      * by rewrite (Hother Ho).
    + intros Ho. destruct (Hfresh Ho) as [Hnew ->].
      split_and!; [done| |done]. apply elem_of_union_l, elem_of_singleton. done.
    + intros [-> | ->]; by apply Hother.
  - intros s st toks st' Hrun.
    destruct (compose_tokens_emits _ _ _ _ Hrun) as (-> & _).
    by rewrite (right_id_L ∅ (∪)).
Qed.

Lemma used_set_invariant_witness :
  ∃ e st',
    unique_latex_traced "7" (mkState [4] ∅) = (Ok (Fresh, e), st')
    ∧ (e ∈ used_formulas st').
Proof.
  destruct (unique_latex_traced "7" (mkState [4] ∅)) as [[[o e]|x] st'] eqn:Hrun;
    [|by vm_compute in Hrun].
  assert (o = Fresh) as -> by (vm_compute in Hrun; congruence).
  exists e, st'. split; [done|].
  by apply (proj1 used_set_invariant "7"%string (mkState [4] ∅) Fresh e st' Hrun).
Defined.

End LookupClaims.

(** ** Uniqueness of the emitted expressions *)

Section Uniqueness.
Import PyStr Runtime EquationBank LatexProcessor Vocabulary.
Local Open Scope list_scope.

Lemma is_digit_token_ok t : is_digit_token t → digit_token_ok t.
Proof. by destruct t. Qed.

Lemma layout_tokens_ok hp cc main code_toks main_toks :
  digit_run cc code_toks → digit_run main main_toks →
  Forall digit_token_ok
    (plus_part hp ++ code_part cc code_toks ++ main_part main main_toks).
Proof.
  intros (_ & _ & Hcode) (_ & _ & Hmain).
  assert (Forall digit_token_ok code_toks) as Hc
    by (eapply Forall_impl; [exact Hcode | apply is_digit_token_ok]).
  assert (Forall digit_token_ok main_toks) as Hm
    by (eapply Forall_impl; [exact Hmain | apply is_digit_token_ok]).
  repeat apply Forall_app_2.
  - destruct hp; by repeat constructor.
  - unfold code_part. case_bool_decide; [constructor|].
    apply Forall_app_2; [done | by repeat constructor].
  - unfold main_part. destruct (_ =? _); [|done].
    repeat first [ apply Forall_app_2 | apply Forall_cons_2 | apply Forall_nil_2
                 | by apply Forall_take | by apply Forall_drop
                 | by apply Forall_take, Forall_drop | exact I ].
Qed.

Lemma compose_tokens_ok s st toks st' :
  compose_tokens s st = (Ok toks, st') → Forall digit_token_ok toks.
Proof.
  intros Hrun.
  destruct (decide (clean_number s = "")) as [Hclean|Hclean].
  { destruct (compose_tokens_no_digits s st Hclean) as [msg Hraise]. congruence. }
  destruct (compose_tokens_spec s st Hclean)
    as (code_toks & main_toks & rest & U' & Hrun' & Hcode & Hmain & _).
  rewrite Hrun' in Hrun. injection Hrun as <- _.
  by apply layout_tokens_ok.
Qed.

Lemma collection_has_provider d N :
  collection_size_at_least d N → has_provider (String d "") = true.
Proof.
  intros (Hdigit & gt & Hattr & _). unfold has_provider.
  rewrite Hdigit, Hattr. by apply bool_decide_eq_true_2.
Qed.

(** Lookups that did not run out of attempts are among the fresh ones. *)
Lemma expressions_for_sublist d toks :
  Forall digit_token_ok toks → has_provider (String d "") = true →
  Exhausted ∉ origins_for d toks →
  expressions_for d toks `sublist_of` fresh_expressions toks.
Proof.
  intros Hok Hprov. induction Hok as [|t toks Ht Hok IH]; intros Hex; [constructor|].
  destruct t as [e|v o e|sep]; cbn in *; [by apply IH| |by apply IH].
  destruct Ht as [_ Hplace].
  case_bool_decide as Hv.
  - subst v. apply not_elem_of_cons in Hex as [Ho Hex].
    destruct o; [|by apply sublist_skip, IH|done].
    destruct Hplace as [Hplace _]. specialize (Hplace eq_refl). congruence.
  - destruct o; [by apply IH | by apply sublist_cons, IH | by apply IH].
Qed.

(** C4 as stated fails: for the number "55" and a generator that keeps
    returning 0, the second lookup for 5 exhausts its attempts and the
    fallback repeats the first expression, although the collection for 5 has
    24 templates. *)
Lemma uniqueness_fails_on_exhaustion :
  ¬ (∀ s st toks st' d N,
       compose_tokens s st = (Ok toks, st') →
       collection_size_at_least d N →
       occurrences d (clean_number s) ≤ N →
       NoDup (expressions_for d toks)).
Proof.
  intros Hclaim.
  destruct (compose_tokens "55" (mkState [] ∅)) as [[toks|x] st'] eqn:Hrun;
    [|by vm_compute in Hrun].
  specialize (Hclaim "55"%string (mkState [] ∅) toks st' "5"%char 24 Hrun).
  vm_compute in Hrun. injection Hrun as <- _.
  assert (NoDup (expressions_for "5" [Digit "5" Fresh
            "\left( \text{dim}(\mathfrak{sp}(4,\mathbb{C})) - 5 \right)";
          Digit "5" Exhausted
            "\left( \text{dim}(\mathfrak{sp}(4,\mathbb{C})) - 5 \right)"])) as Hnd.
  { apply Hclaim.
    - split; [done|]. exists _get_5_templates. split; [done|].
      intros st. by eexists _, _.
    - vm_compute. lia. }
  apply NoDup_cons in Hnd as [Hnotin _]. apply Hnotin. constructor.
Qed.

(** C4, amended: within one composition call, for every digit whose
    template collection has size at least N and that occurs at most N times
    in the number, and for every outcome of the random draws, if no lookup
    for that digit runs out of its [MAX_UNIQUE_ATTEMPTS] attempts, then no
    two expressions emitted for that digit are identical. *)
Theorem unique_unless_exhausted s st toks st' (d : ascii) (N : nat) :
  compose_tokens s st = (Ok toks, st') →
  collection_size_at_least d N →
  occurrences d (clean_number s) ≤ N →
  Exhausted ∉ origins_for d toks →
  NoDup (expressions_for d toks).
Proof.
  intros Hrun Hsize _ Hex.
  destruct (compose_tokens_emits _ _ _ _ Hrun) as (_ & Hnd & _).
  eapply sublist_NoDup; [exact Hnd|].
  apply expressions_for_sublist;
    [by eapply compose_tokens_ok | by eapply collection_has_provider | done].
Qed.

Lemma unique_unless_exhausted_witness :
  ∃ toks st',
    compose_tokens "555" (mkState [0; 1; 2] ∅) = (Ok toks, st')
    ∧ length (expressions_for "5" toks) = 3
    ∧ NoDup (expressions_for "5" toks).
Proof.
  destruct (compose_tokens "555" (mkState [0; 1; 2] ∅)) as [[toks|x] st'] eqn:Hrun;
    [|by vm_compute in Hrun].
  exists toks, st'. split; [done|].
  pose proof (unique_unless_exhausted "555" (mkState [0; 1; 2] ∅) toks st' "5" 24 Hrun)
    as Hthm.
  vm_compute in Hrun. injection Hrun as <- _.
  split; [done|]. apply Hthm.
  - split; [done|]. exists _get_5_templates. split; [done|].
    intros st. by eexists _, _.
  - vm_compute. lia.
  - vm_compute. intros Hin. by repeat (apply elem_of_cons in Hin as [|Hin]; [done|]);
      apply elem_of_nil in Hin.
Defined.

End Uniqueness.

(** ** Line wrapping *)

Section Wrapping.
Import PyStr Runtime EquationBank LatexProcessor Vocabulary.
Local Open Scope list_scope.

Lemma next_column_plain part rest :
  part ≠ group_open → next_column part rest = (part, rest).
Proof. intros Hne. unfold next_column. by rewrite bool_decide_eq_false_2. Qed.

Lemma next_column_block a b c rest :
  next_column group_open (a :: b :: c :: group_close :: rest)
  = (block_column a b c, rest).
Proof.
  unfold next_column. rewrite bool_decide_eq_true_2 by done.
  cbn [take drop]. by rewrite bool_decide_eq_true_2.
Qed.

Lemma next_column_length part rest :
  length (next_column part rest).2 ≤ length rest.
Proof.
  unfold next_column. case_bool_decide; [|done].
  destruct (drop 3 rest) as [|p rest'] eqn:Hdrop; [cbn; lia|].
  assert (length (p :: rest') ≤ length rest) as Hlen
    by (rewrite <-Hdrop, length_drop; lia).
  case_bool_decide; cbn in *; lia.
Qed.

(** The walk stops because the parts run out, never because of the fuel:
    any fuel of at least the number of parts gives the same lines. *)
Lemma wrap_loop_fuel fuel1 fuel2 parts current_line lines :
  length parts ≤ fuel1 → length parts ≤ fuel2 →
  wrap_loop fuel1 parts current_line lines = wrap_loop fuel2 parts current_line lines.
Proof.
  revert fuel2 parts current_line lines.
  induction fuel1 as [|fuel1 IH]; intros fuel2 parts current_line lines H1 H2.
  { destruct parts; [by destruct fuel2 | cbn in H1; lia]. }
  destruct parts as [|part rest]; [by destruct fuel2|].
  destruct fuel2 as [|fuel2]; [cbn in H2; lia|].
  cbn [wrap_loop]. pose proof (next_column_length part rest) as Hlen.
  destruct (next_column part rest) as [column rest']. cbn in H1, H2, Hlen.
  destruct (MAX_LINE_LENGTH <=? _); apply IH; lia.
Qed.

Lemma columns_app_plain fuel pre parts :
  Forall (λ p, p ≠ group_open) pre → length pre ≤ fuel →
  columns fuel (pre ++ parts) = pre ++ columns (fuel - length pre) parts.
Proof.
  intros Hpre. revert fuel. induction Hpre as [|p pre Hp Hpre IH]; intros fuel Hlen.
  { cbn. by rewrite Nat.sub_0_r. }
  destruct fuel as [|fuel]; [cbn in Hlen; lia|].
  cbn [app columns length]. rewrite (next_column_plain _ _ Hp).
  rewrite IH by (cbn in Hlen; lia). done.
Qed.

Lemma columns_nil fuel : columns fuel [] = [].
Proof. by destruct fuel. Qed.

Lemma columns_plain fuel parts :
  Forall (λ p, p ≠ group_open) parts → length parts ≤ fuel →
  columns fuel parts = parts.
Proof.
  intros Hparts Hlen.
  rewrite <-(app_nil_r parts) at 1.
  by rewrite columns_app_plain, columns_nil, app_nil_r.
Qed.

Lemma concat_flush (current_line : list string) (lines : list (list string)) :
  concat (if bool_decide (current_line = []) then lines else lines ++ [current_line])
  = concat lines ++ current_line.
Proof.
  case_bool_decide as Hcur; [subst; by rewrite app_nil_r|].
  rewrite concat_app. cbn. by rewrite app_nil_r.
Qed.

Lemma columns_block_layout (pre post : list string) (a b c : string) :
  Forall (λ p, p ≠ group_open) pre → Forall (λ p, p ≠ group_open) post →
  columns (length (pre ++ group_open :: a :: b :: c :: group_close :: minor_gap :: post))
          (pre ++ group_open :: a :: b :: c :: group_close :: minor_gap :: post)
  = pre ++ [block_column a b c; minor_gap] ++ post.
Proof.
  intros Hpre Hpost.
  rewrite columns_app_plain by (done || rewrite length_app; lia).
  rewrite length_app.
  replace (length pre + _ - length pre) with (S (5 + length post)) by (cbn; lia).
  cbn [columns]. rewrite next_column_block.
  rewrite columns_plain; [done | by constructor | cbn; lia].
Qed.

Lemma wrap_loop_concat fuel parts current_line lines :
  concat (wrap_loop fuel parts current_line lines)
  = concat lines ++ current_line ++ columns fuel parts.
Proof.
  revert parts current_line lines.
  induction fuel as [|fuel IH]; intros parts current_line lines.
  { cbn [wrap_loop columns]. by rewrite concat_flush, app_nil_r. }
  destruct parts as [|part rest].
  { cbn [wrap_loop columns]. by rewrite concat_flush, app_nil_r. }
  cbn [wrap_loop columns]. destruct (next_column part rest) as [column rest'].
  destruct (MAX_LINE_LENGTH <=? _); rewrite IH.
  - rewrite concat_app. cbn. by rewrite app_nil_r, <-!app_assoc.
  - by rewrite <-!app_assoc.
Qed.

Lemma well_packed_full lines :
  Forall (λ l, length l = MAX_LINE_LENGTH) lines → well_packed lines.
Proof.
  induction 1 as [|l lines Hl Hlines IH]; [done|].
  destruct lines; cbn; [unfold MAX_LINE_LENGTH in *; lia | done].
Qed.

Lemma well_packed_snoc lines last :
  Forall (λ l, length l = MAX_LINE_LENGTH) lines →
  1 ≤ length last ≤ MAX_LINE_LENGTH → well_packed (lines ++ [last]).
Proof.
  intros Hlines Hlast. induction Hlines as [|l lines Hl Hlines IH]; [done|].
  cbn [app well_packed]. destruct (lines ++ [last]) eqn:E; [by destruct lines|].
  done.
Qed.

Lemma wrap_loop_packed fuel parts current_line lines :
  Forall (λ l, length l = MAX_LINE_LENGTH) lines →
  length current_line < MAX_LINE_LENGTH →
  well_packed (wrap_loop fuel parts current_line lines).
Proof.
  revert parts current_line lines.
  assert (∀ current_line lines,
    Forall (λ l, length l = MAX_LINE_LENGTH) lines →
    length current_line < MAX_LINE_LENGTH →
    well_packed (if bool_decide (current_line = []) then lines
                 else lines ++ [current_line])) as Hend.
  { intros cur lines Hlines Hcur. case_bool_decide.
    - by apply well_packed_full.
    - apply well_packed_snoc; [done|].
      unfold MAX_LINE_LENGTH in *. destruct cur; [done|cbn in *; lia]. }
  induction fuel as [|fuel IH]; intros parts current_line lines Hlines Hcur.
  { cbn. destruct parts; by apply Hend. }
  destruct parts as [|part rest]; [by apply Hend|].
  cbn [wrap_loop]. destruct (next_column part rest) as [column rest'].
  destruct (MAX_LINE_LENGTH <=? _) eqn:Hfull.
  - apply IH; [|unfold MAX_LINE_LENGTH; cbn; lia].
    apply Forall_app_2; [done|]. repeat constructor.
    apply Nat.leb_le in Hfull. unfold MAX_LINE_LENGTH in *.
    rewrite length_app in *. cbn in *. lia.
  - apply IH; [done|]. by apply Nat.leb_gt in Hfull.
Qed.

Lemma well_packed_bound lines :
  well_packed lines → Forall (λ l, 1 ≤ length l ≤ MAX_LINE_LENGTH) lines.
Proof.
  induction lines as [|l [|l' lines] IH]; [constructor| |].
  - intros Hl. constructor; [exact Hl | constructor].
  - intros [Hl Hrest]. constructor; [unfold MAX_LINE_LENGTH in *; lia | by apply IH].
Qed.

Lemma digit_tokens_plain toks :
  Forall is_digit_token toks →
  Forall (λ p, p ≠ group_open) (latex_parts_of toks).
Proof.
  intros Htoks. unfold latex_parts_of. apply Forall_fmap.
  eapply Forall_impl; [exact Htoks|].
  intros [e|v o e|sep] Ht; cbn in Ht; [done| |done].
  destruct Ht as [He _]. cbn. by apply expression_not_separator in He as [? _].
Qed.

Lemma head_tokens_plain hp cc code_toks :
  digit_run cc code_toks →
  Forall (λ p, p ≠ group_open) (latex_parts_of (plus_part hp ++ code_part cc code_toks)).
Proof.
  intros (_ & _ & Hcode). unfold latex_parts_of. rewrite fmap_app.
  apply Forall_app_2.
  - destruct hp; by repeat constructor.
  - unfold code_part. case_bool_decide; [constructor|].
    rewrite fmap_app. apply Forall_app_2; [by apply digit_tokens_plain|].
    by repeat constructor.
Qed.

End Wrapping.

(** ** The claim about line wrapping *)

Section WrappingClaims.
Import PyStr Runtime EquationBank LatexProcessor Vocabulary.
Local Open Scope list_scope.

(** C9 as stated fails: for "+1235551234567" the three-digit country code
    puts the bracketed block in the third place of the second line, and the
    minor gap that follows it opens the third line. *)
Lemma block_and_gap_split_across_lines :
  ¬ (∀ s st toks st',
       compose_tokens s st = (Ok toks, st') →
       block_kept_with_gap (wrap_columns (latex_parts_of toks))).
Proof.
  intros Hclaim.
  destruct (compose_tokens "+1235551234567" (mkState [] ∅)) as [[toks|x] st'] eqn:Hrun;
    [|by vm_compute in Hrun].
  specialize (Hclaim _ _ _ _ Hrun).
  vm_compute in Hrun. injection Hrun as <- _.
  match type of Hclaim with
  | block_kept_with_gap ?L =>
    let v := eval vm_compute in L in change L with v in Hclaim
  end.
  match type of Hclaim with
  | block_kept_with_gap (_ :: ?l1 :: _) =>
    match l1 with
    | [_; _; ?col] => destruct (Hclaim l1 col) as (col' & Hin & Hgap)
    end
  end.
  - apply list_elem_of_further, list_elem_of_here.
  - do 2 apply list_elem_of_further. apply list_elem_of_here.
  - reflexivity.
  - repeat (apply elem_of_cons in Hin as [-> | Hin]; [by vm_compute in Hgap|]).
    by apply elem_of_nil in Hin.
Qed.

(** C9, amended: for every token stream produced by the composer, every
    output line holds between one and three entries and every line but the
    last holds exactly three; when the subscriber number does not have ten
    digits every part is an entry of its own; when it has ten digits the
    bracket, the three area-code expressions and the closing bracket form
    one single entry (so they are never split across lines), and the minor
    gap is the entry of its own that follows it (on the same line when
    there is room, else first on the next line). *)
Theorem wrapped_lines_structure (s : string) (st : State) toks st' :
  compose_tokens s st = (Ok toks, st') →
  Forall (λ line, 1 ≤ length line ≤ MAX_LINE_LENGTH)
         (wrap_columns (latex_parts_of toks))
  ∧ well_packed (wrap_columns (latex_parts_of toks))
  ∧ (String.length (segment (has_plus s) (clean_number s)).2 ≠ 10 →
     concat (wrap_columns (latex_parts_of toks)) = latex_parts_of toks)
  ∧ (String.length (segment (has_plus s) (clean_number s)).2 = 10 →
     ∃ pre a b c post,
       toks = pre ++ [Separator group_open; a; b; c;
                      Separator group_close; Separator minor_gap] ++ post
       ∧ is_digit_token a ∧ is_digit_token b ∧ is_digit_token c
       ∧ concat (wrap_columns (latex_parts_of toks))
         = latex_parts_of pre
           ++ [block_column (latex_of a) (latex_of b) (latex_of c); minor_gap]
           ++ latex_parts_of post).
Proof.
  intros Hrun.
  assert (well_packed (wrap_columns (latex_parts_of toks))) as Hpacked.
  { apply wrap_loop_packed; [constructor | unfold MAX_LINE_LENGTH; cbn; lia]. }
  split; [by apply well_packed_bound|]. split; [done|].
  destruct (decide (clean_number s = "")) as [Hclean|Hclean].
  { destruct (compose_tokens_no_digits s st Hclean) as [msg Hraise]. congruence. }
  destruct (compose_tokens_spec s st Hclean)
    as (code_toks & main_toks & rest & U' & Hrun' & Hcode & Hmain & _).
  rewrite Hrun' in Hrun. injection Hrun as <- _.
  destruct (segment (has_plus s) (clean_number s)) as [cc main]. cbn [fst snd] in *.
  pose proof (head_tokens_plain (has_plus s) cc code_toks Hcode) as Hhead.
  destruct Hmain as (_ & Hlen & Hdigits).
  unfold wrap_columns. rewrite wrap_loop_concat. cbn [concat app].
  rewrite app_assoc. unfold main_part. split.
  - intros Hten. rewrite (proj2 (Nat.eqb_neq _ _) Hten).
    apply columns_plain; [|done].
    unfold latex_parts_of in *. rewrite fmap_app.
    apply Forall_app_2; [done | by apply digit_tokens_plain].
  - intros Hten. rewrite Hten in *. cbn [Nat.eqb].
    destruct main_toks as [|a [|b [|c tail]]]; [by cbn in Hlen..|].
    apply Forall_cons in Hdigits as [Ha Hdigits].
    apply Forall_cons in Hdigits as [Hb Hdigits].
    apply Forall_cons in Hdigits as [Hc Hdigits].
    exists (plus_part (has_plus s) ++ code_part cc code_toks), a, b, c,
      (take 3 tail ++ [Separator dash] ++ drop 3 tail).
    split; [done|]. split_and!; [done..|].
    assert (Forall (λ p, p ≠ group_open)
              (latex_parts_of (take 3 tail ++ [Separator dash] ++ drop 3 tail)))
      as Hpost.
    { unfold latex_parts_of. rewrite !fmap_app.
      repeat apply Forall_app_2;
        [by apply digit_tokens_plain, Forall_take | by repeat constructor
        | by apply digit_tokens_plain, Forall_drop]. }
    unfold latex_parts_of in *.
    rewrite (fmap_app latex_of (plus_part _ ++ code_part _ _)).
    exact (columns_block_layout _ _ _ _ _ Hhead Hpost).
Qed.

Lemma wrapped_lines_structure_witness :
  ∃ toks st',
    compose_tokens "5551234567" (mkState [5; 8; 13] ∅) = (Ok toks, st')
    ∧ Forall (λ line, 1 ≤ length line ≤ MAX_LINE_LENGTH)
             (wrap_columns (latex_parts_of toks)).
Proof.
  destruct (compose_tokens "5551234567" (mkState [5; 8; 13] ∅))
    as [[toks|x] st'] eqn:Hrun; [|by vm_compute in Hrun].
  exists toks, st'. split; [done|].
  exact (proj1 (wrapped_lines_structure _ _ _ _ Hrun)).
Defined.

End WrappingClaims.

(** ** The geography tables *)

Section Geography.
Import PyStr PhoneFormats PhoneGeography ExtraVocabulary.
Local Open Scope list_scope.
#[local] Opaque COUNTRIES_BY_CONTINENT ALL_COUNTRIES.

Lemma dict_get_Some {V} (k : string) (d : list (string * V)) (v : V) :
  dict_get k d = Some v → (k, v) ∈ d.
Proof.
  induction d as [|[k' v'] d IH]; [done|]. cbn.
  case_bool_decide as Hk.
  - intros [= ->]. subst. apply list_elem_of_here.
  - intros H. apply list_elem_of_further, IH, H.
Qed.

Lemma dict_get_None {V} (k : string) (d : list (string * V)) :
  dict_get k d = None ↔ k ∉ keys d.
Proof.
  unfold keys. induction d as [|[k' v'] d IH]; cbn.
  - split; [intros _; apply not_elem_of_nil | done].
  - case_bool_decide as Hk.
    + split; [done|]. intros Hnot. destruct Hnot. subst. apply list_elem_of_here.
    + rewrite IH, not_elem_of_cons. split; [by intros ?; split; [congruence|] | by intros [_ ?]].
Qed.

Lemma dict_get_is_Some {V} (k : string) (d : list (string * V)) :
  is_Some (dict_get k d) ↔ k ∈ keys d.
Proof.
  destruct (dict_get k d) as [v|] eqn:Hget.
  - split; [intros _|by eauto].
    apply dict_get_Some in Hget. unfold keys.
    apply list_elem_of_fmap. by exists (k, v).
  - apply dict_get_None in Hget. split; [by intros [? ?]|done].
Qed.

Lemma all_entries_ok : forallb entry_ok ALL_COUNTRIES = true.
Proof. by vm_compute. Qed.

(** X2: a label of the country table always yields a calling code: the
    code is positive and has a configured local-digit limit, which lies
    between 4 and 11; any other label yields [(None, None)] and an empty
    format example. *)
Theorem extract_country_code_on_table (region_of : Z → option string)
    (country_label : string) :
  (country_label ∈ keys ALL_COUNTRIES →
   ∃ code,
     extract_country_code_from_label region_of country_label
     = (Some code, region_of code)
     ∧ (0 < code)%Z
     ∧ is_Some (LOCAL_DIGIT_LIMITS_BY_CODE !! code)
     ∧ (4 ≤ get_digit_limit code ≤ 11)%Z)
  ∧ (country_label ∉ keys ALL_COUNTRIES →
     extract_country_code_from_label region_of country_label = (None, None)
     ∧ get_format_example country_label = "").
Proof.
  unfold extract_country_code_from_label, get_format_example. split.
  - intros [fmt Hget]%dict_get_is_Some. rewrite Hget.
    pose proof all_entries_ok as Hall. rewrite forallb_forall in Hall.
    apply dict_get_Some, list_elem_of_In, Hall in Hget.
    unfold entry_ok in Hget. cbn [snd] in Hget.
    apply andb_prop in Hget as [Hne Hget].
    apply negb_true_iff in Hne. rewrite Hne.
    destruct (match_plus_digits fmt) as [group|]; [|done].
    apply andb_prop in Hget as [[Hpos Hlim]%andb_prop Hrange].
    apply bool_decide_eq_true in Hpos, Hlim, Hrange.
    exists (int_of_digits group).
    split; [reflexivity|]. split; [exact Hpos|]. split; [exact Hlim | exact Hrange].
  - intros Hnone%dict_get_None. rewrite Hnone. split; reflexivity.
Qed.

Lemma extract_country_code_on_table_witness :
  (∃ code, extract_country_code_from_label (λ _, None) "🇳🇬 Nigeria" = (Some code, None)
           ∧ (0 < code)%Z)
  ∧ extract_country_code_from_label (λ _, None) "Atlantis" = (None, None).
Proof.
  split.
  - destruct (proj1 (extract_country_code_on_table (λ _, None) "🇳🇬 Nigeria"))
      as (code & Hrun & Hpos & _).
    + apply (bool_decide_unpack _). by vm_compute.
    + exists code. split; [exact Hrun | exact Hpos].
  - apply (proj2 (extract_country_code_on_table (λ _, None) "Atlantis")).
    apply (bool_decide_unpack _). by vm_compute.
Defined.

(** Every label of every sub-dictionary of the table is a key of
    [ALL_COUNTRIES]. *)
Lemma table_labels_known :
  Forall (λ continent : string * list (string * list (string * string)),
     Forall (λ subregion : string * list (string * string),
        Forall (λ entry : string * string, entry.1 ∈ keys ALL_COUNTRIES) subregion.2)
            continent.2)
    COUNTRIES_BY_CONTINENT.
Proof. apply (bool_decide_unpack _). by vm_compute. Qed.

Lemma table_entry_known continent_data subregion countries label region :
  (region, continent_data) ∈ COUNTRIES_BY_CONTINENT →
  (subregion, countries) ∈ continent_data →
  label ∈ keys countries → label ∈ keys ALL_COUNTRIES.
Proof.
  intros Hc Hs [[l f] [-> He]]%list_elem_of_fmap.
  pose proof table_labels_known as Hall.
  rewrite Forall_forall in Hall. specialize (Hall _ Hc). cbn [snd] in Hall.
  rewrite Forall_forall in Hall. specialize (Hall _ Hs). cbn [snd] in Hall.
  rewrite Forall_forall in Hall. exact (Hall _ He).
Qed.

Lemma antarctica_entry :
  dict_get "Antarctica" COUNTRIES_BY_CONTINENT
  = Some [("Antarctica", [("🇦🇶 Antarctica", "+672 XXX XXX")])].
Proof. by vm_compute. Qed.

Lemma sorted_elem (labels : list string) (label : string) :
  label ∈ sorted labels ↔ label ∈ labels.
Proof. unfold sorted. by rewrite merge_sort_Permutation. Qed.

Lemma sorted_StronglySorted (labels : list string) :
  StronglySorted String.le (sorted labels).
Proof. apply StronglySorted_merge_sort; apply _. Qed.

(** X3: the country picker never fails; the list it returns is sorted, and
    every label in it is a key of [ALL_COUNTRIES], so that selecting it
    yields a calling code. *)
Theorem picker_offers_known_countries (continent subregion : option string) :
  ∃ labels,
    get_countries_by_continent_and_subregion continent subregion = Some labels
    ∧ StronglySorted String.le labels
    ∧ ∀ label region_of, label ∈ labels →
        ∃ code, extract_country_code_from_label region_of label
                = (Some code, region_of code).
Proof.
  assert (∀ labels : list string,
    (∀ label, label ∈ labels → label ∈ keys ALL_COUNTRIES) →
    ∀ label region_of, label ∈ labels →
      ∃ code, extract_country_code_from_label region_of label
              = (Some code, region_of code)) as Hcode.
  { intros labels Hknown label region_of Hin.
    unfold extract_country_code_from_label.
    destruct (proj2 (dict_get_is_Some label ALL_COUNTRIES) (Hknown _ Hin)) as [fmt Hget].
    rewrite Hget.
    pose proof all_entries_ok as Hall. rewrite forallb_forall in Hall.
    apply dict_get_Some, list_elem_of_In, Hall in Hget.
    unfold entry_ok in Hget. cbn [snd] in Hget.
    apply andb_prop in Hget as [Hne Hget].
    apply negb_true_iff in Hne. rewrite Hne.
    destruct (match_plus_digits fmt) as [group|]; [by eexists|done]. }
  assert (∃ labels,
    get_countries_by_continent_and_subregion continent subregion = Some labels
    ∧ StronglySorted String.le labels
    ∧ ∀ label, label ∈ labels → label ∈ keys ALL_COUNTRIES) as (labels & Hrun & Hs & Hk).
  { unfold get_countries_by_continent_and_subregion.
    destruct (truthy continent && _) eqn:Hunknown.
    { exists []. split; [reflexivity|]. split; [constructor|].
      intros ? Hin. by apply elem_of_nil in Hin. }
    destruct (bool_decide (continent = Some "Antarctica")) eqn:Hant.
    { rewrite antarctica_entry. cbn [dict_get].
      rewrite (bool_decide_eq_true_2 ("Antarctica" = "Antarctica")) by reflexivity.
      eexists. split; [reflexivity|]. split; [apply sorted_StronglySorted|].
      intros label Hin. apply (proj1 (sorted_elem _ _)) in Hin.
      eapply (table_entry_known _ "Antarctica" _ label "Antarctica");
        [exact (dict_get_Some _ _ _ antarctica_entry) | apply list_elem_of_here | exact Hin]. }
    destruct (truthy continent) eqn:Htruthy; cbn [negb].
    2:{ exists (sorted (keys ALL_COUNTRIES)).
        split; [reflexivity|]. split; [apply sorted_StronglySorted|].
        intros label Hin. exact (proj1 (sorted_elem _ _) Hin). }
    cbn [andb] in Hunknown. apply negb_false_iff, bool_decide_eq_true in Hunknown.
    destruct Hunknown as [continent_data Hdata]. rewrite Hdata.
    pose proof (dict_get_Some _ _ _ Hdata) as Hcin.
    destruct (truthy subregion); cbn [negb].
    - destruct (dict_get (default "" subregion) continent_data) as [countries|] eqn:Hsub.
      + eexists. split; [reflexivity|]. split; [apply sorted_StronglySorted|].
        intros label Hin. apply (proj1 (sorted_elem _ _)) in Hin.
        exact (table_entry_known _ _ _ _ _ Hcin (dict_get_Some _ _ _ Hsub) Hin).
      + exists []. split; [reflexivity|]. split; [constructor|].
        intros ? Hin. by apply elem_of_nil in Hin.
    - eexists. split; [reflexivity|]. split; [apply sorted_StronglySorted|].
      intros label Hin. apply (proj1 (sorted_elem _ _)) in Hin.
      apply list_elem_of_In, in_concat in Hin as (ks & Hks & Hin).
      apply list_elem_of_In in Hks, Hin.
      apply list_elem_of_fmap in Hks as (countries & -> & Hc).
      apply list_elem_of_fmap in Hc as ([s c] & -> & Hsc).
      exact (table_entry_known _ _ _ _ _ Hcin Hsc Hin). }
  exists labels. split_and!; [done..|]. by apply Hcode.
Qed.

Lemma picker_offers_known_countries_witness :
  ∃ labels,
    get_countries_by_continent_and_subregion (Some "Asia") None = Some labels
    ∧ StronglySorted String.le labels.
Proof.
  destruct (picker_offers_known_countries (Some "Asia") None) as (labels & Hrun & Hs & _).
  by exists labels.
Defined.

(** X4: a name that is not a key gives the empty list instead of an error:
    an unknown non-empty continent, whatever the subregion, and an unknown
    non-empty subregion of a known continent other than Antarctica.  For
    Antarctica, and when no continent is given, the subregion argument is
    ignored. *)
Theorem unknown_names_give_no_countries :
  (∀ continent subregion,
     continent ≠ "" → continent ∉ keys COUNTRIES_BY_CONTINENT →
     get_countries_by_continent_and_subregion (Some continent) subregion = Some [])
  ∧ (∀ continent continent_data subregion,
       continent ≠ "Antarctica" →
       dict_get continent COUNTRIES_BY_CONTINENT = Some continent_data →
       subregion ≠ "" → subregion ∉ keys continent_data →
       get_countries_by_continent_and_subregion (Some continent) (Some subregion)
       = Some [])
  ∧ (∀ subregion,
       get_countries_by_continent_and_subregion (Some "Antarctica") subregion
       = Some ["🇦🇶 Antarctica"])
  ∧ (∀ subregion,
       get_countries_by_continent_and_subregion None subregion = Some get_country_list
       ∧ get_countries_by_continent_and_subregion (Some "") subregion
         = Some get_country_list).
Proof.
  split_and!.
  - intros c s Hne Hkey%dict_get_None.
    unfold get_countries_by_continent_and_subregion. cbn [truthy from_option id].
    rewrite Hkey, (bool_decide_eq_false_2 (c = "")) by done.
    rewrite (bool_decide_eq_false_2 (is_Some None)) by (by intros [? ?]). done.
  - intros c data s Hant Hdata Hne Hkey%dict_get_None.
    assert (c ≠ "") as Hc by (intros ->; by vm_compute in Hdata).
    unfold get_countries_by_continent_and_subregion. cbn [truthy from_option id].
    rewrite Hdata, (bool_decide_eq_false_2 (c = "")) by done.
    rewrite (bool_decide_eq_true_2 (is_Some (Some data))) by by eexists.
    rewrite (bool_decide_eq_false_2 (Some c = Some "Antarctica")) by congruence.
    rewrite (bool_decide_eq_false_2 (s = "")) by done.
    cbn [negb andb]. by rewrite Hkey.
  - intros s. unfold get_countries_by_continent_and_subregion.
    rewrite antarctica_entry. reflexivity.
  - intros s. unfold get_countries_by_continent_and_subregion, get_country_list.
    cbn [truthy andb negb].
    rewrite (bool_decide_eq_false_2 (None = Some "Antarctica")) by discriminate.
    rewrite (bool_decide_eq_false_2 (Some "" = Some "Antarctica")) by discriminate.
    rewrite (bool_decide_eq_true_2 ("" = "")) by reflexivity.
    split; reflexivity.
Qed.

Lemma unknown_names_give_no_countries_witness :
  get_countries_by_continent_and_subregion (Some "All Continents") (Some "Western Europe")
  = Some []
  ∧ get_countries_by_continent_and_subregion (Some "Europe") (Some "Caribbean") = Some [].
Proof.
  destruct unknown_names_give_no_countries as (Hcont & Hsub & _).
  split.
  - apply Hcont; [done|]. apply (bool_decide_unpack _). by vm_compute.
  - eapply Hsub; [done | by vm_compute | done |].
    apply (bool_decide_unpack _). by vm_compute.
Defined.

(** X5: every subregion that [get_continent_structure] lists under a
    continent gives, together with that continent, a non-empty list of
    countries. *)
Theorem structure_subregions_have_countries (continent subregion : string)
    (subregions : list string) :
  (continent, subregions) ∈ get_continent_structure →
  subregion ∈ subregions →
  ∃ label labels,
    get_countries_by_continent_and_subregion (Some continent) (Some subregion)
    = Some (label :: labels).
Proof.
  intros Hc Hs.
  assert (Forall (λ entry : string * list string,
            Forall (λ s, offers_countries entry.1 s = true) entry.2)
            get_continent_structure) as Hall
    by (apply (bool_decide_unpack _); by vm_compute).
  rewrite Forall_forall in Hall. specialize (Hall _ Hc). cbn [fst snd] in Hall.
  rewrite Forall_forall in Hall. specialize (Hall _ Hs).
  unfold offers_countries in Hall.
  destruct (get_countries_by_continent_and_subregion _ _) as [[|label labels]|];
    [discriminate Hall| |discriminate Hall].
  by exists label, labels.
Qed.

Lemma structure_subregions_have_countries_witness :
  ∃ label labels,
    get_countries_by_continent_and_subregion (Some "Oceania") (Some "Polynesia")
    = Some (label :: labels).
Proof.
  apply (structure_subregions_have_countries "Oceania" "Polynesia"
           ["Australia and New Zealand"; "Melanesia"; "Micronesia"; "Polynesia"]).
  - apply (bool_decide_unpack _). by vm_compute.
  - apply (bool_decide_unpack _). by vm_compute.
Defined.



End Geography.

(** ** Printing and reading integers *)

Section Integers.
Import PyStr PhoneFormats PhoneGeography Runtime EquationBank LatexProcessor Dialogorithm.

Lemma decimal_is_digit c : is_decimal_char c = true → isdigit_char c = true.
Proof. unfold is_decimal_char, isdigit_char. by intros ->. Qed.

Lemma decimal_not_space c : is_decimal_char c = true → isspace_char c = false.
Proof. destruct c as [[] [] [] [] [] [] [] []]; by vm_compute. Qed.

Lemma string_of_uint_decimal d :
  all_chars is_decimal_char (NilEmpty.string_of_uint d) = true.
Proof. induction d; cbn; done. Qed.

Lemma str_of_nat_decimal n : all_chars is_decimal_char (str_of_nat n) = true.
Proof.
  unfold str_of_nat, NilZero.string_of_uint.
  destruct (Nat.to_uint n) eqn:E; try apply string_of_uint_decimal. done.
Qed.

Lemma str_of_nat_nonempty n : str_of_nat n ≠ "".
Proof.
  unfold str_of_nat, NilZero.string_of_uint.
  destruct (Nat.to_uint n) eqn:E; cbn; done.
Qed.

Lemma int_of_digits_acc d acc :
  int_of_digits_from (Z.of_nat acc) (NilEmpty.string_of_uint d)
  = Z.of_nat (Nat.of_uint_acc d acc).
Proof.
  revert acc.
  induction d; intros acc;
    cbn [NilEmpty.string_of_uint Nat.of_uint_acc int_of_digits_from]; [done|..];
    rewrite <-IHd; f_equal; rewrite Nat.tail_mul_spec;
    match goal with
    | |- context [N_of_ascii ?c] =>
      let v := eval vm_compute in (Z.of_N (N_of_ascii c)) in
      change (Z.of_N (N_of_ascii c)) with v
    end; lia.
Qed.

(** Reading back a printed natural number. *)
Lemma int_of_digits_str_of_nat n : int_of_digits (str_of_nat n) = Z.of_nat n.
Proof.
  unfold int_of_digits, str_of_nat, NilZero.string_of_uint.
  rewrite <-(DecimalNat.Unsigned.of_to n) at 2. unfold Nat.of_uint.
  destruct (Nat.to_uint n) eqn:E; try apply (int_of_digits_acc _ 0). done.
Qed.

Lemma lstrip_no_space c s : isspace_char c = false → lstrip (String c s) = String c s.
Proof. intros Hc. cbn. by rewrite Hc. Qed.

Lemma rstrip_no_spaces s :
  all_chars (λ c, negb (isspace_char c)) s = true → rstrip s = s.
Proof.
  induction s as [|c s IH]; [done|]. cbn.
  intros [Hc Hs]%andb_prop. rewrite (IH Hs).
  apply negb_true_iff in Hc. rewrite Hc. by destruct s.
Qed.

Lemma strip_no_spaces s :
  all_chars (λ c, negb (isspace_char c)) s = true → strip s = s.
Proof.
  intros Hs. unfold strip.
  destruct s as [|c s]; [done|].
  rewrite lstrip_no_space; [by apply rstrip_no_spaces|].
  cbn in Hs. apply andb_prop in Hs as [Hc _]. by apply negb_true_iff in Hc.
Qed.

Lemma int_body_digits s :
  all_chars is_decimal_char s = true → s ≠ "" → int_body_ok false s = true.
Proof.
  intros Hs Hne. destruct s as [|c s]; [done|]. clear Hne.
  cbn in Hs |- *. apply andb_prop in Hs as [-> Hs].
  induction s as [|c' s IH]; [done|].
  cbn in Hs |- *. apply andb_prop in Hs as [-> Hs]. by apply IH.
Qed.

Lemma py_int_str_of_nat n : py_int (str_of_nat n) = Some (Z.of_nat n).
Proof.
  pose proof (str_of_nat_decimal n) as Hdec.
  pose proof (str_of_nat_nonempty n) as Hne.
  unfold py_int. rewrite strip_no_spaces.
  2:{ revert Hdec. apply all_chars_impl. intros c Hc.
      by rewrite (decimal_not_space c Hc). }
  destruct (str_of_nat n) as [|c s] eqn:Hstr; [done|].
  assert (is_decimal_char c = true) as Hc
    by (cbn in Hdec; by apply andb_prop in Hdec as [? _]).
  rewrite (bool_decide_eq_false_2 (c = "-"%char)) by (intros ->; by vm_compute in Hc).
  rewrite (bool_decide_eq_false_2 (c = "+"%char)) by (intros ->; by vm_compute in Hc).
  rewrite int_body_digits, s_filter_all by done.
  by rewrite <-Hstr, int_of_digits_str_of_nat.
Qed.

Lemma remove_plus_label n : remove_plus ("+" ++ str_of_nat n) = str_of_nat n.
Proof.
  unfold remove_plus. rewrite s_filter_app. cbn.
  apply s_filter_all. generalize (str_of_nat_decimal n).
  apply all_chars_impl. intros c Hc.
  apply negb_true_iff, bool_decide_eq_false. intros ->. by vm_compute in Hc.
Qed.

Lemma str_of_int_nonneg z : (0 ≤ z)%Z → str_of_int z = str_of_nat (Z.to_nat z).
Proof. intros Hz. unfold str_of_int. by rewrite (proj2 (Z.ltb_ge z 0) Hz). Qed.


End Integers.

(** ** Display formatting, continued *)

Section DisplayMore.
Import PyStr PhoneFormats ExtraVocabulary.

Lemma take_slice a b s : a ≤ b → s_take a s ++ slice a b s = s_take b s.
Proof.
  intros Hab. unfold slice. replace b with (a + (b - a)) at 2 by lia.
  generalize (b - a) as k. clear Hab b. revert s.
  induction a as [|a IH]; intros s k; [done|].
  destruct s as [|c s]; [by destruct k|].
  cbn. by rewrite s_app_cons, IH.
Qed.

Lemma slice_0 b s : slice 0 b s = s_take b s.
Proof. unfold slice. by rewrite Nat.sub_0_r. Qed.

Lemma all_chars_join_pairs (p : ascii → bool) fuel s :
  p " "%char = true → all_chars p s = true →
  all_chars p (join " " (findall_dot_1_2_aux fuel s)) = true.
Proof.
  intros Hsp. revert s. induction fuel as [|fuel IH]; intros s Hs; [done|].
  assert (∀ x l, all_chars p x = true → all_chars p (join " " l) = true →
                 all_chars p (join " " (x :: l)) = true) as Hcons.
  { intros x [|y l] Hx Hl; [done|].
    change (join " " (x :: y :: l)) with (x ++ " " ++ join " " (y :: l)).
    rewrite !all_chars_app, Hx, Hl. cbn. by rewrite Hsp. }
  destruct s as [|c1 [|c2 s]]; [done| |]; cbn in Hs.
  - apply andb_prop in Hs as [H1 _]. cbn [findall_dot_1_2_aux].
    destruct (is_newline c1); [by destruct fuel|]. cbn. by rewrite H1.
  - apply andb_prop in Hs as [H1 [H2 Hs]%andb_prop]. cbn [findall_dot_1_2_aux].
    destruct (is_newline c1).
    { apply IH. cbn. by rewrite H2. }
    destruct (is_newline c2); apply Hcons; cbn; rewrite ?H1, ?H2; try done;
      by apply IH.
Qed.

Ltac split_ifs :=
  repeat match goal with
  | |- context [if ?b then _ else _] =>
    lazymatch type of b with bool => destruct b eqn:? end
  | H : context [if ?b then _ else _] |- _ =>
    lazymatch type of b with bool => destruct b eqn:? end
  end.

Ltac literal_chars :=
  repeat match goal with
  | |- context [all_chars display_char (String ?c ?s)] =>
    let r := eval vm_compute in (all_chars display_char (String c s)) in
    change (all_chars display_char (String c s)) with r
  end.

Ltac alphabet_leaf H :=
  rewrite ?all_chars_app;
  rewrite ?(all_chars_take _ _ _ H), ?(all_chars_drop _ _ _ H),
          ?(all_chars_slice _ _ _ _ H);
  literal_chars; try done.

Lemma digits_are_display s :
  all_chars isdigit_char s = true → all_chars display_char s = true.
Proof.
  apply all_chars_impl. intros c Hc. unfold display_char. by rewrite Hc.
Qed.

(** The formatted text is made of the digits and of separators. *)
Lemma format_display_alphabet (D : string) (C : Z) :
  all_chars isdigit_char D = true →
  all_chars display_char (format_display_number D C) = true.
Proof.
  intros Hd. pose proof (digits_are_display D Hd) as H.
  unfold format_display_number.
  case_bool_decide as Hemp; [done|].
  destruct (country_rule D C) as [formatted|] eqn:Hrule.
  - unfold country_rule, len in Hrule.
    split_ifs; simplify_eq; try by alphabet_leaf H.
    by apply all_chars_join_pairs.
  - unfold generic_rule. split_ifs; [done | alphabet_leaf H..].
Qed.

(** The digits of the formatted text, the French ten-digit rule included. *)
Lemma format_display_digits_kept (D : string) (C : Z) :
  all_chars isdigit_char D = true →
  s_filter isdigit_char (format_display_number D C)
  = if bool_decide (C = 33%Z ∧ String.length D = 10) then s_take 9 D else D.
Proof.
  intros H. case_bool_decide as Hfr; [|by apply format_display_roundtrip].
  destruct Hfr as [-> Hlen].
  unfold format_display_number.
  rewrite bool_decide_eq_false_2 by (intros ->; done).
  unfold country_rule, len. rewrite Hlen. cbn [bool_decide andb Nat.eqb Nat.leb].
  rewrite (bool_decide_eq_false_2 (33 = 1)%Z), (bool_decide_eq_false_2 (33 = 44)%Z),
    (bool_decide_eq_true_2 (33 = 33)%Z) by done.
  cbn [andb].
  rewrite !s_filter_app.
  rewrite !(s_filter_all _ _ (all_chars_slice _ _ _ _ H)).
  change (s_filter isdigit_char " ") with "". rewrite !s_app_nil_l.
  rewrite <-!app_assoc_s, slice_0. by rewrite !take_slice by lia.
Qed.

(** X1: for a string of digits, the display form is made of the digits of
    the input, in order, and of the separators blank, parentheses and
    dash; it keeps every digit, except that the French rule for ten digits
    keeps the first nine only. *)
Theorem format_display_keeps_digits (D : string) (C : Z) :
  all_chars isdigit_char D = true →
  all_chars display_char (format_display_number D C) = true
  ∧ s_filter isdigit_char (format_display_number D C)
    = (if bool_decide (C = 33%Z ∧ String.length D = 10) then s_take 9 D else D).
Proof.
  intros H. split; [by apply format_display_alphabet | by apply format_display_digits_kept].
Qed.

Lemma format_display_keeps_digits_witness :
  all_chars isdigit_char "20794609581" = true
  ∧ s_filter isdigit_char (format_display_number "20794609581" 44) = "20794609581".
Proof.
  assert (all_chars isdigit_char "20794609581" = true) as H by reflexivity.
  split; [exact H|].
  exact (proj2 (format_display_keeps_digits "20794609581" 44 H)).
Defined.

End DisplayMore.

(** ** Keystroke validation and the generate request *)

Section Requests.
Import PyStr PhoneFormats PhoneGeography Runtime EquationBank LatexProcessor Vocabulary
  Dialogorithm ExtraVocabulary.
#[local] Opaque COUNTRIES_BY_CONTINENT ALL_COUNTRIES.

Lemma py_int_label (code : Z) :
  (0 ≤ code)%Z → py_int (remove_plus ("+" ++ str_of_int code)) = Some code.
Proof.
  intros Hcode. rewrite str_of_int_nonneg by done.
  rewrite remove_plus_label, py_int_str_of_nat. f_equal. lia.
Qed.

Lemma label_not_plus (code : Z) : "+" ++ str_of_int code ≠ "+".
Proof.
  unfold str_of_int. destruct (code <? 0)%Z; [done|].
  pose proof (str_of_nat_nonempty (Z.to_nat code)) as Hne.
  by destruct (str_of_nat (Z.to_nat code)).
Qed.



(** X9: with the label text that [on_country_select] sets for a calling
    code, and a field holding digits only, the keystroke validator accepts
    a non-empty input exactly when [validate_digit_input] accepts the
    resulting field content. *)
Theorem keystroke_validation_agrees (char current_value : string) (code : Z) :
  (0 ≤ code)%Z → char ≠ "" → all_chars isdigit_char current_value = true →
  validate_phone_input_fixed char current_value ("+" ++ str_of_int code)
  = validate_digit_input (current_value ++ char) code.
Proof.
  intros Hcode Hchar Hcur.
  unfold validate_phone_input_fixed, validate_digit_input, len.
  rewrite (bool_decide_eq_false_2 _ (label_not_plus code)), (py_int_label code Hcode).
  assert (isdigit (current_value ++ char) = isdigit char) as ->; [|done].
  destruct (isdigit char) eqn:Hd.
  - apply isdigit_spec in Hd as [_ Hall]. apply isdigit_spec. split.
    + destruct current_value; [done|]. by rewrite s_app_cons.
    + by rewrite all_chars_app, Hcur, Hall.
  - destruct (isdigit (current_value ++ char)) eqn:Hd'; [|done].
    apply isdigit_spec in Hd' as [_ Hall].
    rewrite all_chars_app in Hall. apply andb_prop in Hall as [_ Hall].
    assert (isdigit char = true) as Hd'' by by apply isdigit_spec. congruence.
Qed.

Lemma keystroke_validation_agrees_witness :
  validate_phone_input_fixed "8" "0123456789" ("+" ++ str_of_int 33)
  = validate_digit_input ("0123456789" ++ "8") 33.
Proof. apply keystroke_validation_agrees; [lia | done | reflexivity]. Defined.

Lemma known_label_code region_of country code :
  (extract_country_code_from_label region_of country).1 = Some code →
  (0 < code)%Z.
Proof.
  unfold extract_country_code_from_label.
  destruct (dict_get country ALL_COUNTRIES) as [fmt|] eqn:Hget; [|done].
  pose proof all_entries_ok as Hall. rewrite forallb_forall in Hall.
  apply dict_get_Some, list_elem_of_In, Hall in Hget.
  unfold entry_ok in Hget. cbn [snd] in Hget.
  apply andb_prop in Hget as [Hne Hget].
  apply negb_true_iff in Hne. rewrite Hne.
  destruct (match_plus_digits fmt) as [group|]; [|done].
  apply andb_prop in Hget as [[Hpos _]%andb_prop _].
  apply bool_decide_eq_true in Hpos. cbn [fst]. by intros [= <-].
Qed.

Lemma full_international_clean (code : Z) (formatted : string) :
  (0 ≤ code)%Z →
  clean_number (full_international code formatted)
  = str_of_int code ++ s_filter isdigit_char formatted
  ∧ has_plus (full_international code formatted) = true.
Proof.
  intros Hcode. unfold clean_number, full_international. split.
  - rewrite !s_filter_app. change (s_filter isdigit_char "+") with "".
    change (s_filter isdigit_char " ") with "". rewrite !s_app_nil_l.
    rewrite (s_filter_all _ (str_of_int code)); [done|].
    rewrite str_of_int_nonneg by done.
    generalize (str_of_nat_decimal (Z.to_nat code)).
    apply all_chars_impl, decimal_is_digit.
  - apply has_plus_spec. by exists "", (str_of_int code ++ " " ++ formatted).
Qed.

Lemma full_international_has_digits (code : Z) (formatted : string) :
  (0 ≤ code)%Z → clean_number (full_international code formatted) ≠ "".
Proof.
  intros Hcode. rewrite (proj1 (full_international_clean code formatted Hcode)).
  rewrite str_of_int_nonneg by done.
  pose proof (str_of_nat_nonempty (Z.to_nat code)) as Hne.
  by destruct (str_of_nat (Z.to_nat code)).
Qed.

Lemma generate_returns number signature_text st :
  clean_number number ≠ "" →
  ∃ document st', generate_latex_for_number number signature_text st = (Ok document, st').
Proof.
  intros Hne. destruct (compose_tokens_spec number st Hne) as (? & ? & ? & ? & Hrun & _).
  unfold generate_latex_for_number. rewrite (bind_Ok _ _ _ _ _ Hrun). by eexists _, _.
Qed.

(** X10: a generate request ends in the document exactly when the country
    label has a calling code and the digits of the local number are at
    least 4 and at most the limit of that code; the composer is then called
    on "+<code> <formatted local number>" and never fails.  Every other
    request ends in an input warning and leaves the state alone. *)
Theorem on_generate_outcome (region_of : Z → option string)
    (country local_number signature_option custom_signature : string) (st : State) :
  (∀ code,
     (extract_country_code_from_label region_of country).1 = Some code →
     4 ≤ String.length (s_filter isdigit_char local_number) →
     (Z.of_nat (String.length (s_filter isdigit_char local_number))
      ≤ get_digit_limit code)%Z →
     ∃ signature_text st1 document st2,
       generate_latex_for_number
         (full_international code
            (format_display_number (s_filter isdigit_char local_number) code))
         signature_text st1 = (Ok document, st2)
       ∧ on_generate region_of country local_number signature_option custom_signature st
         = (Generated document, st2))
  ∧ ((extract_country_code_from_label region_of country).1 = None
     ∨ String.length (s_filter isdigit_char local_number) < 4
     ∨ (∃ code, (extract_country_code_from_label region_of country).1 = Some code
                ∧ (get_digit_limit code
                   < Z.of_nat (String.length (s_filter isdigit_char local_number)))%Z) →
     ∃ message,
       on_generate region_of country local_number signature_option custom_signature st
       = (InputError message, st)).
Proof.
  assert (country = "" →
          (extract_country_code_from_label region_of country).1 = None) as Hempty.
  { intros ->. unfold extract_country_code_from_label.
    assert (dict_get "" ALL_COUNTRIES = None) as -> by by vm_compute. done. }
  split.
  - intros code Hcode Hmin Hmax. pose proof (known_label_code _ _ _ Hcode) as Hpos.
    unfold on_generate.
    rewrite bool_decide_eq_false_2 by (intros Hc; apply Hempty in Hc; congruence).
    destruct (extract_country_code_from_label region_of country) as [c region].
    cbn [fst] in Hcode. subst c.
    set (local_part := s_filter isdigit_char local_number) in *.
    rewrite (bool_decide_eq_false_2 (local_part = ""))
      by (intros Hl; rewrite Hl in Hmin; cbn in Hmin; lia).
    rewrite (proj2 (Nat.ltb_ge _ _) Hmin). cbn [orb].
    rewrite (bool_decide_eq_false_2 (code = 0%Z)) by lia.
    rewrite bool_decide_eq_false_2 by lia.
    set (number := full_international code _).
    assert (clean_number number ≠ "") as Hdigits
      by (apply full_international_has_digits; lia).
    assert (∀ signature_text st1, ∃ document st2,
              generate_latex_for_number number signature_text st1 = (Ok document, st2)
              ∧ (match generate_latex_for_number number signature_text st1 with
                 | (Ok document, st2) => (Generated document, st2)
                 | (Raise e, st2) => (GenerateFailed e, st2)
                 end) = (Generated document, st2)) as Hgen.
    { intros sig st1. destruct (generate_returns number sig st1 Hdigits) as (doc & st2 & Hrun).
      exists doc, st2. by rewrite Hrun. }
    destruct (bool_decide (signature_option = "Random")).
    + destruct (choice_elem signature_lines st) as (sig & rest & Hsig & _); [done|].
      unfold get_signature_line. rewrite Hsig.
      destruct (Hgen sig (mkState rest (used_formulas st))) as (doc & st2 & Hrun & Hout).
      by exists sig, (mkState rest (used_formulas st)), doc, st2.
    + destruct (bool_decide (signature_option = "Custom")).
      * destruct (Hgen (if bool_decide (strip custom_signature = "")
                        then "Please call me at:" else strip custom_signature) st)
          as (doc & st2 & Hrun & Hout).
        by eexists _, st, doc, st2.
      * destruct (Hgen signature_option st) as (doc & st2 & Hrun & Hout).
        by exists signature_option, st, doc, st2.
  - intros Hbad. unfold on_generate.
    case_bool_decide as Hcountry; [by eexists|].
    destruct (extract_country_code_from_label region_of country) as [c region].
    cbn [fst] in Hbad.
    destruct (bool_decide (s_filter isdigit_char local_number = "")
              || (String.length (s_filter isdigit_char local_number) <? 4)) eqn:Hshort;
      [by eexists|].
    apply orb_false_iff in Hshort as [_ Hshort%Nat.ltb_ge].
    destruct c as [code|]; [|by eexists].
    case_bool_decide; [by eexists|].
    destruct Hbad as [? | [? | (code' & [= <-] & Hlong)]]; [done | lia |].
    rewrite bool_decide_eq_true_2 by done. by eexists.
Qed.

Lemma on_generate_outcome_witness :
  ∃ document st2,
    on_generate (λ _, None) "🇺🇸 United States" "(555) 123-4567" "Main line:" ""
      (mkState [1; 2; 3] ∅) = (Generated document, st2).
Proof.
  destruct (proj1 (on_generate_outcome (λ _, None) "🇺🇸 United States" "(555) 123-4567"
                     "Main line:" "" (mkState [1; 2; 3] ∅)) 1%Z)
    as (sig & st1 & doc & st2 & _ & Hout).
  - by vm_compute.
  - vm_compute. lia.
  - by vm_compute.
  - by exists doc, st2.
Defined.

End Requests.

(** ** From the request to the picture *)

Section RequestDigits.
Import PyStr PhoneFormats PhoneGeography Runtime EquationBank LatexProcessor Vocabulary
  Dialogorithm ExtraVocabulary.

Lemma s_take_app_length s t : s_take (String.length s) (s ++ t) = s.
Proof. induction s as [|c s IH]; [by destruct t|]. cbn. by rewrite s_app_cons, IH. Qed.

Lemma s_drop_app_length s t : s_drop (String.length s) (s ++ t) = t.
Proof. induction s as [|c s IH]; [by destruct t|]. cbn. by rewrite s_app_cons, IH. Qed.

Lemma app_inv_length s t s' t' :
  s ++ t = s' ++ t' → String.length t = String.length t' → s = s' ∧ t = t'.
Proof.
  intros Heq Hlen.
  assert (String.length s = String.length s') as Hs.
  { apply (f_equal String.length) in Heq. rewrite !length_app_s in Heq. lia. }
  split.
  - rewrite <-(s_take_app_length s t), Heq, Hs. apply s_take_app_length.
  - rewrite <-(s_drop_app_length s t), Heq, Hs. apply s_drop_app_length.
Qed.

Lemma str_of_int_length (code : Z) : (0 ≤ code)%Z → 0 < String.length (str_of_int code).
Proof.
  intros Hcode. rewrite str_of_int_nonneg by done.
  pose proof (str_of_nat_nonempty (Z.to_nat code)).
  destruct (str_of_nat (Z.to_nat code)); [done | cbn; lia].
Qed.

Lemma request_number_clean (code : Z) (local_part : string) :
  (0 ≤ code)%Z →
  clean_number (request_number code local_part)
  = str_of_int code ++ kept_digits local_part code
  ∧ has_plus (request_number code local_part) = true.
Proof. intros Hcode. by apply full_international_clean. Qed.

(** X11: for a calling code and a local number made of digits, the
    composer, run on the number that [on_generate] builds, returns a token
    stream whose digit values are the decimal digits of the calling code
    followed by the digits of the local number; only for calling code 33
    with a 10-digit local number the last digit is missing. *)
Theorem request_digits_reach_composer (code : Z) (local_part : string) (st : State) :
  (0 ≤ code)%Z → all_chars isdigit_char local_part = true →
  ∃ toks st',
    compose_tokens (request_number code local_part) st = (Ok toks, st')
    ∧ digit_values toks
      = str_of_int code
        ++ (if bool_decide (code = 33%Z ∧ String.length local_part = 10)
            then s_take 9 local_part else local_part).
Proof.
  intros Hcode Hlocal.
  destruct (request_number_clean code local_part Hcode) as [Hclean Hplus].
  assert (clean_number (request_number code local_part) ≠ "") as Hne
    by by apply full_international_has_digits.
  destruct (compose_tokens_spec _ st Hne)
    as (code_toks & main_toks & rest & U' & Hrun & Hc & Hm & _).
  eexists _, _. split; [exact Hrun|].
  rewrite !digit_values_app, digit_values_plus_part.
  rewrite (digit_values_code_part _ _ Hc), (digit_values_main_part _ _ Hm).
  rewrite s_app_nil_l, segment_concat, Hclean. f_equal.
  by apply format_display_digits_kept.
Qed.

Lemma request_digits_reach_composer_witness :
  ∃ toks st',
    compose_tokens (request_number 44 "2079460958") (mkState [2; 7; 1] ∅) = (Ok toks, st')
    ∧ digit_values toks = "442079460958".
Proof.
  destruct (request_digits_reach_composer 44 "2079460958" (mkState [2; 7; 1] ∅))
    as (toks & st' & Hrun & Hvalues); [lia | reflexivity |].
  exists toks, st'. split; [exact Hrun | exact Hvalues].
Defined.

(** X12: on the number that [on_generate] builds, the composer's split into
    country code and subscriber number gives back the selected calling code
    and the local digits exactly when 10 local digits reach it; with any
    other count the major gap is placed elsewhere or left out. *)
Theorem request_segmentation (code : Z) (local_part : string) :
  (0 ≤ code)%Z →
  segment (has_plus (request_number code local_part))
          (clean_number (request_number code local_part))
  = (str_of_int code, kept_digits local_part code)
  ↔ String.length (kept_digits local_part code) = 10.
Proof.
  intros Hcode.
  destruct (request_number_clean code local_part Hcode) as [-> ->].
  pose proof (str_of_int_length code Hcode) as Hlen.
  set (c := str_of_int code) in *. set (k := kept_digits local_part code).
  unfold segment. rewrite length_app_s. cbn [andb].
  destruct ((String.length c + String.length k =? 11) && startswith "1" (c ++ k))
    eqn:Hus.
  - apply andb_prop in Hus as [Hn%Nat.eqb_eq Hstart].
    destruct c as [|a c]; [cbn in Hlen; lia|].
    rewrite s_app_cons in Hstart. cbn in Hstart.
    apply bool_decide_eq_true in Hstart as ->. split.
    + intros [= Hc _]. rewrite <-Hc in Hn. cbn in Hn. lia.
    + intros Hk. cbn in Hn. assert (c = "") as -> by (apply length_zero; lia).
      by rewrite s_app_cons, s_app_nil_l.
  - destruct (10 <? String.length c + String.length k) eqn:Hlong.
    + apply Nat.ltb_lt in Hlong. split.
      * intros [= _ Hk]. apply (f_equal String.length) in Hk.
        unfold slice_from_neg in Hk. rewrite length_s_drop, !length_app_s in Hk. lia.
      * intros Hk. unfold slice_to_neg, slice_from_neg. rewrite length_app_s, Hk.
        replace (String.length c + 10 - 10) with (String.length c) by lia.
        by rewrite s_take_app_length, s_drop_app_length.
    + apply Nat.ltb_ge in Hlong. split; [|lia].
      intros [= Hc _]. rewrite <-Hc in Hlen. cbn in Hlen. lia.
Qed.

Lemma request_segmentation_witness :
  segment (has_plus (request_number 33 "612345678"))
          (clean_number (request_number 33 "612345678"))
  ≠ (str_of_int 33, kept_digits "612345678" 33).
Proof.
  intros Heq. apply (proj1 (request_segmentation 33 "612345678" ltac:(lia))) in Heq.
  vm_compute in Heq. discriminate.
Defined.

End RequestDigits.

(** ** The verification data *)

Section VerificationData.
Import PyStr PhoneFormats PhoneGeography Runtime EquationBank LatexProcessor Vocabulary
  Dialogorithm Verification ExtraVocabulary.
Local Open Scope list_scope.

Lemma list_of_str_app s t : list_of_str (s ++ t)%string = list_of_str s ++ list_of_str t.
Proof.
  induction s as [|c s IH]; [by rewrite s_app_nil_l|].
  rewrite s_app_cons. cbn. by rewrite IH.
Qed.

(** The three branches build the same sequence. *)
Lemma expected_sequence_spec s :
  expected_sequence s
  = (if has_plus s then ["+"%string] else []) ++ list_of_str (clean_number s).
Proof.
  unfold expected_sequence, has_plus, clean_number.
  set (hp := startswith "+" (strip s)). set (c := s_filter isdigit_char s).
  destruct (hp && (String.length c =? 11) && startswith "1" c) eqn:Hus.
  - apply andb_prop in Hus as [_ Hstart]. rewrite <-app_assoc. f_equal.
    destruct c as [|a c]; [done|]. cbn in Hstart.
    by apply bool_decide_eq_true in Hstart as ->.
  - destruct (hp && (10 <? String.length c)); [|done].
    by rewrite <-app_assoc, <-list_of_str_app, s_take_drop.
Qed.

Lemma py_int_digit v :
  py_int (String v "") = if is_decimal_char v then Some (digit_value v) else None.
Proof. destruct v as [[] [] [] [] [] [] [] []]; reflexivity. Qed.

Lemma digit_key_not_plus v : isdigit_char v = true → String v "" ≠ "+"%string.
Proof. intros Hv [= ->]. done. Qed.

Lemma token_keys_app t1 t2 : token_keys (t1 ++ t2) = token_keys t1 ++ token_keys t2.
Proof. induction t1 as [|[e|v o e|s] t1 IH]; cbn; by rewrite ?IH. Qed.

Lemma token_not_formatting t :
  token_wf t → latex_of t ∈ formatting_elements ↔ ∃ s, t = Separator s.
Proof.
  destruct t as [e|v o e|s]; cbn.
  - intros ->. split; [|by intros [? ?]]. intros Hin.
    unfold formatting_elements in Hin.
    repeat (apply elem_of_cons in Hin as [Hin|Hin]; [discriminate|]).
    by apply elem_of_nil in Hin.
  - intros [He _]. split; [|by intros [? ?]]. intros Hin.
    destruct (expression_not_separator e He) as (? & ? & ? & ? & ?).
    unfold formatting_elements in Hin.
    repeat (apply elem_of_cons in Hin as [->|Hin]; [done|]).
    by apply elem_of_nil in Hin.
  - intros Hin. split; [by eexists | done].
Qed.

(** The loop on a well-formed token stream whose keys are what is left of
    the expected sequence. *)
Lemma expressions_loop_aligned toks pre acc :
  Forall token_wf toks → length acc = length pre →
  (all_chars is_decimal_char (digit_values toks) = true →
   expressions_loop (pre ++ token_keys toks) (latex_parts_of toks) acc
   = Ok (acc ++ aligned_entries (length acc) toks))
  ∧ (all_chars is_decimal_char (digit_values toks) = false →
     ∃ msg, expressions_loop (pre ++ token_keys toks) (latex_parts_of toks) acc
            = Raise (ValueError msg)).
Proof.
  intros Hwf. revert pre acc.
  induction Hwf as [|t toks Ht Hwf IH]; intros pre acc Hlen.
  { cbn. rewrite app_nil_r. by split. }
  pose proof (token_not_formatting t Ht) as Hfmt.
  cbn [latex_parts_of fmap list_fmap expressions_loop].
  destruct t as [e|v o e|s].
  - rewrite bool_decide_eq_false_2 by (rewrite Hfmt; by intros [? ?]).
    cbn [token_keys digit_values aligned_entries latex_of].
    unfold classify. rewrite Hlen, list_lookup_middle by done.
    rewrite bool_decide_eq_true_2 by done.
    specialize (IH (pre ++ ["+"%string])
                   (acc ++ [expr_data (length pre) e (TextValue "+") "plus_symbol"])).
    rewrite !length_app, <-!app_assoc in IH. cbn [app length] in IH.
    rewrite Hlen in IH. rewrite Nat.add_1_r in IH. apply IH. done.
  - destruct Ht as [He Hv].
    rewrite bool_decide_eq_false_2 by (rewrite Hfmt; by intros [? ?]).
    cbn [token_keys digit_values aligned_entries latex_of all_chars].
    unfold classify. rewrite Hlen, list_lookup_middle by done.
    rewrite bool_decide_eq_false_2 by by apply digit_key_not_plus.
    assert (isdigit (String v "") = true) as -> by (apply isdigit_spec; cbn; by rewrite Hv).
    rewrite py_int_digit.
    destruct (is_decimal_char v); cbn [andb].
    + specialize (IH (pre ++ [String v ""])
                     (acc ++ [expr_data (length pre) e (IntValue (digit_value v))
                                ("digit_" ++ String v "")])).
      rewrite !length_app, <-!app_assoc in IH. cbn [app length] in IH.
      rewrite Hlen in IH. rewrite Nat.add_1_r in IH. apply IH. done.
    + split; [done|]. intros _. by eexists.
  - rewrite bool_decide_eq_true_2 by (apply Hfmt; by eexists).
    cbn [token_keys digit_values aligned_entries]. by apply IH.
Qed.

Lemma all_chars_s_filter p s : all_chars p (s_filter p s) = true.
Proof.
  induction s as [|c s IH]; [done|]. cbn. destruct (p c) eqn:Hc; [|done].
  cbn. by rewrite Hc.
Qed.

Lemma digit_tokens_wf toks :
  Forall is_digit_token toks → all_chars isdigit_char (digit_values toks) = true →
  Forall token_wf toks ∧ token_keys toks = list_of_str (digit_values toks).
Proof.
  induction 1 as [|[e|v o e|s] toks Ht Htoks IH]; [done|done| |done].
  cbn. intros [Hv Hrest]%andb_prop. destruct (IH Hrest) as [Hwf Hkeys].
  destruct Ht as [He _]. split; [by constructor | by rewrite Hkeys].
Qed.

Lemma code_part_wf cc toks :
  Forall token_wf toks → token_keys toks = list_of_str cc →
  Forall token_wf (code_part cc toks) ∧ token_keys (code_part cc toks) = list_of_str cc.
Proof.
  intros Hwf Hkeys. unfold code_part. case_bool_decide as Hcc; [by subst|].
  split.
  - apply Forall_app. split; [done|]. constructor; [|done].
    by apply (bool_decide_unpack _).
  - by rewrite token_keys_app, Hkeys, app_nil_r.
Qed.

Lemma main_part_wf main toks :
  Forall token_wf toks →
  Forall token_wf (main_part main toks)
  ∧ token_keys (main_part main toks) = token_keys toks.
Proof.
  intros Hwf. unfold main_part. destruct (_ =? _); [|done].
  split.
  - assert (∀ s, s ∈ formatting_elements → token_wf (Separator s)) as Hs by done.
    rewrite !Forall_app.
    split_and!;
      first [ by apply Forall_take
            | by apply Forall_drop
            | by apply Forall_take, Forall_drop
            | repeat apply Forall_cons_2; try apply Forall_nil_2; apply Hs;
              by apply (bool_decide_unpack _) ].
  - transitivity (token_keys (take 3 toks ++ take 3 (drop 3 toks) ++ drop 6 toks)).
    + cbn [app token_keys]. rewrite !token_keys_app. cbn [token_keys].
      by rewrite !token_keys_app.
    + f_equal. replace 6 with (3 + 3) by done. by rewrite <-drop_drop, !take_drop.
Qed.

Lemma composer_tokens_wf s st toks st' :
  compose_tokens s st = (Ok toks, st') →
  Forall token_wf toks
  ∧ token_keys toks = expected_sequence s
  ∧ digit_values toks = clean_number s.
Proof.
  intros Hrun.
  destruct (decide (clean_number s = ""%string)) as [Hclean|Hclean].
  { destruct (compose_tokens_no_digits s st Hclean) as [msg Hraise]. congruence. }
  destruct (compose_tokens_spec s st Hclean)
    as (code_toks & main_toks & rest & U' & Hrun' & Hcode & Hmain & _).
  rewrite Hrun' in Hrun. injection Hrun as <- _.
  pose proof (segment_concat (has_plus s) (clean_number s)) as Hseg.
  pose proof (all_chars_s_filter isdigit_char s) as Hdig.
  fold (clean_number s) in Hdig. rewrite <-Hseg, all_chars_app in Hdig.
  apply andb_prop in Hdig as [Hdc Hdm].
  pose proof (digit_values_code_part _ _ Hcode) as Hcv.
  pose proof (digit_values_main_part _ _ Hmain) as Hmv.
  destruct Hcode as (Hvc & _ & Hfc). destruct Hmain as (Hvm & _ & Hfm).
  rewrite <-Hvc in Hdc. rewrite <-Hvm in Hdm.
  destruct (digit_tokens_wf _ Hfc Hdc) as [Hwc Hkc].
  destruct (digit_tokens_wf _ Hfm Hdm) as [Hwm Hkm].
  rewrite Hvc in Hkc.
  destruct (code_part_wf _ _ Hwc Hkc) as [Hwc' Hkc'].
  destruct (main_part_wf (segment (has_plus s) (clean_number s)).2 _ Hwm)
    as [Hwm' Hkm'].
  split_and!.
  - rewrite !Forall_app. split_and!; [|done..].
    unfold plus_part. destruct (has_plus s); by repeat constructor.
  - rewrite expected_sequence_spec, !token_keys_app, Hkc', Hkm', Hkm, Hvm.
    rewrite <-Hseg at 3. rewrite list_of_str_app. f_equal.
    by destruct (has_plus s).
  - by rewrite !digit_values_app, digit_values_plus_part, Hcv, Hmv, s_app_nil_l.
Qed.

(** X13: for the token stream that the composer returns for a number, the
    verification data hold exactly one entry per plus sign and per digit
    expression, in emission order and numbered from 0, each asking for the
    value of the digit the expression was drawn for; this holds when the
    digit characters of the number are decimal digits, and otherwise the
    conversion of an expected value raises [ValueError]. *)
Theorem verification_entries_aligned (s : string) (st st' : State) (toks : list Token) :
  compose_tokens s st = (Ok toks, st') →
  (all_chars is_decimal_char (clean_number s) = true →
   create_verification_output s (latex_parts_of toks) = Ok (aligned_entries 0 toks))
  ∧ (all_chars is_decimal_char (clean_number s) = false →
     ∃ msg, create_verification_output s (latex_parts_of toks) = Raise (ValueError msg)).
Proof.
  intros Hrun. destruct (composer_tokens_wf s st toks st' Hrun) as (Hwf & Hkeys & Hvalues).
  unfold create_verification_output. rewrite <-Hkeys, <-Hvalues.
  exact (expressions_loop_aligned toks [] [] Hwf eq_refl).
Qed.

Lemma verification_entries_aligned_witness :
  ∃ toks st',
    compose_tokens "+44 20" (mkState [5; 0; 8] ∅) = (Ok toks, st')
    ∧ create_verification_output "+44 20" (latex_parts_of toks)
      = Ok (aligned_entries 0 toks).
Proof.
  destruct (compose_tokens "+44 20" (mkState [5; 0; 8] ∅)) as [[toks|e] st'] eqn:Hrun;
    [|by vm_compute in Hrun].
  exists toks, st'. split; [done|].
  apply (proj1 (verification_entries_aligned "+44 20" _ _ _ Hrun)).
  reflexivity.
Defined.

End VerificationData.

(** ** The template collections *)

Section Collections.
Import PyStr PhoneFormats PhoneGeography Runtime EquationBank LatexProcessor Vocabulary
  Dialogorithm Verification EquationBankPublic ExtraVocabulary.
Local Open Scope list_scope.

Lemma getattr_in name gt : getattr name = Some gt → (name, gt) ∈ module_attributes.
Proof.
  unfold getattr. destruct (List.find _ _) as [[name' gt']|] eqn:Hfind; [|done].
  intros [= <-]. apply find_some in Hfind as [Hin Heq]. cbn in Heq.
  apply String.eqb_eq in Heq as ->. by apply list_elem_of_In.
Qed.

Lemma randint_canonical lo hi st :
  ∃ k st1, k < hi - lo + 1
    ∧ randint lo hi st = (Ok (lo + k), st1)
    ∧ ∀ k' U, randint lo hi (mkState [k; k'] U) = (Ok (lo + k), mkState [k'] U).
Proof.
  assert (∀ k, k < hi - lo + 1 →
            ∀ k' U, randint lo hi (mkState [k; k'] U) = (Ok (lo + k), mkState [k'] U))
    as Hcanon.
  { intros k Hk k' U. unfold randint, bind, randbelow, ret. cbn [tape used_formulas].
    by rewrite Nat.mod_small. }
  destruct st as [[|r rest] U].
  - exists 0, (mkState [] U). split_and!; [lia | done | apply Hcanon; lia].
  - exists (r mod (hi - lo + 1)), (mkState rest U).
    assert (r mod (hi - lo + 1) < hi - lo + 1) as Hk by (apply Nat.mod_upper_bound; lia).
    split_and!; [done | done | by apply Hcanon].
Qed.

(** Whatever the generator yields, a provider returns what it returns for
    one of the nine parameter draws. *)
Lemma provider_canonical name gt st :
  (name, gt) ∈ module_attributes → (gt st).1 ∈ collections gt.
Proof.
  intros Hin. unfold collections. apply list_elem_of_fmap.
  unfold module_attributes in Hin.
  repeat (apply elem_of_cons in Hin as [[= -> ->]|Hin];
          [try (exists (0, 0); split; [reflexivity | by apply (bool_decide_unpack _)])|]);
    [| | |by apply elem_of_nil in Hin].
  - destruct (randint_canonical 1 3 st) as (k & st1 & Hk & Hrun & Hcanon).
    exists (k, 0). split; [|cbn in Hk; unfold parameter_draws;
                            destruct k as [|[|[|k]]]; [set_solver..|lia]].
    unfold _get_0_templates, get_rand_int. cbn [fst snd].
    by rewrite (bind_Ok _ _ _ _ _ Hrun), (bind_Ok _ _ _ _ _ (Hcanon 0 ∅)).
  - destruct (randint_canonical 2 4 st) as (k & st1 & Hk & Hrun & Hcanon).
    exists (k, 0). split; [|cbn in Hk; unfold parameter_draws;
                            destruct k as [|[|[|k]]]; [set_solver..|lia]].
    unfold _get_1_templates, get_rand_int. cbn [fst snd].
    by rewrite (bind_Ok _ _ _ _ _ Hrun), (bind_Ok _ _ _ _ _ (Hcanon 0 ∅)).
  - destruct (randint_canonical 1 3 st) as (k & st1 & Hk & Hrun & Hcanon).
    destruct (randint_canonical 2 4 st1) as (k' & st2 & Hk' & Hrun' & _).
    destruct (randint_canonical 2 4 (mkState [k'] ∅)) as (k'' & st2' & _ & Hrun'' & _).
    exists (k, k'). split; [|cbn in Hk, Hk'; unfold parameter_draws;
                             destruct k as [|[|[|k]]]; [..|lia];
                             (destruct k' as [|[|[|k']]]; [set_solver..|lia])].
    unfold _get_2_templates, get_rand_int. cbn [fst snd].
    rewrite (bind_Ok _ _ _ _ _ Hrun), (bind_Ok _ _ _ _ _ (Hcanon k' ∅)).
    rewrite (bind_Ok _ _ _ _ _ Hrun').
    assert (randint 2 4 (mkState [k'] ∅) = (Ok (2 + k'), mkState [] ∅)) as Hlast.
    { unfold randint, bind, randbelow, ret. cbn [tape used_formulas].
      by rewrite Nat.mod_small. }
    by rewrite (bind_Ok _ _ _ _ _ Hlast).
Qed.

Lemma collections_checked :
  forallb (λ kv, forallb collection_ok (collections kv.2)) module_attributes = true.
Proof. by vm_compute. Qed.

Lemma collections_apart : tables_apart template_tables = true.
Proof.
  by vm_compute.
Qed.

Lemma tables_apart_spec tables :
  tables_apart tables = true →
  ∀ n1 t1 n2 t2 e,
    (n1, t1) ∈ tables → (n2, t2) ∈ tables → e ∈ t1 → e ∈ t2 → n1 = n2.
Proof.
  unfold tables_apart. rewrite forallb_forall.
  intros Hall n1 t1 n2 t2 e H1%list_elem_of_In H2%list_elem_of_In He1 He2.
  apply Hall in H1. rewrite forallb_forall in H1. apply H1 in H2.
  cbn [fst snd] in H2.
  apply orb_prop in H2 as [Heq%String.eqb_eq|Hno]; [done|].
  rewrite forallb_forall in Hno.
  apply list_elem_of_In, Hno, negb_true_iff, bool_decide_eq_false in He1. done.
Qed.

Lemma in_template_tables name gt :
  getattr name = Some gt → (name, all_templates_of gt) ∈ template_tables.
Proof.
  intros Hget%getattr_in. unfold template_tables.
  apply list_elem_of_fmap. by exists (name, gt).
Qed.

Lemma provider_result_ok name gt st :
  getattr name = Some gt →
  ∃ l st', gt st = (Ok l, st') ∧ 24 ≤ length l ∧ NoDup l ∧ forallb bracketed l = true.
Proof.
  intros Hin%getattr_in. pose proof (provider_canonical name gt st Hin) as Hcanon.
  pose proof collections_checked as Hall. rewrite forallb_forall in Hall.
  apply list_elem_of_In, Hall in Hin. cbn [snd] in Hin.
  rewrite forallb_forall in Hin. apply list_elem_of_In, Hin in Hcanon.
  destruct (gt st) as [[l|e] st']; [|done]. cbn [fst] in Hcanon.
  unfold collection_ok in Hcanon.
  apply andb_prop in Hcanon as [[Hlen%Nat.leb_le Hnd%bool_decide_eq_true]%andb_prop Hbr].
  by exists l, st'.
Qed.

Lemma in_all_templates name gt st l st' e :
  getattr name = Some gt → gt st = (Ok l, st') → e ∈ l → e ∈ all_templates_of gt.
Proof.
  intros Hin%getattr_in Hrun He.
  pose proof (provider_canonical name gt st Hin) as Hcanon. rewrite Hrun in Hcanon.
  unfold all_templates_of. apply elem_of_remove_dups, list_elem_of_In, in_concat.
  exists l. split.
  - apply list_elem_of_In, list_elem_of_fmap. by exists (Ok l).
  - by apply list_elem_of_In.
Qed.

Lemma provider_name_inj d1 d2 : provider_name d1 = provider_name d2 → d1 = d2.
Proof. by intros [= ->]. Qed.

Lemma decimal_has_provider d :
  is_decimal_char d = true → is_Some (getattr (provider_name d)).
Proof.
  destruct d as [[] [] [] [] [] [] [] []]; try discriminate; intros _; by eexists.
Qed.

Lemma provider_is_decimal d :
  is_Some (getattr (provider_name d)) → is_decimal_char d = true.
Proof.
  destruct d as [[] [] [] [] [] [] [] []]; try reflexivity; by intros [? [=]].
Qed.

(** X14: a character has a template provider exactly when it is one of the
    decimal digits, and the provider returns, whatever the generator yields
    for the random parameters, at least 24 templates, no two of them equal. *)
Theorem decimal_digits_have_collections (d : ascii) :
  (is_Some (getattr (provider_name d)) ↔ is_decimal_char d = true)
  ∧ ∀ get_templates st,
      getattr (provider_name d) = Some get_templates →
      ∃ l st', get_templates st = (Ok l, st') ∧ 24 ≤ length l ∧ NoDup l.
Proof.
  split; [split; [apply provider_is_decimal | apply decimal_has_provider]|].
  intros gt st Hget.
  destruct (provider_result_ok _ gt st Hget) as (l & st' & Hrun & Hlen & Hnd & _).
  by exists l, st'.
Qed.

Lemma decimal_digits_have_collections_witness :
  ∃ l st', _get_7_templates (mkState [4; 4] ∅) = (Ok l, st') ∧ 24 ≤ length l ∧ NoDup l.
Proof.
  exact (proj2 (decimal_digits_have_collections "7") _get_7_templates
           (mkState [4; 4] ∅) eq_refl).
Defined.

Lemma collection_digit_unique (d1 d2 : ascii) (e : string) :
  from_collection d1 e → from_collection d2 e → d1 = d2.
Proof.
  intros (gt1 & st1 & l1 & st1' & Hget1 & Hrun1 & He1)
         (gt2 & st2 & l2 & st2' & Hget2 & Hrun2 & He2).
  pose proof (in_all_templates _ _ _ _ _ _ Hget1 Hrun1 He1) as Hin1.
  pose proof (in_all_templates _ _ _ _ _ _ Hget2 Hrun2 He2) as Hin2.
  apply provider_name_inj.
  eapply (tables_apart_spec template_tables collections_apart);
    [by apply in_template_tables | by apply in_template_tables | done..].
Qed.

(** X15: an expression belongs to the template collection of at most one
    digit, whatever the random parameters of the two providers. *)
Theorem collections_disjoint (d1 d2 : ascii) (e : string) :
  from_collection d1 e → from_collection d2 e → d1 = d2.
Proof. apply collection_digit_unique. Qed.

Lemma collections_disjoint_witness :
  from_collection "5" (hd "" (all_templates_of _get_5_templates))
  ∧ "5"%char = "5"%char.
Proof.
  assert (from_collection "5" (hd "" (all_templates_of _get_5_templates))) as H.
  { exists _get_5_templates, (mkState [] ∅). do 2 eexists.
    split; [reflexivity|]. split; [reflexivity|]. apply list_elem_of_here. }
  split; [exact H | exact (collections_disjoint "5" "5" _ H H)].
Defined.

Lemma bind_inv {A B} (m : M A) (k : A → M B) st b st2 :
  bind m k st = (Ok b, st2) → ∃ a st1, m st = (Ok a, st1) ∧ k a st1 = (Ok b, st2).
Proof.
  unfold bind. destruct (m st) as [[a|e] st1]; [|done]. intros Hk. by exists a, st1.
Qed.

Lemma choice_in l st e st1 : choice l st = (Ok e, st1) → e ∈ l.
Proof.
  destruct l as [|x l]; [done|]. intros Hrun.
  destruct (choice_elem (x :: l) st) as (e' & rest & Hrun' & Hin); [done|].
  rewrite Hrun' in Hrun. by injection Hrun as <- _.
Qed.

Lemma unique_attempts_in gt n st e st1 :
  unique_attempts gt n st = (Ok (Some e), st1) →
  ∃ sta l stb, gt sta = (Ok l, stb) ∧ e ∈ l.
Proof.
  revert st st1. induction n as [|n IH]; intros st st1; [done|].
  cbn [unique_attempts]. intros (l & sta & Hl & Hrest)%bind_inv.
  apply bind_inv in Hrest as (s & stb & Hs%choice_in & Hrest).
  apply bind_inv in Hrest as (used & stc & _ & Hrest).
  destruct (bool_decide (s ∈ used)); [by eapply IH|].
  apply bind_inv in Hrest as ([] & std & _ & [= <- _]).
  by exists st, l, sta.
Qed.

Lemma unique_latex_traced_sourced v st o e st1 :
  unique_latex_traced (String v "") st = (Ok (o, e), st1) →
  (o = Placeholder ∧ e = eq_placeholder (String v "")) ∨ from_collection v e.
Proof.
  unfold unique_latex_traced, from_collection, provider_name.
  destruct (negb (isdigit (String v ""))); [intros [= <- <-]; by left|].
  destruct (getattr _) as [gt|] eqn:Hget; [|intros [= <- <-]; by left].
  intros ([s|] & sta & Hfound & Hrest)%bind_inv.
  - injection Hrest as <- <- _. right.
    apply unique_attempts_in in Hfound as (stb & l & stc & Hl & Hin).
    by exists gt, stb, l, stc.
  - apply bind_inv in Hrest as (l & stb & Hl & Hrest).
    apply bind_inv in Hrest as (s & stc & Hs%choice_in & [= <- <- _]).
    right. by exists gt, sta, l, stb.
Qed.

Lemma digit_tokens_sourced ds st toks st1 :
  digit_tokens ds st = (Ok toks, st1) → Forall token_sourced toks.
Proof.
  revert st toks st1. induction ds as [|d ds IH]; intros st toks st1.
  { intros [= <- _]. constructor. }
  cbn [digit_tokens]. intros ([o e] & sta & Hlook & Hrest)%bind_inv.
  apply bind_inv in Hrest as (rest & stb & Hrec & [= <- _]).
  constructor; [|by eapply IH]. by eapply unique_latex_traced_sourced.
Qed.

Lemma compose_tokens_sourced s st toks st1 :
  compose_tokens s st = (Ok toks, st1) → Forall token_sourced toks.
Proof.
  unfold compose_tokens.
  destruct (bool_decide (strip s = ""%string)); [done|].
  destruct (bool_decide (clean_number s = ""%string)); [done|].
  destruct (segment (has_plus s) (clean_number s)) as [cc main].
  intros ([] & st0 & _ & Hrest)%bind_inv.
  apply bind_inv in Hrest as (code & sta & Hcode & Hrest).
  apply bind_inv in Hrest as (mainp & stb & Hmain & [= <- _]).
  rewrite !Forall_app. split_and!.
  - destruct (has_plus s); by repeat constructor.
  - destruct (bool_decide (cc = ""%string)).
    + injection Hcode as <- _. constructor.
    + apply bind_inv in Hcode as (t & stc & Ht%digit_tokens_sourced & [= <- _]).
      apply Forall_app. split; [done|]. by repeat constructor.
  - destruct (String.length main =? 10); [|by eapply digit_tokens_sourced].
    cbv zeta in Hmain.
    apply bind_inv in Hmain as (a & stc & Ha%digit_tokens_sourced & Hmain).
    apply bind_inv in Hmain as (x & std & Hx%digit_tokens_sourced & Hmain).
    apply bind_inv in Hmain as (l & ste & Hl%digit_tokens_sourced & [= <- _]).
    repeat first [ done | apply Forall_cons_2 | apply Forall_app_2 | apply Forall_nil_2 ].
Qed.

Lemma eq_placeholder_inj v1 v2 :
  eq_placeholder (String v1 "") = eq_placeholder (String v2 "") → v1 = v2.
Proof. by intros [= ->]. Qed.

Lemma from_collection_bracketed d e : from_collection d e → bracketed e = true.
Proof.
  intros (gt & st & l & st' & Hget & Hrun & He).
  destruct (provider_result_ok _ gt st Hget) as (l' & st'' & Hrun' & _ & _ & Hall).
  rewrite Hrun in Hrun'. injection Hrun' as <- _.
  rewrite forallb_forall in Hall. by apply Hall, list_elem_of_In.
Qed.

(** X16: in a token stream returned by the composer, the expression of a
    digit token determines the digit: two digit tokens that carry the same
    expression stand for the same digit character. *)
Theorem expression_determines_digit (s : string) (st st' : State) (toks : list Token)
    (v1 v2 : ascii) (o1 o2 : Origin) (e : string) :
  compose_tokens s st = (Ok toks, st') →
  Digit v1 o1 e ∈ toks → Digit v2 o2 e ∈ toks → v1 = v2.
Proof.
  intros Hrun H1 H2. pose proof (compose_tokens_sourced _ _ _ _ Hrun) as Hsrc.
  rewrite Forall_forall in Hsrc.
  pose proof (Hsrc _ H1) as S1. pose proof (Hsrc _ H2) as S2. cbn in S1, S2.
  destruct S1 as [[_ E1]|C1], S2 as [[_ E2]|C2].
  - subst e. by apply eq_placeholder_inj.
  - apply from_collection_bracketed in C2. by subst e.
  - apply from_collection_bracketed in C1. by subst e.
  - by eapply collection_digit_unique.
Qed.

Lemma expression_determines_digit_witness :
  ∃ toks st' e,
    compose_tokens "+7 7" (mkState [6; 1] ∅) = (Ok toks, st')
    ∧ Digit "7" Fresh e ∈ toks ∧ "7"%char = "7"%char.
Proof.
  destruct (compose_tokens "+7 7" (mkState [6; 1] ∅)) as [[toks|x] st'] eqn:Hrun;
    [|by vm_compute in Hrun].
  assert (∃ e, Digit "7" Fresh e ∈ toks) as [e He].
  { vm_compute in Hrun. injection Hrun as <- _. eexists. apply list_elem_of_further,
      list_elem_of_here. }
  exists toks, st', e. split_and!; [done | done |].
  exact (expression_determines_digit _ _ _ _ "7" "7" Fresh Fresh e Hrun He He).
Defined.

(** X17: each public wrapper [eq_<d>] returns, whatever the generator
    yields and without touching the used set, a bracketed expression of the
    collection of its own digit; it never raises. *)
Theorem public_wrappers_draw_from_collection (d : ascii) (eq_d : M string) (st : State) :
  (d, eq_d) ∈ public_wrappers →
  ∃ e rest,
    eq_d st = (Ok e, mkState rest (used_formulas st))
    ∧ from_collection d e ∧ bracketed e = true.
Proof.
  intros Hin.
  assert (∃ gt, getattr (provider_name d) = Some gt ∧ eq_d = draw gt) as (gt & Hget & ->).
  { unfold public_wrappers in Hin.
    repeat (apply elem_of_cons in Hin as [[= -> ->]|Hin]; [by eexists|]).
    by apply elem_of_nil in Hin. }
  pose proof (getattr_provider_ok _ _ Hget) as Hok.
  destruct (Hok st) as (l & rest & Hl & Hne & Hall).
  destruct (choice_elem l (mkState rest (used_formulas st)) Hne) as (e & rest' & He & Hel).
  assert (from_collection d e) as Hfrom by by exists gt, st, l, (mkState rest (used_formulas st)).
  exists e, rest'. split_and!; [|done|by eapply from_collection_bracketed].
  unfold draw. by rewrite (bind_Ok _ _ _ _ _ Hl).
Qed.

Lemma public_wrappers_draw_from_collection_witness :
  ∃ e rest, eq_4 (mkState [11; 5] ∅) = (Ok e, mkState rest ∅) ∧ from_collection "4" e.
Proof.
  destruct (public_wrappers_draw_from_collection "4" eq_4 (mkState [11; 5] ∅))
    as (e & rest & Hrun & Hfrom & _).
  - unfold public_wrappers. do 4 apply list_elem_of_further. apply list_elem_of_here.
  - by exists e, rest.
Defined.

End Collections.

(** ** The signature line *)

Section Signature.
Import PyStr Runtime EquationBank LatexProcessor Vocabulary ExtraVocabulary.

Lemma escape_char_plain c : latex_special c = false → escape_char c = String c "".
Proof.
  unfold latex_special, escape_char. intros H.
  repeat (apply orb_false_iff in H as [H ?]).
  repeat match goal with Hx : bool_decide _ = false |- _ => rewrite Hx; clear Hx end.
  done.
Qed.

Lemma unescape_escape_char c rest :
  unescape_from 0 (escape_char c ++ rest) = String c (unescape_from 0 rest).
Proof.
  destruct (latex_special c) eqn:Hc.
  - unfold latex_special in Hc.
    repeat (apply orb_prop in Hc as [Hc|Hc]);
      apply bool_decide_eq_true in Hc; subst c; reflexivity.
  - rewrite (escape_char_plain c Hc), s_app_cons, s_app_nil_l.
    cbn [unescape_from]. rewrite bool_decide_eq_false_2; [done|].
    intros ->. done.
Qed.

Lemma unescape_escape s : unescape_from 0 (escape_signature s) = s.
Proof.
  induction s as [|c s IH]; [done|].
  cbn [escape_signature]. by rewrite unescape_escape_char, IH.
Qed.

Lemma escape_plain s :
  all_chars (λ c, negb (latex_special c)) s = true → escape_signature s = s.
Proof.
  induction s as [|c s IH]; [done|]. cbn [all_chars escape_signature].
  intros [Hc%negb_true_iff Hs]%andb_prop.
  by rewrite (escape_char_plain c Hc), IH, s_app_cons, s_app_nil_l.
Qed.

Lemma escape_char_length c : 1 ≤ String.length (escape_char c).
Proof. unfold escape_char. repeat (case_bool_decide; [cbn; lia|]). cbn. lia. Qed.

Lemma escape_special_longer c :
  latex_special c = true → 2 ≤ String.length (escape_char c).
Proof.
  unfold latex_special, escape_char. intros H.
  repeat (case_bool_decide; [cbn; lia|]). done.
Qed.

Lemma escape_length s : String.length s ≤ String.length (escape_signature s).
Proof.
  induction s as [|c s IH]; [done|]. cbn [escape_signature String.length].
  rewrite length_app_s. pose proof (escape_char_length c). lia.
Qed.

Lemma escape_fixed s :
  escape_signature s = s → all_chars (λ c, negb (latex_special c)) s = true.
Proof.
  induction s as [|c s IH]; [done|]. cbn [all_chars escape_signature]. intros Heq.
  destruct (latex_special c) eqn:Hc.
  - apply (f_equal String.length) in Heq. rewrite length_app_s in Heq. cbn in Heq.
    pose proof (escape_special_longer c Hc). pose proof (escape_length s). lia.
  - rewrite (escape_char_plain c Hc), s_app_cons, s_app_nil_l in Heq.
    injection Heq as Heq. by rewrite IH.
Qed.

(** X18: the translation of the signature text for LaTeX loses nothing:
    two texts with the same translation are the same text, and the
    translation leaves a text unchanged exactly when the text holds none of
    the eight replaced characters. *)
Theorem escape_signature_faithful (s t : string) :
  (escape_signature s = escape_signature t → s = t)
  ∧ (escape_signature s = s ↔ all_chars (λ c, negb (latex_special c)) s = true).
Proof.
  split; [|split; [apply escape_fixed | apply escape_plain]].
  intros Heq. by rewrite <-(unescape_escape s), Heq, unescape_escape.
Qed.

Lemma escape_signature_faithful_witness :
  escape_signature "Call me" = "Call me".
Proof.
  apply (proj2 (proj2 (escape_signature_faithful "Call me" ""))). reflexivity.
Defined.

End Signature.
